(** * GAJ: scheduling server and calendar, a shallow embedding

    The development follows [server/server.js] (the HTTP handlers over the
    SQLite store) and [src/Home.jsx] (the month grid).  JavaScript values
    that reach the handlers come from [JSON.parse]; the store is the pair of
    tables [users] and [schedules]; [bcryptjs] and the SQLite driver are
    collaborators of the program and appear as an interface. *)

From Stdlib Require Import ZArith List String Ascii Bool Lia DecimalString.
From Stdlib Require DecimalPos.
Import ListNotations.

Local Open Scope string_scope.
Local Open Scope list_scope.
Local Open Scope Z_scope.

(** ** JavaScript values *)

Module Js.

#[local] Unset Elimination Schemes.

(** What [JSON.parse] can return, plus [undefined] for an absent property.
    Numbers are the integer-valued ones. *)
Inductive JsValue : Type :=
| JUndefined
| JNull
| JBool (b : bool)
| JNum (n : Z)
| JStr (s : string)
| JArr (items : list JsValue)
| JObj (props : list (string * JsValue)).

#[local] Set Elimination Schemes.

Inductive JsType : Type :=
| TUndefined | TObject | TBoolean | TNumber | TString.

Definition typeof (v : JsValue) : JsType :=
  match v with
  | JUndefined => TUndefined
  | JNull | JArr _ | JObj _ => TObject
  | JBool _ => TBoolean
  | JNum _ => TNumber
  | JStr _ => TString
  end.

(** ToBoolean: what [!v], [v ? a : b] and [v || w] test. *)
Definition truthy (v : JsValue) : bool :=
  match v with
  | JUndefined | JNull => false
  | JBool b => b
  | JNum n => negb (n =? 0)
  | JStr s => negb (s =? "")%string
  | JArr _ | JObj _ => true
  end.

(** [v || w] *)
Definition or_else (v w : JsValue) : JsValue :=
  if truthy v then v else w.

(** Own properties of a parsed object, in source order: a later duplicate
    key overrides an earlier one, as in [JSON.parse]. *)
Fixpoint lookup (k : string) (props : list (string * JsValue)) : option JsValue :=
  match props with
  | [] => None
  | (k', v) :: rest =>
      match lookup k rest with
      | Some w => Some w
      | None => if (k =? k')%string then Some v else None
      end
  end.

(** [v.k] for the property names the handlers read; a value that is not an
    object has none of them. *)
Definition get (v : JsValue) (k : string) : JsValue :=
  match v with
  | JObj props => match lookup k props with Some w => w | None => JUndefined end
  | _ => JUndefined
  end.

(** [v === n] for a number literal [n], [v === s] for a string. *)
Definition is_num (v : JsValue) (n : Z) : bool :=
  match v with JNum m => m =? n | _ => false end.

Definition is_str (v : JsValue) (s : string) : bool :=
  match v with JStr t => (t =? s)%string | _ => false end.

End Js.
Import Js.

(** ** Time window validator *)

Module TimeWindow.

Definition char_between (lo hi c : ascii) : bool :=
  (nat_of_ascii lo <=? nat_of_ascii c)%nat && (nat_of_ascii c <=? nat_of_ascii hi)%nat.

(** [\d] *)
Definition is_digit (c : ascii) : bool := char_between "0" "9" c.

Definition digit_value (c : ascii) : Z :=
  Z.of_nat (nat_of_ascii c) - 48.

(** [parseInt(s, 10)] on a string of decimal digits (what the capture
    groups of the patterns below hold); [None] is NaN. *)
Fixpoint parse_digits (acc : Z) (s : string) : option Z :=
  match s with
  | EmptyString => Some acc
  | String c rest =>
      if is_digit c then parse_digits (10 * acc + digit_value c) rest else None
  end.

Definition parseInt (s : string) : option Z :=
  match s with
  | EmptyString => None
  | _ => parse_digits 0 s
  end.

(** [time.match(/^([0-2]\d):([0-5]\d)$/)]: the two capture groups. *)
Definition match_HHMM (time : string) : option (string * string) :=
  match time with
  | String h1 (String h2 (String c (String m1 (String m2 EmptyString)))) =>
      if char_between "0" "2" h1 && is_digit h2 && (c =? ":")%char
         && char_between "0" "5" m1 && is_digit m2
      then Some (String h1 (String h2 EmptyString), String m1 (String m2 EmptyString))
      else None
  | _ => None
  end.

(** [time.match(/^([0-2]?\d):([0-5]\d)$/)], the pattern of the form's
    validator in [Agendamento.jsx]. *)
Definition match_HMM (time : string) : option (string * string) :=
  match time with
  | String h (String c (String m1 (String m2 EmptyString))) =>
      if is_digit h && (c =? ":")%char && char_between "0" "5" m1 && is_digit m2
      then Some (String h EmptyString, String m1 (String m2 EmptyString))
      else None
  | _ => match_HHMM time
  end.

(** The body shared by both validators after the match. *)
Definition in_window (groups : string * string) : bool :=
  match parseInt (fst groups), parseInt (snd groups) with
  | Some hh, Some mm =>
      let minutes := hh * 60 + mm in
      let start := 6 * 60 in
      let end_ := 18 * 60 in
      (start <=? minutes) && (minutes <=? end_)
  | _, _ => false
  end.

(** [validateHour] of [server/server.js]. *)
Definition validateHour (time : JsValue) : bool :=
  match time with
  | JStr t =>
      match match_HHMM t with
      | None => false
      | Some groups => in_window groups
      end
  | _ => false
  end.

(** [validateHour] of the scheduling form ([Agendamento.jsx]). *)
Definition validateHour_form (time : JsValue) : bool :=
  match time with
  | JStr t =>
      match match_HMM t with
      | None => false
      | Some groups => in_window groups
      end
  | _ => false
  end.

(** *** Vocabulary of the statements *)

(** The character of a decimal digit. *)
Definition digit (d : Z) : ascii := ascii_of_nat (48 + Z.to_nat d).

(** The string [h1 h2 : m1 m2] of four digits. *)
Definition HHMM (h1 h2 m1 m2 : Z) : string :=
  String (digit h1) (String (digit h2) (String ":"
    (String (digit m1) (String (digit m2) EmptyString)))).

(** The values the pattern [HH:MM] describes: strings of two hour digits
    from 00 to 29, a colon and two minute digits from 00 to 59. *)
Definition is_HHMM (v : JsValue) : Prop :=
  exists h1 h2 m1 m2,
    0 <= h1 <= 2 /\ 0 <= h2 <= 9 /\ 0 <= m1 <= 5 /\ 0 <= m2 <= 9 /\
    v = JStr (HHMM h1 h2 m1 m2).

(** The string [h : m1 m2] with a single hour digit. *)
Definition HMM (h m1 m2 : Z) : string :=
  String (digit h) (String ":" (String (digit m1) (String (digit m2) EmptyString))).

End TimeWindow.

(** ** The store *)

Module Store.

(** A row of [users].  Every column but [cpf] is filled by each INSERT of
    the program; the bootstrap administrator is inserted without [cpf]. *)
Record User : Type := mkUser {
  user_id : Z;
  name : string;
  email : string;
  password : string;
  cpf : option string;
  is_admin : Z;
  approved : Z
}.

(** A row of [schedules]. *)
Record Schedule : Type := mkSchedule {
  schedule_id : Z;
  lawyer : string;
  client : string;
  process_number : string;
  online : Z;
  date : string;
  time : string;
  notes : string
}.

(** Both tables in rowid order, each with the largest rowid its
    AUTOINCREMENT sequence has handed out. *)
Record Db : Type := mkDb {
  users : list User;
  users_seq : Z;
  schedules : list Schedule;
  schedules_seq : Z
}.

Definition set_approved (a : Z) (u : User) : User :=
  mkUser (user_id u) (name u) (email u) (password u) (cpf u) (is_admin u) a.

Definition set_online (o : Z) (s : Schedule) : Schedule :=
  mkSchedule (schedule_id s) (lawyer s) (client s) (process_number s) o
             (date s) (time s) (notes s).

Definition matches (key : option Z) (id : Z) : bool :=
  match key with
  | Some k => k =? id
  | None => false
  end.

(** [UPDATE t SET ... WHERE id = ?]: the new table and [this.changes], the
    number of rows the WHERE clause selected. *)
Definition update_where {R : Type} (sel : R -> bool) (f : R -> R) (rows : list R)
  : list R * Z :=
  (map (fun r => if sel r then f r else r) rows,
   Z.of_nat (List.length (filter sel rows))).

(** AUTOINCREMENT: one more than the largest rowid ever used. *)
Definition next_rowid (ids : list Z) (seq : Z) : Z :=
  fold_right Z.max seq ids + 1.

End Store.
Import Store.

(** ** The server *)

Module Server.

(** The libraries the handlers call.  [bcrypt_hash] salts from a random
    source, here the index of the draw; it and [bcrypt_compare] answer
    [None] when the library reports an error to its callback.
    [driver_text] is the text SQLite keeps when a value that is not a
    string is bound to a TEXT column, [driver_rowid] the integer, if any,
    that SQLite finds equal to a bound value that is neither a number nor
    a string of decimal digits when it compares it with the INTEGER
    PRIMARY KEY. *)
Class Collaborators : Type := {
  bcrypt_hash : nat -> JsValue -> option string;
  bcrypt_compare : JsValue -> string -> option bool;
  driver_text : JsValue -> string;
  driver_rowid : JsValue -> option Z
}.

(** The calls to the credential functions, as a log. *)
Inductive Call : Type :=
| CallVerifyPassword (stored : string) (provided : JsValue)
| CallBcryptCompare (provided : JsValue) (stored : string)
| CallBcryptHash (password : JsValue).

(** The state a request runs in: the store, the number of salts drawn so
    far, and the calls made so far, oldest first. *)
Record World : Type := mkWorld {
  db : Db;
  entropy : nat;
  calls : list Call
}.

(** Handlers are state transformers over [World]; every request runs to
    its response before the next one starts, and the store answers every
    statement (the [if (err)] branches of the store callbacks, which
    answer 500, are not taken) except where a UNIQUE constraint fails.
    POST /schedules is followed with its error branch in [Faults]. *)
Definition M (A : Type) : Type := World -> A * World.

Definition ret {A : Type} (a : A) : M A := fun w => (a, w).

Definition bind {A B : Type} (m : M A) (k : A -> M B) : M B :=
  fun w => let (a, w') := m w in k a w'.

Notation "x <- m ;; k" := (bind m (fun x => k))
  (at level 61, m at next level, right associativity).
Notation "m ;;; k" := (bind m (fun _ => k))
  (at level 61, right associativity).

Definition read_db : M Db := fun w => (db w, w).

Definition write_db (d : Db) : M unit :=
  fun w => (tt, mkWorld d (entropy w) (calls w)).

Definition record (c : Call) : M unit :=
  fun w => (tt, mkWorld (db w) (entropy w) (calls w ++ [c])).

Definition draw_salt : M nat :=
  fun w => (entropy w, mkWorld (db w) (S (entropy w)) (calls w)).

(** Responses: the JSON payloads the handlers send, by shape. *)
Record PublicUser : Type := mkPublicUser {
  pub_id : Z;
  pub_name : string;
  pub_email : string;
  pub_is_admin : Z
}.

Inductive Payload : Type :=
| Error (error : string)
| LoginOk (user : PublicUser)
| Success (message : string)
| Created (id : Z) (message : string)
| OneSchedule (schedule : Schedule)
| ByDate (date : string) (rows : list Schedule)
| OnlineSet (id : string) (online : Z).

Record Response : Type := mkResponse {
  status : Z;
  payload : Payload
}.

Definition sendJSON (data : Payload) (statusCode : Z) : Response :=
  mkResponse statusCode data.

(** What [parseBody] settles to: the parsed value ([null] for an empty
    body) or a rejection with its message. *)
Inductive Parsed : Type :=
| Rejected (message : string)
| Resolved (body : JsValue).

Section Handlers.

Context `{Collaborators}.

(** A value bound to a TEXT column, or compared with one. *)
Definition sqlite_text (v : JsValue) : string :=
  match v with
  | JStr s => s
  | _ => driver_text v
  end.

(** [/^\d+$/.test(param)] *)
Definition all_digits (param : string) : bool :=
  match param with
  | EmptyString => false
  | _ => forallb TimeWindow.is_digit (list_ascii_of_string param)
  end.

(** A value compared with the rowid in [WHERE id = ?].  The column is an
    INTEGER PRIMARY KEY: a bound string of decimal digits is compared as
    the integer it writes; what any other string, a boolean, an array or
    an object compares equal to is left to the driver. *)
Definition sqlite_rowid (v : JsValue) : option Z :=
  match v with
  | JNum n => Some n
  | JUndefined | JNull => None
  | JStr s => if all_digits s then TimeWindow.parseInt s else driver_rowid v
  | _ => driver_rowid v
  end.

(** [parseBody(req).then(k).catch(err => sendJSON(... 400))] *)
Definition with_body (parsed : Parsed) (k : JsValue -> M Response) : M Response :=
  match parsed with
  | Rejected message =>
      ret (sendJSON (Error (if (message =? "")%string then "JSON inválido" else message)) 400)
  | Resolved body => k body
  end.

Definition hashPassword (password : JsValue) : M (option string) :=
  record (CallBcryptHash password) ;;;
  salt <- draw_salt ;;
  ret (bcrypt_hash salt password).

Definition checkPassword (password : JsValue) (hash : string) : M (option bool) :=
  record (CallBcryptCompare password hash) ;;;
  ret (bcrypt_compare password hash).

(** The local helper of the login handler. *)
Definition verifyPassword (stored : string) (provided : JsValue) : M bool :=
  record (CallVerifyPassword stored provided) ;;;
  if is_str provided stored then ret true
  else
    r <- checkPassword provided stored ;;
    match r with
    | Some ok => ret ok
    | None => ret false
    end.

(** [SELECT ... FROM users WHERE email = ?] through [db.get]. *)
Definition select_user_by_email (email : JsValue) : M (option User) :=
  d <- read_db ;;
  ret (find (fun u => (Store.email u =? sqlite_text email)%string) (users d)).

(** POST /login *)
Definition login (parsed : Parsed) : M Response :=
  with_body parsed (fun body =>
    if negb (truthy body) || negb (truthy (get body "email"))
       || negb (truthy (get body "password"))
    then ret (sendJSON (Error "Email e password são requeridos") 400)
    else
      let email := get body "email" in
      let password := get body "password" in
      row <- select_user_by_email email ;;
      match row with
      | None => ret (sendJSON (Error "Usuário não encontrado") 404)
      | Some row =>
          if approved row =? 0
          then ret (sendJSON (Error "Aguardando aprovação") 403)
          else
            ok <- verifyPassword (Store.password row) password ;;
            if negb ok then ret (sendJSON (Error "Senha incorreta") 401)
            else
              let user := mkPublicUser (user_id row) (name row) (Store.email row)
                                       (if is_admin row =? 1 then 1 else 0) in
              ret (sendJSON (LoginOk user) 200)
      end).

(** [db.run('UPDATE users SET approved = 1 WHERE id = ?', [id])]: answers
    [this.changes]. *)
Definition update_user_approved (id : JsValue) : M Z :=
  d <- read_db ;;
  let (rows, changes) :=
    update_where (fun u => matches (sqlite_rowid id) (user_id u)) (set_approved 1) (users d) in
  write_db (mkDb rows (users_seq d) (schedules d) (schedules_seq d)) ;;;
  ret changes.

(** PUT /users/approve *)
Definition approve (parsed : Parsed) : M Response :=
  with_body parsed (fun body =>
    if negb (truthy body)
       || match typeof (get body "id") with TUndefined => true | _ => false end
    then ret (sendJSON (Error "Campo id é requerido") 400)
    else
      let id := get body "id" in
      changes <- update_user_approved id ;;
      if changes =? 0 then ret (sendJSON (Error "Usuário não encontrado") 404)
      else ret (sendJSON (Success "Usuário aprovado") 200)).

(** [INSERT INTO users ...]: answers [this.lastID], or [None] when the
    UNIQUE constraint on [email] refuses the row. *)
Definition insert_user (name email hash cpf : string) (approved is_admin : Z)
  : M (option Z) :=
  d <- read_db ;;
  if existsb (fun u => (Store.email u =? email)%string) (users d) then ret None
  else
    let id := next_rowid (map user_id (users d)) (users_seq d) in
    let row := mkUser id name email hash (Some cpf) is_admin approved in
    write_db (mkDb (users d ++ [row]) id (schedules d) (schedules_seq d)) ;;;
    ret (Some id).

(** POST /users *)
Definition create_user (parsed : Parsed) : M Response :=
  with_body parsed (fun body =>
    if negb (truthy body) || negb (truthy (get body "name"))
       || negb (truthy (get body "email")) || negb (truthy (get body "password"))
    then ret (sendJSON (Error "Campos name, email e password são requeridos") 400)
    else
      let name := get body "name" in
      let email := get body "email" in
      let password := get body "password" in
      let cpf := get body "cpf" in
      row <- select_user_by_email email ;;
      match row with
      | Some _ => ret (sendJSON (Error "Email já cadastrado") 409)
      | None =>
          let approvedFlag :=
            if is_num (get body "approved") 1 || is_str (get body "approved") "1"
            then 1 else 0 in
          let adminFlag :=
            if is_num (get body "is_admin") 1 || is_str (get body "is_admin") "1"
            then 1 else 0 in
          h <- hashPassword password ;;
          match h with
          | None => ret (sendJSON (Error "Erro interno") 500)
          | Some hash =>
              r <- insert_user (sqlite_text name) (sqlite_text email) hash
                               (sqlite_text (or_else cpf (JStr ""))) approvedFlag adminFlag ;;
              match r with
              | None => ret (sendJSON (Error "Erro interno") 500)
              | Some lastID =>
                  let msg := if approvedFlag =? 1 then "Usuário criado e aprovado"
                             else "Cadastro enviado, aguarde aprovação" in
                  ret (sendJSON (Created lastID msg) 201)
              end
          end
      end).

(** GET /schedules/:id and GET /schedules/:date; [param] is the second
    segment of the path. *)
Definition get_schedule (param : string) : M Response :=
  if (param =? "")%string
  then ret (sendJSON (Error "Parâmetro não informado") 400)
  else
    d <- read_db ;;
    if all_digits param then
      let id := JStr param in
      match find (fun s => matches (sqlite_rowid id) (schedule_id s)) (schedules d) with
      | None => ret (sendJSON (Error "Agendamento não encontrado") 404)
      | Some row => ret (sendJSON (OneSchedule row) 200)
      end
    else
      let date := param in
      let rows := filter (fun s => (Store.date s =? date)%string) (schedules d) in
      ret (sendJSON (ByDate date rows) 200).

(** [INSERT INTO schedules ...]: answers [this.lastID]. *)
Definition insert_schedule (lawyer client process_number : string) (online : Z)
           (date time notes : string) : M Z :=
  d <- read_db ;;
  let id := next_rowid (map schedule_id (schedules d)) (schedules_seq d) in
  let row := mkSchedule id lawyer client process_number online date time notes in
  write_db (mkDb (users d) (users_seq d) (schedules d ++ [row]) id) ;;;
  ret id.

(** POST /schedules *)
Definition create_schedule (parsed : Parsed) : M Response :=
  with_body parsed (fun body =>
    if negb (truthy body) then ret (sendJSON (Error "Body requerido") 400)
    else
      let lawyer := get body "lawyer" in
      let client := get body "client" in
      let process_number := get body "process_number" in
      let online := get body "online" in
      let date := get body "date" in
      let time := get body "time" in
      let notes := get body "notes" in
      if negb (truthy lawyer) || negb (truthy client) || negb (truthy date)
         || negb (truthy time)
      then ret (sendJSON (Error "Campos obrigatórios ausentes") 400)
      else if negb (TimeWindow.validateHour time)
      then ret (sendJSON (Error "Horário inválido (deve ser entre 06:00 e 18:00)") 400)
      else
        lastID <- insert_schedule (sqlite_text lawyer) (sqlite_text client)
                    (sqlite_text (or_else process_number (JStr "")))
                    (if truthy online then 1 else 0)
                    (sqlite_text date) (sqlite_text time)
                    (sqlite_text (or_else notes (JStr ""))) ;;
        ret (sendJSON (Created lastID "Agendamento criado") 201)).

(** [db.run('UPDATE schedules SET online = ? WHERE id = ?', [online, id])]:
    answers [this.changes]. *)
Definition update_schedule_online (online : Z) (id : string) : M Z :=
  d <- read_db ;;
  let (rows, changes) :=
    update_where (fun s => matches (sqlite_rowid (JStr id)) (schedule_id s))
                 (set_online online) (schedules d) in
  write_db (mkDb (users d) (users_seq d) rows (schedules_seq d)) ;;;
  ret changes.

(** PUT /schedules/:id; [id] is the second segment of the path. *)
Definition update_schedule (id : string) (parsed : Parsed) : M Response :=
  if (id =? "")%string then ret (sendJSON (Error "ID não informado") 400)
  else
    with_body parsed (fun body =>
      if negb (truthy body) then ret (sendJSON (Error "Body requerido") 400)
      else
        let online :=
          match typeof (get body "online") with
          | TUndefined => None
          | _ => Some (if truthy (get body "online") then 1 else 0)
          end in
        match online with
        | None => ret (sendJSON (Error "Campo online requerido") 400)
        | Some online =>
            changes <- update_schedule_online online id ;;
            if changes =? 0
            then ret (sendJSON (Error "Agendamento não encontrado") 404)
            else ret (sendJSON (OnlineSet id online) 200)
        end).

End Handlers.

(** *** Vocabulary of the statements *)

(** The test the start-up code applies to a stored password to tell a
    bcrypt digest from a legacy plain text: [pwd.startsWith('$2')]. *)
Definition looks_hashed (stored : string) : bool := prefix "$2" stored.

(** The calls a run added to the log. *)
Definition new_calls (before after : World) : list Call :=
  skipn (List.length (calls before)) (calls after).

(** A credential check that selects its mode by the stored format: on a
    stored value with the digest prefix it runs the bcrypt comparison and
    follows it; on any other it compares the strings and runs none. *)
Definition selects_mode_by_format `{Collaborators}
           (stored : string) (provided : JsValue) (w : World) : Prop :=
  let (ok, w') := verifyPassword stored provided w in
  if looks_hashed stored
  then In (CallBcryptCompare provided stored) (new_calls w w')
       /\ ok = match bcrypt_compare provided stored with Some b => b | None => false end
  else ~ In (CallBcryptCompare provided stored) (new_calls w w')
       /\ ok = is_str provided stored.

(** The world after [UPDATE users SET approved = 1 WHERE id = ?], [key]
    being the rowid the bound id compares equal to. *)
Definition approved_world (key : option Z) (w : World) : World :=
  mkWorld (mkDb (map (fun u => if matches key (user_id u) then set_approved 1 u else u)
                     (users (db w)))
                (users_seq (db w)) (schedules (db w)) (schedules_seq (db w)))
          (entropy w) (calls w).

(** The world after [UPDATE schedules SET online = ? WHERE id = ?]. *)
Definition online_world (key : option Z) (o : Z) (w : World) : World :=
  mkWorld (mkDb (users (db w)) (users_seq (db w))
                (map (fun s => if matches key (schedule_id s) then set_online o s else s)
                     (schedules (db w)))
                (schedules_seq (db w)))
          (entropy w) (calls w).

(** A text field of a request: the string given, or the empty string for
    a field left out. *)
Definition text_or_absent (v : JsValue) (s : string) : Prop :=
  v = JStr s \/ (v = JUndefined /\ s = "").

(** Stand-ins for the collaborators, to run the handlers on concrete
    requests: a transparent digest (the prefix [$2a$] before the
    password), decimal text for numbers and decimal strings as rowids. *)
Definition plain_collaborators : Collaborators := {|
  bcrypt_hash := fun _ password =>
    match password with
    | JStr s => Some ("$2a$" ++ s)%string
    | _ => None
    end;
  bcrypt_compare := fun provided stored =>
    match provided with
    | JStr s => Some (stored =? ("$2a$" ++ s)%string)%string
    | _ => None
    end;
  driver_text := fun v =>
    match v with
    | JNum n => NilZero.string_of_int (Z.to_int n)
    | JBool true => "1"
    | JBool false => "0"
    | _ => ""
    end;
  driver_rowid := fun v =>
    match v with
    | JStr s => TimeWindow.parseInt s
    | JBool true => Some 1
    | JBool false => Some 0
    | _ => None
    end
|}.

Definition empty_db : Db := mkDb [] 0 [] 0.

Definition empty_world : World := mkWorld empty_db 0 [].

(** A small office: a pending user with a legacy plain-text password, an
    approved administrator whose password is kept as a bcrypt digest, and
    one hearing. *)
Definition ana : User :=
  mkUser 1 "Ana" "ana@gaj.br" "segredo" (Some "") 0 0.

Definition digest : string :=
  "$2a$10$N9qo8uLOickgx2ZMRZoMyeIjZAgcfl7p92ldGxad68LJZdL17lhWy".

Definition rui : User :=
  mkUser 2 "Rui" "rui@gaj.br" digest None 1 1.

Definition hearing : Schedule :=
  mkSchedule 1 "Rui" "Carla" "0001" 0 "2024-02-01" "09:30" "".

Definition office : World :=
  mkWorld (mkDb [ana; rui] 2 [hearing] 1) 0 [].

(** [{ k1: v1, ... }] with string values. *)
Definition object (fields : list (string * string)) : JsValue :=
  JObj (map (fun kv => (fst kv, JStr (snd kv))) fields).

End Server.

(** ** Calendar projection *)

Module Calendar.

(** *** The [Date] of the language, as far as [Home.jsx] uses it

    A [Date] is its time value, the milliseconds since the start of 1970
    in UTC, or [None] for an Invalid Date.  The constructor reads year,
    month and day as a local time and the getters answer in local time;
    the time zone of the machine is a parameter.  The definitions are
    those of the language standard (Day Number, Year Number, Month Number,
    Date Number, Week Day, LocalTZA, LocalTime, UTC, MakeDay, MakeDate,
    TimeClip); those on a day number take [Day t]. *)

Definition msPerDay : Z := 86400000.

Definition msPerHour : Z := 3600000.

Definition Day (t : Z) : Z := t / msPerDay.

Definition DaysInYear (y : Z) : Z :=
  if negb (y mod 4 =? 0) then 365
  else if negb (y mod 100 =? 0) then 366
  else if negb (y mod 400 =? 0) then 365
  else 366.

Definition DayFromYear (y : Z) : Z :=
  365 * (y - 1970) + (y - 1969) / 4 - (y - 1901) / 100 + (y - 1601) / 400.

(** The largest year that starts on or before day [d]: an estimate from
    the mean length of a year, off by one at most, then corrected. *)
Definition YearFromDay (d : Z) : Z :=
  let y := 1970 + (400 * d) / 146097 in
  if d <? DayFromYear y then y - 1
  else if DayFromYear (y + 1) <=? d then y + 1
  else y.

Definition InLeapYear (d : Z) : Z :=
  DaysInYear (YearFromDay d) - 365.

Definition DayWithinYear (d : Z) : Z :=
  d - DayFromYear (YearFromDay d).

(** The day within the year on which month [m] (0 to 11) starts. *)
Definition month_start (leap m : Z) : Z :=
  match m with
  | 0 => 0
  | 1 => 31
  | 2 => 59 + leap
  | 3 => 90 + leap
  | 4 => 120 + leap
  | 5 => 151 + leap
  | 6 => 181 + leap
  | 7 => 212 + leap
  | 8 => 243 + leap
  | 9 => 273 + leap
  | 10 => 304 + leap
  | _ => 334 + leap
  end.

Definition MonthFromDay (d : Z) : Z :=
  let n := DayWithinYear d in
  let leap := InLeapYear d in
  if n <? 31 then 0
  else if n <? 59 + leap then 1
  else if n <? 90 + leap then 2
  else if n <? 120 + leap then 3
  else if n <? 151 + leap then 4
  else if n <? 181 + leap then 5
  else if n <? 212 + leap then 6
  else if n <? 243 + leap then 7
  else if n <? 273 + leap then 8
  else if n <? 304 + leap then 9
  else if n <? 334 + leap then 10
  else 11.

Definition DateFromDay (d : Z) : Z :=
  DayWithinYear d - month_start (InLeapYear d) (MonthFromDay d) + 1.

Definition WeekDay (d : Z) : Z := (d + 4) mod 7.

Definition MakeDay (year month date : Z) : Z :=
  let ym := year + month / 12 in
  let mn := month mod 12 in
  DayFromYear ym + month_start (DaysInYear ym - 365) mn + date - 1.

Definition MakeDate (day time : Z) : Z := day * msPerDay + time.

(** The local time zone.  [LocalTZA z t isUTC] is the offset of local time
    from UTC in milliseconds: at the UTC time [t] when [isUTC] holds, at
    the local time [t] otherwise.  (In the standard a local time that a
    change of offset skips or repeats is read with the offset before the
    change.) *)
Record Zone : Type := mkZone {
  LocalTZA : Z -> bool -> Z
}.

Definition LocalTime (z : Zone) (t : Z) : Z := t + LocalTZA z t true.

Definition UTC (z : Zone) (t : Z) : Z := t - LocalTZA z t false.

(** TimeClip: a time value is kept within 100,000,000 days of the epoch. *)
Definition TimeClip (time : Z) : option Z :=
  if Z.abs time <=? 8640000000000000 then Some time else None.

(** [new Date(year, month, date)]: local midnight of that day; a year from
    0 to 99 means 1900 + year. *)
Definition full_year (year : Z) : Z :=
  if (0 <=? year) && (year <=? 99) then 1900 + year else year.

Definition new_Date (z : Zone) (year month date : Z) : option Z :=
  TimeClip (UTC z (MakeDate (MakeDay (full_year year) month date) 0)).

Definition getDay (z : Zone) (d : option Z) : option Z :=
  option_map (fun t => WeekDay (Day (LocalTime z t))) d.
Definition getDate (z : Zone) (d : option Z) : option Z :=
  option_map (fun t => DateFromDay (Day (LocalTime z t))) d.
Definition getMonth (z : Zone) (d : option Z) : option Z :=
  option_map (fun t => MonthFromDay (Day (LocalTime z t))) d.
Definition getFullYear (z : Zone) (d : option Z) : option Z :=
  option_map (fun t => YearFromDay (Day (LocalTime z t))) d.

(** *** [Home.jsx] *)

(** [String(n)] for an integer. *)
Definition String_ (n : Z) : string := NilZero.string_of_int (Z.to_int n).

Definition pad (n : Z) : string :=
  if n <? 10 then ("0" ++ String_ n)%string else String_ n.

(** A number in a template literal; [None] is NaN. *)
Definition show (pr : Z -> string) (n : option Z) : string :=
  match n with
  | Some n => pr n
  | None => "NaN"
  end.

Definition formatDateYYYYMMDD (z : Zone) (d : option Z) : string :=
  (show String_ (getFullYear z d) ++ "-" ++
   show pad (option_map (fun m => m + 1) (getMonth z d)) ++ "-" ++
   show pad (getDate z d))%string.

Record Cell : Type := mkCell {
  dayNumber : Z;
  dateStr : string;
  hasEvents : bool
}.

(** [Math.ceil(a / 7)] *)
Definition ceil7 (a : Z) : Z := - ((- a) / 7).

(** [Array.from({ length: cells })] as the list of its indexes. *)
Definition indexes (cells : Z) : list Z :=
  map Z.of_nat (seq 0 (Z.to_nat cells)).

Definition startDayIndex (z : Zone) (displayYear displayMonth : Z) : option Z :=
  let firstOfMonth := new_Date z displayYear displayMonth 1 in
  getDay z firstOfMonth.

Definition daysInMonth (z : Zone) (displayYear displayMonth : Z) : option Z :=
  getDate z (new_Date z displayYear (displayMonth + 1) 0).

(** The grid; [None] is the [null] of an empty cell.  A NaN length gives
    the empty array. *)
Definition calendarCells (z : Zone) (displayYear displayMonth : Z)
           (schedules : list Schedule) : list (option Cell) :=
  match startDayIndex z displayYear displayMonth,
        daysInMonth z displayYear displayMonth with
  | Some startDayIndex, Some daysInMonth =>
      let totalCells := startDayIndex + daysInMonth in
      let weeks := ceil7 totalCells in
      let cells := weeks * 7 in
      map (fun idx =>
             let dayNumber := idx - startDayIndex + 1 in
             if (dayNumber <? 1) || (daysInMonth <? dayNumber) then None
             else
               let d := new_Date z displayYear displayMonth dayNumber in
               let dateStr := formatDateYYYYMMDD z d in
               let hasEvents := existsb (fun s => (date s =? dateStr)%string) schedules in
               Some (mkCell dayNumber dateStr hasEvents))
          (indexes cells)
  | _, _ => []
  end.

(** *** Vocabulary of the statements *)

(** The length of month [m] (0 to 11) of year [y]: the table of month
    lengths with the leap-year rule. *)
Definition month_days (y m : Z) : Z :=
  match m with
  | 1 => 28 + (DaysInYear y - 365)
  | 3 | 5 | 8 | 10 => 30
  | _ => 31
  end.



(** The zone keeps a day: local midnight of day number [day], taken to UTC
    and read back in local time, is a time of that same day, and the
    offset applied to it is at most a day. *)
Definition keeps_day (z : Zone) (day : Z) : bool :=
  let t := MakeDate day 0 in
  (Z.abs (LocalTZA z t false) <=? msPerDay) && (Day (LocalTime z (UTC z t)) =? day).

(** The zone keeps every day of month [month] (0 to 11) of [year]. *)
Definition keeps_month (z : Zone) (year month : Z) : bool :=
  forallb (fun date => keeps_day z (MakeDay year month date))
          (map (fun k => 1 + Z.of_nat k) (seq 0 (Z.to_nat (month_days year month)))).


(** A zone with one offset at all times. *)
Definition fixed_zone (offset : Z) : Zone := mkZone (fun _ _ => offset).

(** Brasília time since 2019: three hours behind UTC, no daylight saving. *)
Definition brasilia : Zone := fixed_zone (-3 * msPerHour).


(** Pacific/Apia around the end of 2011: ten hours behind UTC until the
    end of 29 December, fourteen hours ahead from then on.  The local day
    of 30 December does not exist. *)
Definition apia_2011 : Zone :=
  let change := MakeDate (MakeDay 2011 11 30) (10 * msPerHour) in
  let resumes := MakeDate (MakeDay 2011 11 31) 0 in
  mkZone (fun t isUTC =>
            if isUTC
            then if t <? change then -10 * msPerHour else 14 * msPerHour
            else if t <? resumes then -10 * msPerHour else 14 * msPerHour).

(** Pacific/Kiritimati around the end of 1994: ten hours behind UTC until
    the end of 30 December, fourteen hours ahead from then on.  The local
    day of 31 December does not exist. *)
Definition kiritimati_1994 : Zone :=
  let change := MakeDate (MakeDay 1994 11 31) (10 * msPerHour) in
  let resumes := MakeDate (MakeDay 1995 0 1) 0 in
  mkZone (fun t isUTC =>
            if isUTC
            then if t <? change then -10 * msPerHour else 14 * msPerHour
            else if t <? resumes then -10 * msPerHour else 14 * msPerHour).

End Calendar.

Import Calendar.

(** ** The rest of the server: routing, the other handlers, start-up *)

Module Api.

Import Server.

(** What the server reads from its host besides the store: the outcome of
    reading and parsing [package.json] for GET /info ([None]: the file
    cannot be read; [Some None]: it is not JSON). *)
Class Host : Type := {
  package_json : option (option JsValue)
}.

(** A row as the listings select it:
    [SELECT id, name, email, cpf, is_admin, approved]. *)
Record ListedUser : Type := mkListedUser {
  listed_id : Z;
  listed_name : string;
  listed_email : string;
  listed_cpf : option string;
  listed_is_admin : Z;
  listed_approved : Z
}.

Definition listed (u : User) : ListedUser :=
  mkListedUser (user_id u) (name u) (email u) (cpf u) (is_admin u) (approved u).

(** The JSON bodies of the whole server: those of [Server.Payload] and the
    shapes the remaining routes send. *)
Inductive Body : Type :=
| Json (p : Payload)
| Message (message : string)
| Users (users : list ListedUser)
| Schedules (schedules : list Schedule)
| AdminSet (id : JsValue) (is_admin : Z)
| Info (message : string) (name version : JsValue)
| InfoNote (message note : string)
| NoBody.

Record Answer : Type := mkAnswer {
  answer_status : Z;
  answer_body : Body
}.

Definition answer (r : Response) : Answer :=
  mkAnswer (status r) (Json (payload r)).

(** A response as it leaves the server: status, the
    Access-Control-Allow-Origin header if set, and the body. *)
Record Reply : Type := mkReply {
  reply_status : Z;
  allow_origin : option string;
  reply_body : Body
}.

Record Request : Type := mkRequest {
  method : string;
  pathname : string;
  origin : option string;
  body : Parsed
}.

Definition ALLOWED_ORIGINS : list string :=
  ["https://gaj-xi.vercel.app"; "http://localhost:5173"; "http://127.0.0.1:5173"].

(** [origin && ALLOWED_ORIGINS.includes(origin)] *)
Definition allowed (origin : string) : bool :=
  negb (origin =? "")%string && existsb (String.eqb origin) ALLOWED_ORIGINS.

(** The header [sendJSON(res, data, statusCode, reqOrigin = '*')] sets, with
    [res_reqOrigin] the origin kept on [res]. *)
Definition sendJSON_origin (reqOrigin res_reqOrigin : string) : option string :=
  let origin := if (reqOrigin =? "*")%string then res_reqOrigin else reqOrigin in
  if allowed origin then Some origin else None.

(** [s.replace(/\/+$/g, '')] *)
Fixpoint strip_trailing_slashes (s : string) : string :=
  match s with
  | EmptyString => EmptyString
  | String c rest =>
      let rest' := strip_trailing_slashes rest in
      if (c =? "/")%char && (rest' =? "")%string then EmptyString else String c rest'
  end.

(** [(parsedUrl.pathname || '').replace(/\/+$/g, '') || '/'] *)
Definition normalize (pathname : string) : string :=
  let p := strip_trailing_slashes pathname in
  if (p =? "")%string then "/" else p.

(** [s.split('/')] *)
Fixpoint split_slash (s : string) : list string :=
  match s with
  | EmptyString => [EmptyString]
  | String c rest =>
      match split_slash rest with
      | seg :: segs =>
          if (c =? "/")%char then EmptyString :: seg :: segs
          else String c seg :: segs
      | [] => [String c EmptyString]
      end
  end.

(** [pathname.split('/').filter(Boolean)] *)
Definition parts (pathname : string) : list string :=
  filter (fun seg => negb (seg =? "")%string) (split_slash pathname).

(** [parts[1]], with the empty string for [undefined]: both are falsy and
    the handlers only test [!parts[1]] before they use it. *)
Definition second (pathname : string) : string :=
  nth 1 (parts pathname) "".

Definition set_is_admin (a : Z) (u : User) : User :=
  mkUser (user_id u) (name u) (email u) (password u) (cpf u) a (approved u).

Definition set_password (p : string) (u : User) : User :=
  mkUser (user_id u) (name u) (email u) p (cpf u) (is_admin u) (approved u).

Section Routes.

Context `{Collaborators} `{Host}.

(** GET /users/pending and GET /users/approved *)
Definition list_users (flag : Z) : M Answer :=
  d <- read_db ;;
  ret (mkAnswer 200 (Users (map listed (filter (fun u => approved u =? flag) (users d))))).

(** [db.run('DELETE FROM users WHERE id = ?', [id])]: answers
    [this.changes]. *)
Definition delete_user (id : JsValue) : M Z :=
  d <- read_db ;;
  let sel := fun u => matches (sqlite_rowid id) (user_id u) in
  write_db (mkDb (filter (fun u => negb (sel u)) (users d)) (users_seq d)
                 (schedules d) (schedules_seq d)) ;;;
  ret (Z.of_nat (List.length (filter sel (users d)))).

(** DELETE /users/reject *)
Definition reject (parsed : Parsed) : M Response :=
  with_body parsed (fun body =>
    if negb (truthy body)
       || match typeof (get body "id") with TUndefined => true | _ => false end
    then ret (sendJSON (Error "Campo id é requerido") 400)
    else
      let id := get body "id" in
      changes <- delete_user id ;;
      if changes =? 0 then ret (sendJSON (Error "Usuário não encontrado") 404)
      else ret (sendJSON (Success "Usuário removido") 200)).

(** PUT /users/admin *)
Definition toggle_admin (parsed : Parsed) : M Answer :=
  match parsed with
  | Rejected message =>
      ret (answer (sendJSON (Error (if (message =? "")%string then "JSON inválido"
                                    else message)) 400))
  | Resolved body =>
      if negb (truthy body)
         || match typeof (get body "id") with TUndefined => true | _ => false end
      then ret (answer (sendJSON (Error "Campo id é requerido") 400))
      else
        let id := get body "id" in
        d <- read_db ;;
        match find (fun u => matches (sqlite_rowid id) (user_id u)) (users d) with
        | None => ret (answer (sendJSON (Error "Usuário não encontrado") 404))
        | Some row =>
            let newVal := if is_admin row =? 1 then 0 else 1 in
            let (rows, _) :=
              update_where (fun u => matches (sqlite_rowid id) (user_id u))
                           (set_is_admin newVal) (users d) in
            write_db (mkDb rows (users_seq d) (schedules d) (schedules_seq d)) ;;;
            ret (mkAnswer 200 (AdminSet id newVal))
        end
  end.

(** GET /schedules *)
Definition list_schedules : M Answer :=
  d <- read_db ;;
  ret (mkAnswer 200 (Schedules (schedules d))).

(** DELETE /schedules/:id; [id] is the second segment of the path. *)
Definition delete_schedule (id : string) : M Response :=
  if (id =? "")%string then ret (sendJSON (Error "ID não informado") 400)
  else
    d <- read_db ;;
    let sel := fun s => matches (sqlite_rowid (JStr id)) (schedule_id s) in
    write_db (mkDb (users d) (users_seq d)
                   (filter (fun s => negb (sel s)) (schedules d)) (schedules_seq d)) ;;;
    if Z.of_nat (List.length (filter sel (schedules d))) =? 0
    then ret (sendJSON (Error "Agendamento não encontrado") 404)
    else ret (sendJSON (Success "Agendamento removido") 200).

(** GET /info *)
Definition info : Answer :=
  match package_json with
  | None => mkAnswer 200 (InfoNote "Servidor GAJ rodando" "package.json não encontrada")
  | Some None => mkAnswer 200 (InfoNote "Servidor GAJ rodando" "package.json inválido")
  | Some (Some pkg) =>
      match pkg with
      | JNull => mkAnswer 200 (InfoNote "Servidor GAJ rodando" "package.json inválido")
      | _ => mkAnswer 200 (Info "Servidor GAJ rodando" (get pkg "name") (get pkg "version"))
      end
  end.

Definition notFound : Answer :=
  answer (sendJSON (Error "Rota não encontrada") 404).

(** The request listener, route by route in the order of the source, before
    the headers are added. *)
Definition route (req : Request) : M Answer :=
  let pathname := normalize (pathname req) in
  let on m := (method req =? m)%string in
  let path p := (pathname =? p)%string in
  if path "/" && on "GET" then ret (mkAnswer 200 (Message "Servidor GAJ rodando"))
  else if path "/login" && on "POST" then r <- login (body req) ;; ret (answer r)
  else if path "/users/pending" && on "GET" then list_users 0
  else if path "/users/approved" && on "GET" then list_users 1
  else if path "/users/approve" && on "PUT" then r <- approve (body req) ;; ret (answer r)
  else if path "/users/reject" && on "DELETE" then r <- reject (body req) ;; ret (answer r)
  else if path "/users/admin" && on "PUT" then toggle_admin (body req)
  else if path "/users" && on "POST" then r <- create_user (body req) ;; ret (answer r)
  else if path "/schedules" && on "GET" then list_schedules
  else if prefix "/schedules/" pathname && on "GET"
       then r <- get_schedule (second pathname) ;; ret (answer r)
  else if path "/schedules" && on "POST"
       then r <- create_schedule (body req) ;; ret (answer r)
  else if prefix "/schedules/" pathname && on "DELETE"
       then r <- delete_schedule (second pathname) ;; ret (answer r)
  else if prefix "/schedules/" pathname && on "PUT"
       then r <- update_schedule (second pathname) (body req) ;; ret (answer r)
  else if path "/info" && on "GET" then ret info
  else ret notFound.

(** [http.createServer((req, res) => ...)]: the preflight, then the routes
    with the header [sendJSON] adds. *)
Definition handle (req : Request) : M Reply :=
  if (method req =? "OPTIONS")%string then
    let origin := match origin req with Some o => o | None => "" end in
    ret (mkReply 204 (if allowed origin then Some origin else None) NoBody)
  else
    let res_reqOrigin := match origin req with Some o => o | None => "" end in
    a <- route req ;;
    ret (mkReply (answer_status a) (sendJSON_origin "*" res_reqOrigin) (answer_body a)).

(** [INSERT INTO users (name, email, password, is_admin, approved)]: the
    row of the start-up administrator, without [cpf]. *)
Definition insert_admin (name email hash : string) (is_admin approved : Z) : M unit :=
  d <- read_db ;;
  if existsb (fun u => (Store.email u =? email)%string) (users d) then ret tt
  else
    let id := next_rowid (map user_id (users d)) (users_seq d) in
    let row := mkUser id name email hash None is_admin approved in
    write_db (mkDb (users d ++ [row]) id (schedules d) (schedules_seq d)).

(** [UPDATE users SET password = ? WHERE id = ?] *)
Definition update_password (hash : string) (id : Z) : M unit :=
  d <- read_db ;;
  write_db (mkDb (map (fun u => if user_id u =? id then set_password hash u else u) (users d))
                 (users_seq d) (schedules d) (schedules_seq d)).

(** The start-up block [db.serialize(...)] on a store whose tables exist:
    the default administrator is created, or its plain-text password is
    replaced by a digest. *)
Definition bootstrap : M unit :=
  let adminEmail := "admin@admin.com" in
  let adminPassword := "admin" in
  d <- read_db ;;
  match find (fun u => (Store.email u =? adminEmail)%string) (users d) with
  | None =>
      h <- hashPassword (JStr adminPassword) ;;
      match h with
      | Some hash => insert_admin "Admin" adminEmail hash 1 1
      | None => ret tt
      end
  | Some row =>
      match find (fun u => user_id u =? user_id row) (users d) with
      | None => ret tt
      | Some existing =>
          let pwd := Store.password existing in
          if negb (pwd =? "")%string && negb (prefix "$2" pwd) then
            h <- hashPassword (JStr pwd) ;;
            match h with
            | Some hash => update_password hash (user_id existing)
            | None => ret tt
            end
          else ret tt
      end
  end.

End Routes.

(** *** Vocabulary of the statements *)

(** A column that holds 0 or 1. *)
Definition flag (z : Z) : Prop := z = 0 \/ z = 1.

(** What the schema and the handlers keep true of the store: emails and
    rowids are unique, no rowid is beyond its sequence, and the columns
    approved, is_admin and online hold 0 or 1. *)
Record store_ok (d : Db) : Prop := mkStoreOk {
  emails_unique : NoDup (map email (users d));
  user_ids_unique : NoDup (map user_id (users d));
  user_ids_issued : Forall (fun u => user_id u <= users_seq d) (users d);
  user_flags : Forall (fun u => flag (approved u) /\ flag (is_admin u)) (users d);
  schedule_ids_unique : NoDup (map schedule_id (schedules d));
  schedule_ids_issued : Forall (fun s => schedule_id s <= schedules_seq d) (schedules d);
  schedule_flags : Forall (fun s => flag (online s)) (schedules d)
}.

(** The users a listing answers with. *)
Definition listing (a : Answer) : list ListedUser :=
  match answer_body a with
  | Users l => l
  | _ => []
  end.

(** The row POST /schedules stores for a body that passes its checks, and
    the world it leaves. *)
Definition new_schedule `{Collaborators} (body : JsValue) (w : World) : Schedule :=
  mkSchedule (next_rowid (map schedule_id (schedules (db w))) (schedules_seq (db w)))
             (sqlite_text (get body "lawyer")) (sqlite_text (get body "client"))
             (sqlite_text (or_else (get body "process_number") (JStr "")))
             (if truthy (get body "online") then 1 else 0)
             (sqlite_text (get body "date")) (sqlite_text (get body "time"))
             (sqlite_text (or_else (get body "notes") (JStr ""))).

Definition with_schedule (row : Schedule) (w : World) : World :=
  mkWorld (mkDb (users (db w)) (users_seq (db w)) (schedules (db w) ++ [row])
                (schedule_id row))
          (entropy w) (calls w).

(** The checks of POST /schedules on a parsed body. *)
Definition schedule_accepted (body : JsValue) : bool :=
  truthy body && truthy (get body "lawyer") && truthy (get body "client")
  && truthy (get body "date") && truthy (get body "time")
  && TimeWindow.validateHour (get body "time").

(** A host without a readable [package.json], for running the router on
    concrete requests. *)
Definition plain_host : Host := {| package_json := None |}.

(** A path made of slashes only. *)
Definition all_slashes (s : string) : Prop :=
  Forall (fun c => c = "/"%char) (list_ascii_of_string s).

End Api.

(** ** POST /schedules when the store refuses the INSERT

    [Server.insert_schedule] takes the INSERT to succeed and answers the
    rowid as it is.  Here the handler is followed with the [if (err)]
    branch of the callback: the engine may refuse the statement for a
    reason of its own (a full disk, a locked file), which is the parameter
    [refused], and it refuses it when the AUTOINCREMENT sequence is
    exhausted, the largest rowid having been used; a refused statement
    leaves the table as it was.  [this.lastID] is the rowid as a number of
    the language, a double. *)

Module Faults.

Import Server.

(** The largest rowid, 2^63 - 1. *)
Definition max_rowid : Z := 9223372036854775807.

(** The double nearest to an integer, a tie going to the even
    significand: integers up to 2^53 in size are doubles; a larger one
    keeps its 53 leading bits, rounded. *)
Definition to_double (n : Z) : Z :=
  let a := Z.abs n in
  if a <? 2 ^ 53 then n
  else
    let e := Z.log2 a - 52 in
    let q := a / 2 ^ e in
    let r := a mod 2 ^ e in
    let half := 2 ^ (e - 1) in
    let q' := if (half <? r) || ((r =? half) && Z.odd q) then q + 1 else q in
    Z.sgn n * (q' * 2 ^ e).

Section Handlers.

Context `{Collaborators}.

(** [INSERT INTO schedules ...] through [db.run]: [None] when the callback
    gets an error, [this.lastID] otherwise. *)
Definition insert_schedule (refused : bool) (lawyer client process_number : string)
           (online : Z) (date time notes : string) : M (option Z) :=
  d <- read_db ;;
  let rowid := next_rowid (map schedule_id (schedules d)) (schedules_seq d) in
  if refused || (max_rowid <? rowid) then ret None
  else
    rowid <- Server.insert_schedule lawyer client process_number online date time notes ;;
    ret (Some (to_double rowid)).

(** POST /schedules *)
Definition create_schedule (refused : bool) (parsed : Parsed) : M Response :=
  with_body parsed (fun body =>
    if negb (truthy body) then ret (sendJSON (Error "Body requerido") 400)
    else
      let lawyer := get body "lawyer" in
      let client := get body "client" in
      let process_number := get body "process_number" in
      let online := get body "online" in
      let date := get body "date" in
      let time := get body "time" in
      let notes := get body "notes" in
      if negb (truthy lawyer) || negb (truthy client) || negb (truthy date)
         || negb (truthy time)
      then ret (sendJSON (Error "Campos obrigatórios ausentes") 400)
      else if negb (TimeWindow.validateHour time)
      then ret (sendJSON (Error "Horário inválido (deve ser entre 06:00 e 18:00)") 400)
      else
        r <- insert_schedule refused (sqlite_text lawyer) (sqlite_text client)
               (sqlite_text (or_else process_number (JStr "")))
               (if truthy online then 1 else 0)
               (sqlite_text date) (sqlite_text time)
               (sqlite_text (or_else notes (JStr ""))) ;;
        match r with
        | None => ret (sendJSON (Error "Erro interno") 500)
        | Some lastID => ret (sendJSON (Created lastID "Agendamento criado") 201)
        end).

End Handlers.

(** *** Vocabulary of the statements *)

(** The sequence of schedule rowids is exhausted. *)
Definition exhausted (w : World) : bool :=
  max_rowid <? next_rowid (map schedule_id (schedules (db w))) (schedules_seq (db w)).

(** The request carries a body that passes the checks of the handler. *)
Definition passes_checks (parsed : Parsed) : bool :=
  match parsed with
  | Resolved body => Api.schedule_accepted body
  | Rejected _ => false
  end.

End Faults.

(** ** The pages that talk to the server *)

Module Pages.

Import Server.

(** *** [Home.jsx]: the month on display *)

Record View : Type := mkView {
  displayYear : Z;
  displayMonth : Z;
  selectedDate : option string
}.

Definition gotoPrevMonth (v : View) : View :=
  if displayMonth v =? 0 then mkView (displayYear v - 1) 11 None
  else mkView (displayYear v) (displayMonth v - 1) None.

Definition gotoNextMonth (v : View) : View :=
  if displayMonth v =? 11 then mkView (displayYear v + 1) 0 None
  else mkView (displayYear v) (displayMonth v + 1) None.

Definition gotoToday (todayYear todayMonth : Z) (v : View) : View :=
  mkView todayYear todayMonth None.

(** [selectedDate ? schedules.filter((s) => s.date === selectedDate) : []] *)
Definition selectedSchedules (selectedDate : option string) (schedules : list Schedule)
  : list Schedule :=
  match selectedDate with
  | None => []
  | Some d =>
      if (d =? "")%string then []
      else filter (fun s => (date s =? d)%string) schedules
  end.

(** The grid of a view. *)
Definition grid (z : Zone) (v : View) (schedules : list Schedule)
  : list (option Cell) :=
  calendarCells z (displayYear v) (displayMonth v) schedules.

(** *** The appointment page: the online switch *)

(** [(v) => (v === 1 || v === '1' || v === true)] *)
Definition normalizeOnline (v : JsValue) : bool :=
  is_num v 1 || is_str v "1" || match v with JBool true => true | _ => false end.

(** The request [toggleOnline] sends for a schedule as the server listed
    it: PUT /schedules/<id> with [{ online: newOnline }]. *)
Definition toggleOnline (origin : option string) (schedule : Schedule) : Api.Request :=
  let newOnline := if normalizeOnline (JNum (online schedule)) then 0 else 1 in
  Api.mkRequest "PUT" ("/schedules/" ++ String_ (schedule_id schedule))%string origin
                (Resolved (JObj [("online", JNum newOnline)])).

(** *** The scheduling form ([Agendamento.jsx]) *)

(** [handleSubmit]: the error the form shows, or the payload it posts. *)
Definition schedule_form (lawyer client processNumber : string) (online : bool)
           (date time notes : string) : string + JsValue :=
  if (lawyer =? "")%string then inl "Selecione um advogado"
  else if (client =? "")%string then inl "Informe o nome do cliente"
  else if (date =? "")%string then inl "Informe a data"
  else if (time =? "")%string then inl "Informe a hora"
  else if negb (TimeWindow.validateHour_form (JStr time))
  then inl "Horário fora do intervalo permitido"
  else inr (JObj [("lawyer", JStr lawyer); ("client", JStr client);
                  ("process_number", JStr processNumber);
                  ("online", JNum (if online then 1 else 0));
                  ("date", JStr date); ("time", JStr time); ("notes", JStr notes)]).

(** *** Registration ([Register.jsx]) and the admin panel ([PainelAdmin.jsx]) *)

(** [handleSubmit] of the registration page. *)
Definition register_form (name email password cpf : string) : string + JsValue :=
  if (name =? "")%string || (email =? "")%string || (password =? "")%string
  then inl "Nome, email e senha são obrigatórios"
  else inr (JObj [("name", JStr name); ("email", JStr email);
                  ("password", JStr password); ("cpf", JStr cpf)]).

(** [handleCreateUser] of the admin panel. *)
Definition admin_form (name email password cpf : string) (isAdminCreate : bool)
  : string + JsValue :=
  if (name =? "")%string || (email =? "")%string || (password =? "")%string
  then inl "Nome, email e senha são obrigatórios"
  else inr (JObj [("name", JStr name); ("email", JStr email);
                  ("password", JStr password); ("cpf", JStr cpf);
                  ("approved", JNum 1);
                  ("is_admin", JNum (if isAdminCreate then 1 else 0))]).

End Pages.

(** * Properties *)

(** ** Time window *)

Section TimeWindowFacts.

Import TimeWindow.

Lemma digit_between (hi d : Z) :
  0 <= d <= hi -> hi <= 9 ->
  char_between "0" (digit hi) (digit d) = true /\ digit_value (digit d) = d.
Proof.
  intros Hd Hhi.
  assert (Hc : d = 0 \/ d = 1 \/ d = 2 \/ d = 3 \/ d = 4 \/ d = 5 \/ d = 6
               \/ d = 7 \/ d = 8 \/ d = 9) by lia.
  assert (Hh : hi = 0 \/ hi = 1 \/ hi = 2 \/ hi = 3 \/ hi = 4 \/ hi = 5 \/ hi = 6
               \/ hi = 7 \/ hi = 8 \/ hi = 9) by lia.
  repeat (destruct Hc as [Hc | Hc]); subst d;
    repeat (destruct Hh as [Hh | Hh]); subst hi;
    try lia; split; reflexivity.
Qed.

Lemma between_digit (hi : Z) (c : ascii) :
  0 <= hi <= 9 ->
  char_between "0" (digit hi) c = true ->
  exists d, 0 <= d <= hi /\ c = digit d.
Proof.
  intros Hhi Hc.
  unfold char_between in Hc. apply andb_true_iff in Hc as [Hlo Hup].
  apply Nat.leb_le in Hlo, Hup.
  exists (Z.of_nat (nat_of_ascii c) - 48).
  assert (Hn : nat_of_ascii (digit hi) = (48 + Z.to_nat hi)%nat).
  { unfold digit. apply nat_ascii_embedding. lia. }
  rewrite Hn in Hup. change (nat_of_ascii "0") with 48%nat in Hlo.
  split; [lia |].
  unfold digit.
  replace (48 + Z.to_nat (Z.of_nat (nat_of_ascii c) - 48))%nat with (nat_of_ascii c) by lia.
  symmetry. apply ascii_nat_embedding.
Qed.

Lemma validateHour_HHMM (h1 h2 m1 m2 : Z) :
  0 <= h1 <= 2 -> 0 <= h2 <= 9 -> 0 <= m1 <= 5 -> 0 <= m2 <= 9 ->
  validateHour (JStr (HHMM h1 h2 m1 m2))
  = (360 <=? (10 * h1 + h2) * 60 + (10 * m1 + m2))
    && ((10 * h1 + h2) * 60 + (10 * m1 + m2) <=? 1080).
Proof.
  intros H1 H2 H3 H4.
  destruct (digit_between 2 h1 H1 ltac:(lia)) as [B1 V1].
  destruct (digit_between 9 h2 H2 ltac:(lia)) as [B2 V2].
  destruct (digit_between 5 m1 H3 ltac:(lia)) as [B3 V3].
  destruct (digit_between 9 m2 H4 ltac:(lia)) as [B4 V4].
  assert (D1 : is_digit (digit h1) = true)
    by (apply (proj1 (digit_between 9 h1 ltac:(lia) ltac:(lia)))).
  assert (D3 : is_digit (digit m1) = true)
    by (apply (proj1 (digit_between 9 m1 ltac:(lia) ltac:(lia)))).
  change (digit 2) with "2"%char in B1. change (digit 5) with "5"%char in B3.
  change (char_between "0" (digit 9)) with is_digit in B2, B4.
  unfold validateHour, HHMM, match_HHMM.
  rewrite B1, B2, B3, B4. cbn [andb Ascii.eqb Bool.eqb].
  unfold in_window, parseInt. cbn [fst snd parse_digits].
  rewrite D1, B2, D3, B4, V1, V2, V3, V4.
  replace (10 * (10 * 0 + h1) + h2) with (10 * h1 + h2) by lia.
  replace (10 * (10 * 0 + m1) + m2) with (10 * m1 + m2) by lia.
  reflexivity.
Qed.

Lemma match_HHMM_is_HHMM (t : string) (g : string * string) :
  match_HHMM t = Some g -> is_HHMM (JStr t).
Proof.
  unfold match_HHMM.
  destruct t as [| a1 [| a2 [| a3 [| a4 [| a5 [| a6 t]]]]]]; try discriminate.
  destruct (char_between "0" "2" a1) eqn:E1; [| discriminate].
  destruct (is_digit a2) eqn:E2; [| discriminate].
  destruct (a3 =? ":")%char eqn:E3; [| discriminate].
  destruct (char_between "0" "5" a4) eqn:E4; [| discriminate].
  destruct (is_digit a5) eqn:E5; [| discriminate].
  intros _.
  apply (between_digit 2) in E1 as (h1 & R1 & ->); [| lia].
  apply (between_digit 9) in E2 as (h2 & R2 & ->); [| lia].
  apply (between_digit 5) in E4 as (m1 & R4 & ->); [| lia].
  apply (between_digit 9) in E5 as (m2 & R5 & ->); [| lia].
  apply Ascii.eqb_eq in E3. subst a3.
  exists h1, h2, m1, m2. repeat split; try lia.
Qed.

(** C1. On every string HH:MM (hour digits 00-29, minute digits 00-59)
    the server's [validateHour] answers true exactly when the minutes
    since midnight lie in [360, 1080]; 06:00 and 18:00 pass, 05:59 and
    18:01 do not; every value that is not such a string is answered false
    (the function is total: it never raises). *)
Theorem validateHour_window :
  (forall h1 h2 m1 m2,
      0 <= h1 <= 2 -> 0 <= h2 <= 9 -> 0 <= m1 <= 5 -> 0 <= m2 <= 9 ->
      validateHour (JStr (HHMM h1 h2 m1 m2)) = true
      <-> 360 <= (10 * h1 + h2) * 60 + (10 * m1 + m2) <= 1080)
  /\ validateHour (JStr "06:00") = true
  /\ validateHour (JStr "18:00") = true
  /\ validateHour (JStr "05:59") = false
  /\ validateHour (JStr "18:01") = false
  /\ (forall v, ~ is_HHMM v -> validateHour v = false).
Proof.
  split; [| repeat split].
  - intros h1 h2 m1 m2 H1 H2 H3 H4.
    rewrite validateHour_HHMM by assumption.
    rewrite andb_true_iff, !Z.leb_le. reflexivity.
  - intros v Hv. destruct v as [| | b | n | t | l | l]; try reflexivity.
    unfold validateHour. destruct (match_HHMM t) as [g |] eqn:E; [| reflexivity].
    exfalso. apply Hv. exact (match_HHMM_is_HHMM t g E).
Qed.

Lemma validateHour_window_witness :
  (validateHour (JStr (HHMM 0 9 3 0)) = true
   <-> 360 <= (10 * 0 + 9) * 60 + (10 * 3 + 0) <= 1080)
  /\ validateHour (JStr "9:30") = false.
Proof.
  destruct validateHour_window as (Hiff & _ & _ & _ & _ & Hno).
  split.
  - apply Hiff; lia.
  - apply Hno. intros (h1 & h2 & m1 & m2 & _ & _ & _ & _ & E). discriminate E.
Defined.

(** C4, at the input of the claim: the server's validator refuses the
    single-digit hour that the validator of the scheduling form accepts. *)
Theorem validateHour_single_digit_hour :
  validateHour (JStr "9:30") = false
  /\ validateHour_form (JStr "9:30") = true.
Proof. split; reflexivity. Qed.

End TimeWindowFacts.

(** ** Values *)

(** Only an object has properties, and an object is truthy. *)
Lemma defined_property_truthy (body : JsValue) (k : string) :
  typeof (get body k) <> TUndefined -> truthy body = true.
Proof. destruct body; cbn; congruence. Qed.

(** ** Login and the credential check *)

Section LoginFacts.

Import Server.
Context `{Collaborators}.

Lemma find_absent {A : Type} (p : A -> bool) (l : list A) :
  (forall a, In a l -> p a = false) -> find p l = None.
Proof.
  induction l as [| a l IH]; intros Hl; [reflexivity |].
  cbn. rewrite (Hl a (or_introl eq_refl)). apply IH.
  intros b Hb. apply Hl. right. exact Hb.
Qed.

Lemma new_calls_app (w : World) (d : Db) (n : nat) (cs : list Call) :
  new_calls w (mkWorld d n (calls w ++ cs)) = cs.
Proof.
  unfold new_calls. cbn [calls].
  rewrite skipn_app, skipn_all, Nat.sub_diag. reflexivity.
Qed.

(** What [verifyPassword] answers and what it calls. *)
Lemma verifyPassword_run (stored : string) (provided : JsValue) (w : World) :
  verifyPassword stored provided w
  = (is_str provided stored
     || match bcrypt_compare provided stored with Some b => b | None => false end,
     mkWorld (db w) (entropy w)
             (calls w ++ CallVerifyPassword stored provided
                :: if is_str provided stored then []
                   else [CallBcryptCompare provided stored])).
Proof.
  unfold verifyPassword, checkPassword, record, bind, ret. cbn.
  destruct (is_str provided stored); cbn.
  - reflexivity.
  - rewrite <- app_assoc. cbn.
    destruct (bcrypt_compare provided stored); reflexivity.
Qed.

(** How a well-formed login request runs, step by step. *)
Lemma login_run (w : World) (body : JsValue) :
  truthy body = true ->
  truthy (get body "email") = true ->
  truthy (get body "password") = true ->
  login (Resolved body) w
  = match find (fun u => (Store.email u =? sqlite_text (get body "email"))%string)
               (users (db w)) with
    | None => (sendJSON (Error "Usuário não encontrado") 404, w)
    | Some row =>
        if approved row =? 0 then (sendJSON (Error "Aguardando aprovação") 403, w)
        else
          let (ok, w') := verifyPassword (Store.password row) (get body "password") w in
          if ok
          then (sendJSON (LoginOk (mkPublicUser (user_id row) (name row) (Store.email row)
                                     (if is_admin row =? 1 then 1 else 0))) 200, w')
          else (sendJSON (Error "Senha incorreta") 401, w')
    end.
Proof.
  intros Hb He Hp.
  unfold login, with_body. rewrite Hb, He, Hp. cbn [negb orb].
  unfold bind at 1. unfold select_user_by_email, read_db, bind at 1, ret at 1.
  destruct (find _ (users (db w))) as [row |]; [| reflexivity].
  destruct (approved row =? 0); [reflexivity |].
  unfold bind. destruct (verifyPassword _ _ w) as [ok w'].
  destruct ok; reflexivity.
Qed.

(** C2. A login request with email and password is answered in a fixed
    order: 404 when no row has the email; else 403 when the row found has
    approved = 0, whatever the password, so never 401; else 401 when the
    password check fails.  For an absent or an unapproved user the world
    is left as it was: no password check is called. *)
Theorem login_outcome_order (w : World) (body : JsValue) :
  truthy body = true ->
  truthy (get body "email") = true ->
  truthy (get body "password") = true ->
  let email := sqlite_text (get body "email") in
  let password := get body "password" in
  let r := fst (login (Resolved body) w) in
  let w' := snd (login (Resolved body) w) in
  ((forall u, In u (users (db w)) -> Store.email u <> email) ->
   status r = 404 /\ w' = w /\ new_calls w w' = [])
  /\ (forall u,
        find (fun u => (Store.email u =? email)%string) (users (db w)) = Some u ->
        (approved u = 0 ->
         status r = 403 /\ status r <> 401 /\ w' = w /\ new_calls w w' = [])
        /\ (approved u <> 0 ->
            fst (verifyPassword (Store.password u) password w) = false ->
            status r = 401)).
Proof.
  intros Hb He Hp email password r w'.
  subst r w'. rewrite (login_run w body Hb He Hp). fold email password.
  assert (Hnone : new_calls w w = []).
  { unfold new_calls. apply skipn_all. }
  split.
  - intros Habsent.
    rewrite find_absent; [cbn; auto |].
    intros u Hu. apply String.eqb_neq. apply Habsent. exact Hu.
  - intros u Hfind. rewrite Hfind. split.
    + intros Hu. rewrite Hu. cbn. repeat split; try assumption. discriminate.
    + intros Hu Hbad.
      destruct (approved u =? 0) eqn:E; [apply Z.eqb_eq in E; contradiction |].
      destruct (verifyPassword (Store.password u) password w) as [ok w1].
      cbn in Hbad. subst ok. reflexivity.
Qed.

(** C3, as amended.  The credential check does not look at the format of
    the stored value: it accepts a provided password strictly equal to the
    stored value, and otherwise follows the bcrypt comparison, which it
    runs exactly when that equality fails, hash prefix or not.  The store
    is not touched. *)
Theorem verifyPassword_equality_then_bcrypt
        (stored : string) (provided : JsValue) (w : World) :
  let ok := fst (verifyPassword stored provided w) in
  let w' := snd (verifyPassword stored provided w) in
  ok = (is_str provided stored
        || match bcrypt_compare provided stored with Some b => b | None => false end)
  /\ (In (CallBcryptCompare provided stored) (new_calls w w')
      <-> is_str provided stored = false)
  /\ db w' = db w.
Proof.
  cbv zeta. rewrite verifyPassword_run. cbn [fst snd db].
  rewrite new_calls_app. repeat split.
  - intros Hin. destruct (is_str provided stored); [| reflexivity].
    destruct Hin as [Hin | []]. discriminate Hin.
  - intros ->. right. left. reflexivity.
Qed.

(** C10. The password check of the login accepts a provided password that
    is string-equal to the stored one, and calls the bcrypt comparison
    only when they differ; so an approved user whose stored password is a
    digest logs in with the digest itself as password. *)
Theorem verifyPassword_accepts_stored_value :
  (forall stored w,
      fst (verifyPassword stored (JStr stored) w) = true
      /\ new_calls w (snd (verifyPassword stored (JStr stored) w))
         = [CallVerifyPassword stored (JStr stored)])
  /\ (forall stored provided w,
         In (CallBcryptCompare provided stored)
            (new_calls w (snd (verifyPassword stored provided w))) ->
         provided <> JStr stored)
  /\ (forall w body u,
         truthy body = true ->
         truthy (get body "email") = true ->
         find (fun u => (Store.email u =? sqlite_text (get body "email"))%string)
              (users (db w)) = Some u ->
         approved u <> 0 ->
         looks_hashed (Store.password u) = true ->
         get body "password" = JStr (Store.password u) ->
         let r := fst (login (Resolved body) w) in
         status r = 200
         /\ payload r = LoginOk (mkPublicUser (user_id u) (name u) (Store.email u)
                                   (if is_admin u =? 1 then 1 else 0))).
Proof.
  split; [| split].
  - intros stored w. rewrite verifyPassword_run. cbn [fst snd is_str].
    rewrite String.eqb_refl. split; [reflexivity | apply new_calls_app].
  - intros stored provided w Hin ->.
    rewrite verifyPassword_run in Hin. cbn [snd is_str] in Hin.
    rewrite String.eqb_refl, new_calls_app in Hin.
    destruct Hin as [Hin | []]. discriminate Hin.
  - intros w body u Hb He Hfind Happ Hhash Hpw r. subst r.
    assert (Hp : truthy (get body "password") = true).
    { rewrite Hpw. cbn. destruct (Store.password u); [discriminate Hhash | reflexivity]. }
    rewrite (login_run w body Hb He Hp), Hfind.
    destruct (approved u =? 0) eqn:E; [apply Z.eqb_eq in E; contradiction |].
    rewrite Hpw, verifyPassword_run. cbn [is_str]. rewrite String.eqb_refl.
    split; reflexivity.
Qed.

End LoginFacts.

(** ** Tables *)

Section TableFacts.

Context {R : Type}.

Lemma changes_zero (sel : R -> bool) (rows : list R) :
  (Z.of_nat (List.length (filter sel rows)) =? 0) = negb (existsb sel rows).
Proof.
  induction rows as [| r rows IH]; [reflexivity |].
  cbn. destruct (sel r); cbn; [reflexivity | exact IH].
Qed.

Lemma existsb_false (sel : R -> bool) (rows : list R) :
  existsb sel rows = false <-> forall r, In r rows -> sel r = false.
Proof.
  induction rows as [| a rows IH]; cbn.
  - split; [intros _ r [] | reflexivity].
  - rewrite orb_false_iff, IH. split.
    + intros [Ha Hr] r [<- | Hin]; auto.
    + intros Hall. split; [apply Hall; left; reflexivity |].
      intros r Hin. apply Hall. right. exact Hin.
Qed.

Lemma existsb_find (sel : R -> bool) (rows : list R) :
  existsb sel rows = match find sel rows with Some _ => true | None => false end.
Proof.
  induction rows as [| a rows IH]; [reflexivity |].
  cbn. destruct (sel a); [reflexivity | exact IH].
Qed.

Lemma update_unselected (sel : R -> bool) (f : R -> R) (rows : list R) :
  (forall r, In r rows -> sel r = true -> f r = r) ->
  map (fun r => if sel r then f r else r) rows = rows.
Proof.
  induction rows as [| a rows IH]; intros Hf; [reflexivity |].
  cbn. rewrite IH by (intros r Hr; apply Hf; right; exact Hr).
  destruct (sel a) eqn:E; [| reflexivity].
  rewrite (Hf a (or_introl eq_refl) E). reflexivity.
Qed.

Lemma update_twice (sel : R -> bool) (f : R -> R) (rows : list R) :
  (forall r, sel (f r) = sel r) -> (forall r, f (f r) = f r) ->
  let g := fun r => if sel r then f r else r in
  map g (map g rows) = map g rows /\ existsb sel (map g rows) = existsb sel rows.
Proof.
  intros Hsel Hff g. subst g.
  induction rows as [| a rows [IH1 IH2]]; [split; reflexivity |].
  cbn. rewrite IH1, IH2.
  destruct (sel a) eqn:E.
  - rewrite Hsel, E, Hff. split; reflexivity.
  - rewrite E. split; reflexivity.
Qed.

Lemma find_last (sel : R -> bool) (rows : list R) (r : R) :
  (forall a, In a rows -> sel a = false) -> sel r = true ->
  find sel (rows ++ [r]) = Some r.
Proof.
  intros Hno Hr. induction rows as [| a rows IH]; cbn.
  - rewrite Hr. reflexivity.
  - rewrite (Hno a (or_introl eq_refl)). apply IH.
    intros b Hb. apply Hno. right. exact Hb.
Qed.

End TableFacts.

Lemma next_rowid_fresh (ids : list Z) (seq : Z) :
  forall i, In i ids -> i < next_rowid ids seq.
Proof.
  unfold next_rowid. induction ids as [| a ids IH]; intros i [].
  - subst. cbn. lia.
  - cbn. specialize (IH i H). lia.
Qed.

Lemma next_rowid_bounds (ids : list Z) (seq : Z) :
  seq < next_rowid ids seq /\ forall i, In i ids -> i < next_rowid ids seq.
Proof.
  split; [| apply next_rowid_fresh].
  unfold next_rowid. induction ids as [| a ids IH]; cbn; lia.
Qed.

(** ** User directory *)

Section DirectoryFacts.

Import Server.
Context `{Collaborators}.

Lemma matches_key (key : option Z) (id : Z) :
  matches key id = true <-> key = Some id.
Proof.
  destruct key as [k |]; cbn; [| split; discriminate].
  rewrite Z.eqb_eq. split; [intros -> | intros [= ->]]; reflexivity.
Qed.

Lemma matches_not_key (key : option Z) (id : Z) :
  matches key id = false <-> key <> Some id.
Proof.
  rewrite <- matches_key. destruct (matches key id); split; congruence.
Qed.

Lemma approve_run (w : World) (body : JsValue) :
  truthy body = true ->
  typeof (get body "id") <> TUndefined ->
  approve (Resolved body) w
  = (if existsb (fun u => matches (sqlite_rowid (get body "id")) (user_id u))
                (users (db w))
     then sendJSON (Success "Usuário aprovado") 200
     else sendJSON (Error "Usuário não encontrado") 404,
     approved_world (sqlite_rowid (get body "id")) w).
Proof.
  intros Hb Hid.
  unfold approve, with_body. rewrite Hb. cbn [negb orb].
  destruct (typeof (get body "id")) eqn:Et; try contradiction;
    unfold bind, update_user_approved, update_where, read_db, write_db, bind, ret;
    rewrite changes_zero;
    destruct (existsb _ (users (db w))); reflexivity.
Qed.

Lemma approved_world_same (key : option Z) (w : World) :
  (forall u, In u (users (db w)) -> key = Some (user_id u) -> approved u = 1) ->
  approved_world key w = w.
Proof.
  intros Hall. unfold approved_world.
  rewrite update_unselected.
  - destruct w as [[us useq ss sseq] e c]. reflexivity.
  - intros u Hu Hsel. apply matches_key in Hsel.
    specialize (Hall u Hu Hsel). destruct u; cbn in *. subst. reflexivity.
Qed.

Lemma approved_world_twice (key : option Z) (w : World) :
  approved_world key (approved_world key w) = approved_world key w
  /\ existsb (fun u => matches key (user_id u)) (users (db (approved_world key w)))
     = existsb (fun u => matches key (user_id u)) (users (db w)).
Proof.
  destruct (update_twice (fun u => matches key (user_id u)) (set_approved 1)
              (users (db w))) as [Hmap Hex]; [reflexivity | reflexivity |].
  cbv zeta in Hmap, Hex.
  unfold approved_world. cbn [db users users_seq schedules schedules_seq entropy calls].
  rewrite Hmap, Hex. split; reflexivity.
Qed.

(** C5. Approving by id answers 404 exactly when no user has that id and
    succeeds otherwise; afterwards every user with that id has approved =
    1 and nothing else in the table has changed; when the user was
    approved already nothing changes at all and the answer is still the
    success; a second approval answers as the first and leaves the world
    of the first. *)
Theorem approve_sets_flag (w : World) (body : JsValue) :
  typeof (get body "id") <> TUndefined ->
  let key := sqlite_rowid (get body "id") in
  let r := fst (approve (Resolved body) w) in
  let w' := snd (approve (Resolved body) w) in
  (status r = 404 <-> forall u, In u (users (db w)) -> key <> Some (user_id u))
  /\ (status r <> 404 -> r = sendJSON (Success "Usuário aprovado") 200)
  /\ users (db w')
     = map (fun u => if matches key (user_id u) then set_approved 1 u else u)
           (users (db w))
  /\ (forall u, In u (users (db w')) -> key = Some (user_id u) -> approved u = 1)
  /\ ((forall u, In u (users (db w)) -> key = Some (user_id u) -> approved u = 1) ->
      w' = w)
  /\ approve (Resolved body) w' = (r, w').
Proof.
  intros Hid key r w'. pose proof (defined_property_truthy body "id" Hid) as Hb.
  subst r w'. rewrite (approve_run w body Hb Hid). fold key. cbn [fst snd].
  split; [| split; [| split; [| split; [| split]]]].
  - destruct (existsb _ (users (db w))) eqn:E; cbn [sendJSON status].
    + split; [discriminate |]. intros Hno. exfalso.
      apply existsb_exists in E as (u & Hu & Hsel).
      apply matches_key in Hsel. exact (Hno u Hu Hsel).
    + split; [| reflexivity]. intros _ u Hu.
      apply matches_not_key. exact (proj1 (existsb_false _ _) E u Hu).
  - destruct (existsb _ (users (db w))); cbn [sendJSON status]; [reflexivity |].
    intros Hne. contradiction.
  - reflexivity.
  - cbn [approved_world db users]. intros u Hu Hkey.
    apply in_map_iff in Hu as (u0 & Hu0 & _).
    destruct (matches key (user_id u0)) eqn:E; subst u.
    + reflexivity.
    + apply matches_not_key in E. contradiction.
  - apply approved_world_same.
  - rewrite (approve_run _ body Hb Hid). fold key.
    destruct (approved_world_twice key w) as [-> ->]. reflexivity.
Qed.

(** How a request with name, email and password runs. *)
Lemma create_user_run (w : World) (body : JsValue) :
  truthy body = true ->
  truthy (get body "name") = true ->
  truthy (get body "email") = true ->
  truthy (get body "password") = true ->
  create_user (Resolved body) w
  = match find (fun u => (Store.email u =? sqlite_text (get body "email"))%string)
               (users (db w)) with
    | Some _ => (sendJSON (Error "Email já cadastrado") 409, w)
    | None =>
        let approvedFlag :=
          if is_num (get body "approved") 1 || is_str (get body "approved") "1"
          then 1 else 0 in
        let adminFlag :=
          if is_num (get body "is_admin") 1 || is_str (get body "is_admin") "1"
          then 1 else 0 in
        let log := (calls w ++ [CallBcryptHash (get body "password")])%list in
        match bcrypt_hash (entropy w) (get body "password") with
        | None => (sendJSON (Error "Erro interno") 500,
                   mkWorld (db w) (S (entropy w)) log)
        | Some hash =>
            let id := next_rowid (map user_id (users (db w))) (users_seq (db w)) in
            let row := mkUser id (sqlite_text (get body "name"))
                              (sqlite_text (get body "email")) hash
                              (Some (sqlite_text (or_else (get body "cpf") (JStr ""))))
                              adminFlag approvedFlag in
            (sendJSON (Created id (if approvedFlag =? 1 then "Usuário criado e aprovado"
                                   else "Cadastro enviado, aguarde aprovação")) 201,
             mkWorld (mkDb (users (db w) ++ [row]) id
                           (schedules (db w)) (schedules_seq (db w)))
                     (S (entropy w)) log)
        end
    end.
Proof.
  intros Hb Hn He Hp.
  unfold create_user, with_body. rewrite Hb, Hn, He, Hp. cbn [negb orb].
  unfold bind at 1. unfold select_user_by_email, read_db, bind at 1, ret at 1.
  destruct (find _ (users (db w))) as [row |] eqn:Efind; [reflexivity |].
  cbv zeta.
  unfold hashPassword, record, draw_salt, bind, ret.
  cbn [db entropy calls].
  destruct (bcrypt_hash (entropy w) (get body "password")) as [hash |]; [| reflexivity].
  unfold insert_user, read_db, write_db, bind, ret. cbn [db entropy calls].
  rewrite existsb_find, Efind. reflexivity.
Qed.

Lemma create_user_missing (w : World) (body : JsValue) :
  truthy body = false \/ truthy (get body "name") = false
  \/ truthy (get body "email") = false \/ truthy (get body "password") = false ->
  create_user (Resolved body) w
  = (sendJSON (Error "Campos name, email e password são requeridos") 400, w).
Proof.
  intros Hmiss. unfold create_user, with_body.
  assert (E : negb (truthy body) || negb (truthy (get body "name"))
              || negb (truthy (get body "email"))
              || negb (truthy (get body "password")) = true).
  { destruct Hmiss as [-> | [-> | [-> | ->]]]; cbn;
      rewrite ?orb_true_r; reflexivity. }
  rewrite E. reflexivity.
Qed.

(** C6. Once a request has registered an email, a second request with
    name, email and password and the same email is answered 409 and
    changes nothing; a request without name, email or password is
    answered 400 and changes nothing; a registration without the flags
    approved and is_admin stores its row with approved = 0 and
    is_admin = 0. *)
Theorem create_user_rules (w : World) :
  (forall b1 b2,
      truthy b2 = true -> truthy (get b2 "name") = true ->
      truthy (get b2 "email") = true -> truthy (get b2 "password") = true ->
      sqlite_text (get b2 "email") = sqlite_text (get b1 "email") ->
      let r1 := fst (create_user (Resolved b1) w) in
      let w1 := snd (create_user (Resolved b1) w) in
      status r1 = 201 ->
      status (fst (create_user (Resolved b2) w1)) = 409
      /\ snd (create_user (Resolved b2) w1) = w1)
  /\ (forall body,
         truthy body = false \/ truthy (get body "name") = false
         \/ truthy (get body "email") = false \/ truthy (get body "password") = false ->
         status (fst (create_user (Resolved body) w)) = 400
         /\ snd (create_user (Resolved body) w) = w)
  /\ (forall body hash,
         truthy body = true -> truthy (get body "name") = true ->
         truthy (get body "email") = true -> truthy (get body "password") = true ->
         get body "approved" = JUndefined -> get body "is_admin" = JUndefined ->
         (forall u, In u (users (db w)) ->
                    Store.email u <> sqlite_text (get body "email")) ->
         bcrypt_hash (entropy w) (get body "password") = Some hash ->
         let r := fst (create_user (Resolved body) w) in
         let w' := snd (create_user (Resolved body) w) in
         exists id,
           r = sendJSON (Created id "Cadastro enviado, aguarde aprovação") 201
           /\ users (db w')
              = users (db w)
                ++ [mkUser id (sqlite_text (get body "name"))
                           (sqlite_text (get body "email")) hash
                           (Some (sqlite_text (or_else (get body "cpf") (JStr ""))))
                           0 0]).
Proof.
  split; [| split].
  - intros b1 b2 Hb Hn He Hp Hsame r1 w1 H201. subst r1 w1.
    rewrite (create_user_run _ b2 Hb Hn He Hp), Hsame.
    destruct (truthy b1) eqn:Hb1;
      [| rewrite create_user_missing in H201 by auto; discriminate H201].
    destruct (truthy (get b1 "name")) eqn:Hn1;
      [| rewrite create_user_missing in H201 by auto; discriminate H201].
    destruct (truthy (get b1 "email")) eqn:He1;
      [| rewrite create_user_missing in H201 by auto; discriminate H201].
    destruct (truthy (get b1 "password")) eqn:Hp1;
      [| rewrite create_user_missing in H201 by auto; discriminate H201].
    rewrite (create_user_run w b1 Hb1 Hn1 He1 Hp1) in H201 |- *.
    destruct (find _ (users (db w))) as [row |] eqn:Efind; [discriminate H201 |].
    cbv zeta in H201 |- *.
    destruct (bcrypt_hash (entropy w) (get b1 "password")) as [hash |];
      [| discriminate H201].
    cbn [snd db users].
    rewrite find_last; [split; reflexivity | | cbn; apply String.eqb_refl].
    intros a Ha. exact (find_none _ _ Efind a Ha).
  - intros body Hmiss. rewrite create_user_missing by exact Hmiss.
    split; reflexivity.
  - intros body hash Hb Hn He Hp Ha Hi Hfresh Hhash r w'. subst r w'.
    rewrite (create_user_run _ body Hb Hn He Hp).
    rewrite find_absent
      by (intros u Hu; apply String.eqb_neq; apply Hfresh; exact Hu).
    cbv zeta. rewrite Hhash, Ha, Hi. cbn [fst snd db users].
    eexists. split; reflexivity.
Qed.

End DirectoryFacts.

(** ** Decimal numerals *)

Section DecimalFacts.

Lemma parse_digits_acc (d : Decimal.uint) (acc : positive) :
  TimeWindow.parse_digits (Z.pos acc) (NilEmpty.string_of_uint d)
  = Some (Z.pos (Pos.of_uint_acc d acc)).
Proof.
  revert acc.
  induction d as [| d IH | d IH | d IH | d IH | d IH | d IH | d IH | d IH | d IH | d IH];
    intros acc; [reflexivity | ..];
    cbn [NilEmpty.string_of_uint TimeWindow.parse_digits Pos.of_uint_acc];
    match goal with
    | |- context [TimeWindow.is_digit ?c] => change (TimeWindow.is_digit c) with true
    end;
    cbv iota; rewrite <- IH; f_equal;
    unfold TimeWindow.digit_value;
    match goal with
    | |- context [Z.of_nat (nat_of_ascii ?c)] =>
        let v := eval vm_compute in (Z.of_nat (nat_of_ascii c)) in
        change (Z.of_nat (nat_of_ascii c)) with v
    end; lia.
Qed.

Lemma parse_digits_uint (d : Decimal.uint) :
  TimeWindow.parse_digits 0 (NilEmpty.string_of_uint d) = Some (Z.of_N (Pos.of_uint d)).
Proof.
  induction d as [| d IH | d IH | d IH | d IH | d IH | d IH | d IH | d IH | d IH | d IH];
    [reflexivity | exact IH | ..];
    cbn [NilEmpty.string_of_uint TimeWindow.parse_digits Pos.of_uint Z.of_N];
    match goal with
    | |- context [TimeWindow.is_digit ?c] => change (TimeWindow.is_digit c) with true
    end;
    cbv iota; rewrite <- parse_digits_acc; reflexivity.
Qed.

Lemma uint_all_digits (d : Decimal.uint) :
  forallb TimeWindow.is_digit (list_ascii_of_string (NilEmpty.string_of_uint d)) = true.
Proof.
  induction d as [| d IH | d IH | d IH | d IH | d IH | d IH | d IH | d IH | d IH | d IH];
    [reflexivity | ..]; exact IH.
Qed.

(** [String(n)] of a natural number is its decimal numeral: a string of
    digits that reads back as [n]. *)
Lemma String_decimal (n : Z) :
  0 <= n ->
  Server.all_digits (String_ n) = true /\ TimeWindow.parseInt (String_ n) = Some n.
Proof.
  intros Hn. destruct n as [| p | p]; [split; reflexivity | | lia].
  unfold String_. cbn [Z.to_int NilZero.string_of_int].
  pose proof (DecimalPos.Unsigned.of_to p) as Hof.
  pose proof (uint_all_digits (Pos.to_uint p)) as Hall.
  pose proof (parse_digits_uint (Pos.to_uint p)) as Hparse.
  rewrite Hof in Hparse. cbn [Z.of_N] in Hparse.
  destruct (Pos.to_uint p); [discriminate Hof | ..];
    (split; [exact Hall | exact Hparse]).
Qed.

End DecimalFacts.

(** ** Schedule registry *)

Section ScheduleFacts.

Import Server.
Context `{Collaborators}.

Lemma update_schedule_run (w : World) (id : string) (body : JsValue) :
  id <> "" ->
  truthy body = true ->
  typeof (get body "online") <> TUndefined ->
  let key := sqlite_rowid (JStr id) in
  let o := if truthy (get body "online") then 1 else 0 in
  update_schedule id (Resolved body) w
  = (if existsb (fun s => matches key (schedule_id s)) (schedules (db w))
     then sendJSON (OnlineSet id o) 200
     else sendJSON (Error "Agendamento não encontrado") 404,
     online_world key o w).
Proof.
  intros Hid Hb Ho key o.
  unfold update_schedule, with_body.
  apply String.eqb_neq in Hid. rewrite Hid, Hb. cbn [negb].
  destruct (typeof (get body "online")) eqn:Et; try contradiction;
    unfold bind, update_schedule_online, update_where, read_db, write_db, bind, ret;
    rewrite changes_zero; fold key; fold o;
    destruct (existsb _ (schedules (db w))); reflexivity.
Qed.

Lemma online_world_same (key : option Z) (o : Z) (w : World) :
  (forall s, In s (schedules (db w)) -> key <> Some (schedule_id s)) ->
  online_world key o w = w.
Proof.
  intros Hno. unfold online_world.
  rewrite update_unselected.
  - destruct w as [[us useq ss sseq] e c]. reflexivity.
  - intros s Hs Hsel. apply matches_key in Hsel. destruct (Hno s Hs Hsel).
Qed.

(** C7. An update of a schedule changes the online column of the rows
    with that id, to 1 for a truthy online field and 0 otherwise, and
    nothing else: the other columns of those rows, the other rows, the
    users and the rest of the world stay, and the rest of the patch does
    not count.  With no row of that id the answer is 404 and nothing
    changes; without the online field the answer is 400 and nothing
    changes. *)
Theorem update_schedule_frame (w : World) (id : string) (body : JsValue) :
  id <> "" ->
  let key := sqlite_rowid (JStr id) in
  let o := if truthy (get body "online") then 1 else 0 in
  let r := fst (update_schedule id (Resolved body) w) in
  let w' := snd (update_schedule id (Resolved body) w) in
  (typeof (get body "online") = TUndefined -> status r = 400 /\ w' = w)
  /\ (typeof (get body "online") <> TUndefined ->
      ((exists s, In s (schedules (db w)) /\ key = Some (schedule_id s)) ->
       r = sendJSON (OnlineSet id o) 200)
      /\ ((forall s, In s (schedules (db w)) -> key <> Some (schedule_id s)) ->
          status r = 404 /\ w' = w)
      /\ w' = online_world key o w
      /\ Forall2 (fun s s' =>
                    schedule_id s' = schedule_id s /\ lawyer s' = lawyer s
                    /\ client s' = client s /\ process_number s' = process_number s
                    /\ date s' = date s /\ time s' = time s /\ notes s' = notes s
                    /\ (key = Some (schedule_id s) -> online s' = o)
                    /\ (key <> Some (schedule_id s) -> s' = s))
                 (schedules (db w)) (schedules (db w'))
      /\ users (db w') = users (db w)
      /\ (forall body2,
             typeof (get body2 "online") <> TUndefined ->
             truthy (get body2 "online") = truthy (get body "online") ->
             update_schedule id (Resolved body2) w
             = update_schedule id (Resolved body) w)).
Proof.
  intros Hid key o r w'. split.
  - intros Hun. subst r w'. unfold update_schedule, with_body.
    apply String.eqb_neq in Hid. rewrite Hid, Hun.
    destruct (truthy body); split; reflexivity.
  - intros Ho. subst r w'. pose proof (defined_property_truthy body "online" Ho) as Hb.
    rewrite (update_schedule_run w id body Hid Hb Ho). fold key o. cbn [fst snd].
    split; [| split; [| split; [| split; [| split]]]].
    + intros (s & Hs & Hkey).
      replace (existsb _ (schedules (db w))) with true; [reflexivity |].
      symmetry. apply existsb_exists. exists s. split; [exact Hs |].
      apply matches_key. exact Hkey.
    + intros Hno.
      replace (existsb (fun s => matches key (schedule_id s)) (schedules (db w)))
        with false.
      * split; [reflexivity | apply online_world_same; exact Hno].
      * symmetry. apply existsb_false. intros s Hs.
        apply matches_not_key. exact (Hno s Hs).
    + reflexivity.
    + cbn [online_world db schedules].
      induction (schedules (db w)) as [| s rows IH]; constructor; [| exact IH].
      destruct (matches key (schedule_id s)) eqn:E.
      * apply matches_key in E. cbn. repeat split; try reflexivity.
        intros Hne. contradiction.
      * apply matches_not_key in E. repeat split; try reflexivity.
        intros Hkey. contradiction.
    + reflexivity.
    + intros body2 Ho2 Hsame.
      pose proof (defined_property_truthy body2 "online" Ho2) as Hb2.
      rewrite (update_schedule_run w id body2 Hid Hb2 Ho2), Hsame. reflexivity.
Qed.


Lemma text_or_absent_stored (v : JsValue) (s : string) :
  text_or_absent v s -> sqlite_text (or_else v (JStr "")) = s.
Proof.
  intros [-> | [-> ->]]; [| reflexivity].
  unfold or_else. cbn. destruct s; reflexivity.
Qed.

Lemma nonempty_truthy (s : string) : s <> "" -> truthy (JStr s) = true.
Proof. intros Hs. cbn. apply String.eqb_neq in Hs. rewrite Hs. reflexivity. Qed.

Lemma sqlite_rowid_decimal (n : Z) : 0 <= n -> sqlite_rowid (JStr (String_ n)) = Some n.
Proof.
  intros Hn. destruct (String_decimal n Hn) as [Hdig Hparse].
  unfold sqlite_rowid. rewrite Hdig. exact Hparse.
Qed.


End ScheduleFacts.

(** ** Calendar *)

Section DateFacts.

Lemma DayFromYear_succ (y : Z) :
  DayFromYear (y + 1) = DayFromYear y + DaysInYear y.
Proof.
  unfold DayFromYear, DaysInYear.
  destruct (Z.eqb_spec (y mod 4) 0), (Z.eqb_spec (y mod 100) 0),
    (Z.eqb_spec (y mod 400) 0);
    cbn [negb]; Z.div_mod_to_equations; lia.
Qed.

(** Years are 365.2425 days long on average; the start of a year is
    within a day and a half of that mean. *)
Lemma DayFromYear_estimate (y : Z) :
  146097 * (y - 1970) - 506 <= 400 * DayFromYear y <= 146097 * (y - 1970) + 589.
Proof. unfold DayFromYear. Z.div_mod_to_equations. lia. Qed.

Lemma DayFromYear_mono (y z : Z) : y <= z -> DayFromYear y <= DayFromYear z.
Proof. unfold DayFromYear. intros Hyz. Z.div_mod_to_equations. lia. Qed.

Lemma DaysInYear_cases (y : Z) : DaysInYear y = 365 \/ DaysInYear y = 366.
Proof.
  unfold DaysInYear.
  destruct (y mod 4 =? 0), (y mod 100 =? 0), (y mod 400 =? 0); cbn; auto.
Qed.

Ltac split_comparisons :=
  repeat match goal with
         | |- context [?a <? ?b] => destruct (Z.ltb_spec a b)
         | |- context [?a <=? ?b] => destruct (Z.leb_spec a b)
         end.

(** [YearFromDay] is the year the day falls in. *)
Lemma YearFromDay_unique (d y : Z) :
  DayFromYear y <= d < DayFromYear (y + 1) -> YearFromDay d = y.
Proof.
  intros Hd. unfold YearFromDay.
  set (y0 := 1970 + 400 * d / 146097).
  assert (Hy0 : 146097 * (y0 - 1970) <= 400 * d < 146097 * (y0 - 1970) + 146097).
  { subst y0. Z.div_mod_to_equations. lia. }
  clearbody y0.
  pose proof (DayFromYear_estimate y) as E1.
  pose proof (DayFromYear_estimate (y + 1)) as E2.
  assert (Hc : y0 = y - 1 \/ y0 = y \/ y0 = y + 1) by lia.
  assert (M1 : DayFromYear (y - 1) <= DayFromYear y)
    by (apply DayFromYear_mono; lia).
  assert (M2 : DayFromYear (y + 1) <= DayFromYear (y + 1 + 1))
    by (apply DayFromYear_mono; lia).
  destruct Hc as [-> | [-> | ->]]; rewrite ?Z.sub_add; split_comparisons; lia.
Qed.

Lemma month_cases (m : Z) :
  0 <= m <= 11 ->
  m = 0 \/ m = 1 \/ m = 2 \/ m = 3 \/ m = 4 \/ m = 5 \/ m = 6
  \/ m = 7 \/ m = 8 \/ m = 9 \/ m = 10 \/ m = 11.
Proof. lia. Qed.

Lemma MakeDay_in_year (y m dd : Z) :
  0 <= m <= 11 ->
  MakeDay y m dd = DayFromYear y + month_start (DaysInYear y - 365) m + dd - 1.
Proof.
  intros Hm. unfold MakeDay.
  rewrite (Z.div_small m 12), (Z.mod_small m 12), Z.add_0_r by lia. reflexivity.
Qed.

(** Year, month and day of the [Date] built from them. *)
Lemma MakeDay_inverse (y m dd : Z) :
  0 <= m <= 11 -> 1 <= dd <= month_days y m ->
  YearFromDay (MakeDay y m dd) = y
  /\ MonthFromDay (MakeDay y m dd) = m
  /\ DateFromDay (MakeDay y m dd) = dd.
Proof.
  intros Hm Hdd.
  pose proof (MakeDay_in_year y m dd Hm) as HD.
  set (leap := DaysInYear y - 365) in *.
  assert (Hleap : leap = 0 \/ leap = 1)
    by (subst leap; destruct (DaysInYear_cases y); lia).
  pose proof (month_cases m Hm) as Hm12.
  unfold month_days in Hdd. fold leap in Hdd.
  assert (HY : YearFromDay (MakeDay y m dd) = y).
  { apply YearFromDay_unique. rewrite HD, DayFromYear_succ.
    repeat (destruct Hm12 as [Hm12 | Hm12]); subst m; cbn [month_start] in *; lia. }
  split; [exact HY |].
  unfold DateFromDay, MonthFromDay, DayWithinYear, InLeapYear.
  rewrite HY, HD. fold leap.
  replace (DayFromYear y + month_start leap m + dd - 1 - DayFromYear y)
    with (month_start leap m + dd - 1) by lia.
  repeat (destruct Hm12 as [Hm12 | Hm12]); subst m; cbn [month_start] in *;
    split_comparisons; try lia; cbn [month_start]; split; lia.
Qed.

(** Day 0 of the next month is the last day of the month. *)
Lemma MakeDay_day_zero (y m : Z) :
  0 <= m <= 11 -> MakeDay y (m + 1) 0 = MakeDay y m (month_days y m).
Proof.
  intros Hm. rewrite (MakeDay_in_year y m _ Hm).
  destruct (Z.eq_dec m 11) as [-> | Hne].
  - unfold MakeDay. change ((11 + 1) / 12) with 1. change ((11 + 1) mod 12) with 0.
    rewrite DayFromYear_succ. cbn [month_start month_days]. lia.
  - rewrite MakeDay_in_year by lia.
    pose proof (month_cases m Hm) as Hm12. unfold month_days.
    set (leap := DaysInYear y - 365).
    repeat (destruct Hm12 as [Hm12 | Hm12]); subst m; try contradiction;
      match goal with
      | |- context [month_start _ (?a + 1)] =>
          let v := eval compute in (a + 1) in change (a + 1) with v
      end; cbn [month_start]; lia.
Qed.

(** The days of the years -271820 to 275759 lie within the range of time
    values, a day off its ends at least. *)
Lemma MakeDay_within (y m dd : Z) :
  -271820 <= y <= 275759 -> 0 <= m <= 11 -> 1 <= dd <= month_days y m ->
  Z.abs (MakeDay y m dd) <= 99999999.
Proof.
  intros Hy Hm Hdd.
  rewrite (MakeDay_in_year y m dd Hm).
  pose proof (DayFromYear_estimate y) as E.
  set (leap := DaysInYear y - 365) in *.
  assert (Hleap : leap = 0 \/ leap = 1)
    by (subst leap; destruct (DaysInYear_cases y); lia).
  pose proof (month_cases m Hm) as Hm12.
  unfold month_days in Hdd. fold leap in Hdd.
  assert (Hoff : 0 <= month_start leap m + dd - 1 <= 366).
  { repeat (destruct Hm12 as [Hm12 | Hm12]); subst m; cbn [month_start] in *; lia. }
  lia.
Qed.

Lemma month_days_positive (y m : Z) : 28 <= month_days y m <= 31.
Proof.
  unfold month_days.
  destruct (DaysInYear_cases y); destruct m as [| p | p]; try lia;
    repeat (destruct p as [p | p |]; try lia).
Qed.

Lemma range_check (f : Z -> bool) (lo n : Z) :
  forallb f (map (fun k => lo + Z.of_nat k) (seq 0 (Z.to_nat n))) = true ->
  forall z, lo <= z < lo + n -> f z = true.
Proof.
  intros Hall z Hz. rewrite forallb_forall in Hall. apply Hall.
  apply in_map_iff. exists (Z.to_nat (z - lo)). split; [lia |].
  apply in_seq. lia.
Qed.

Lemma keeps_month_day (z : Zone) (y m dd : Z) :
  keeps_month z y m = true -> 1 <= dd <= month_days y m ->
  keeps_day z (MakeDay y m dd) = true.
Proof.
  intros Hk Hdd. unfold keeps_month in Hk.
  apply (range_check (fun date => keeps_day z (MakeDay y m date)) 1 (month_days y m) Hk).
  lia.
Qed.

(** The [Date] built for a day the zone keeps is a valid time value, and a
    time of that day in local time. *)
Lemma new_Date_local (z : Zone) (year m dd : Z) :
  -271820 <= full_year year <= 275759 -> 0 <= m <= 11 ->
  1 <= dd <= month_days (full_year year) m ->
  keeps_day z (MakeDay (full_year year) m dd) = true ->
  exists t,
    new_Date z year m dd = Some t
    /\ Day (LocalTime z t) = MakeDay (full_year year) m dd.
Proof.
  intros Hy Hm Hdd Hk.
  pose proof (MakeDay_within _ _ _ Hy Hm Hdd) as Hin.
  unfold keeps_day in Hk. cbv zeta in Hk.
  apply andb_true_iff in Hk as [Hoff Hday].
  apply Z.leb_le in Hoff. apply Z.eqb_eq in Hday.
  unfold new_Date, TimeClip.
  set (day := MakeDay (full_year year) m dd) in *.
  exists (UTC z (MakeDate day 0)). split; [| exact Hday].
  destruct (Z.leb_spec (Z.abs (UTC z (MakeDate day 0))) 8640000000000000);
    [reflexivity |].
  unfold UTC, MakeDate, msPerDay in *. lia.
Qed.

Lemma new_Date_day_zero (z : Zone) (year m : Z) :
  0 <= m <= 11 ->
  new_Date z year (m + 1) 0 = new_Date z year m (month_days (full_year year) m).
Proof. intros Hm. unfold new_Date. rewrite MakeDay_day_zero by exact Hm. reflexivity. Qed.

End DateFacts.

Section GridFacts.

Lemma ceil7_least (t : Z) :
  (ceil7 t * 7) mod 7 = 0 /\ t <= ceil7 t * 7 < t + 7.
Proof.
  unfold ceil7. split.
  - apply Z.mod_mul. lia.
  - Z.div_mod_to_equations. lia.
Qed.

Lemma indexes_length (n : Z) : List.length (indexes n) = Z.to_nat n.
Proof. unfold indexes. rewrite length_map, length_seq. reflexivity. Qed.


Lemma startDayIndex_value (z : Zone) (year month : Z) :
  0 <= month <= 11 -> -271820 <= full_year year <= 275759 ->
  keeps_month z (full_year year) month = true ->
  startDayIndex z year month = Some (WeekDay (MakeDay (full_year year) month 1)).
Proof.
  intros Hm Hy Hk.
  pose proof (month_days_positive (full_year year) month) as Hpos.
  destruct (new_Date_local z year month 1 Hy Hm ltac:(lia)
              (keeps_month_day z _ _ 1 Hk ltac:(lia))) as (t & Et & Eday).
  unfold startDayIndex. cbv zeta. rewrite Et. cbn [getDay option_map].
  rewrite Eday. reflexivity.
Qed.

Lemma daysInMonth_value (z : Zone) (year month : Z) :
  0 <= month <= 11 -> -271820 <= full_year year <= 275759 ->
  keeps_month z (full_year year) month = true ->
  daysInMonth z year month = Some (month_days (full_year year) month).
Proof.
  intros Hm Hy Hk.
  pose proof (month_days_positive (full_year year) month) as Hpos.
  assert (Hlast : 1 <= month_days (full_year year) month
                   <= month_days (full_year year) month) by lia.
  destruct (new_Date_local z year month _ Hy Hm Hlast (keeps_month_day z _ _ _ Hk Hlast))
    as (t & Et & Eday).
  unfold daysInMonth. rewrite new_Date_day_zero by exact Hm. rewrite Et.
  cbn [getDate option_map]. rewrite Eday. f_equal.
  apply MakeDay_inverse; [assumption | lia].
Qed.


Lemma formatDate_value (z : Zone) (year month dd : Z) :
  0 <= month <= 11 -> -271820 <= full_year year <= 275759 ->
  1 <= dd <= month_days (full_year year) month ->
  keeps_month z (full_year year) month = true ->
  formatDateYYYYMMDD z (new_Date z year month dd)
  = (String_ (full_year year) ++ "-" ++ pad (month + 1) ++ "-" ++ pad dd)%string.
Proof.
  intros Hm Hy Hdd Hk.
  destruct (new_Date_local z year month dd Hy Hm Hdd (keeps_month_day z _ _ dd Hk Hdd))
    as (t & Et & Eday).
  destruct (MakeDay_inverse (full_year year) month dd Hm Hdd) as (HY & HM & HD).
  unfold formatDateYYYYMMDD. rewrite Et.
  cbn [getFullYear getMonth getDate option_map show].
  rewrite Eday, HY, HM, HD. reflexivity.
Qed.




End GridFacts.

(** ** The statements at concrete requests *)

Section Runs.

Import Server.
Local Existing Instance plain_collaborators.

Lemma login_outcome_order_witness :
  status (fst (login (Resolved (object [("email", "ana@gaj.br");
                                         ("password", "qualquer")])) office)) = 403
  /\ snd (login (Resolved (object [("email", "ana@gaj.br");
                                    ("password", "qualquer")])) office) = office.
Proof.
  pose proof (login_outcome_order office
                (object [("email", "ana@gaj.br"); ("password", "qualquer")])
                eq_refl eq_refl eq_refl) as [_ Hfound].
  destruct (Hfound ana eq_refl) as [Hpending _].
  destruct (Hpending eq_refl) as (H403 & _ & Hsame & _).
  split; [exact H403 | exact Hsame].
Defined.

(** C3, as the claim states it, fails: a stored digest presented as the
    password is accepted without a bcrypt comparison. *)
Lemma verifyPassword_ignores_format :
  ~ selects_mode_by_format digest (JStr digest) office.
Proof.
  unfold selects_mode_by_format. cbn.
  intros [[Hin | []] _]. discriminate Hin.
Qed.

Lemma verifyPassword_accepts_stored_value_witness :
  status (fst (login (Resolved (object [("email", "rui@gaj.br");
                                         ("password", digest)])) office)) = 200.
Proof.
  destruct verifyPassword_accepts_stored_value as (_ & _ & Hlogin).
  apply (Hlogin office
           (object [("email", "rui@gaj.br"); ("password", digest)]) rui);
    try reflexivity.
  cbn. lia.
Defined.

Lemma approve_sets_flag_witness :
  users (db (snd (approve (Resolved (JObj [("id", JNum 1)])) office)))
  = [set_approved 1 ana; rui].
Proof.
  assert (Hid : typeof (get (JObj [("id", JNum 1)]) "id") <> TUndefined)
    by (cbn; discriminate).
  destruct (approve_sets_flag office (JObj [("id", JNum 1)]) Hid)
    as (_ & _ & Husers & _).
  rewrite Husers. reflexivity.
Defined.

Lemma create_user_rules_witness :
  status (fst (create_user
                 (Resolved (object [("name", "Eva"); ("email", "eva@gaj.br");
                                    ("password", "x1")]))
                 (snd (create_user
                         (Resolved (object [("name", "Eva"); ("email", "eva@gaj.br");
                                            ("password", "x1")])) office)))) = 409.
Proof.
  destruct (create_user_rules office) as (Htwice & _ & _).
  apply (Htwice (object [("name", "Eva"); ("email", "eva@gaj.br"); ("password", "x1")])
                (object [("name", "Eva"); ("email", "eva@gaj.br"); ("password", "x1")]));
    reflexivity.
Defined.

Lemma update_schedule_frame_witness :
  fst (update_schedule "1" (Resolved (JObj [("online", JBool true);
                                            ("lawyer", JStr "Outro")])) office)
  = sendJSON (OnlineSet "1" 1) 200.
Proof.
  assert (Hid : "1" <> "") by discriminate.
  destruct (update_schedule_frame office "1"
              (JObj [("online", JBool true); ("lawyer", JStr "Outro")]) Hid)
    as [_ Hdefined].
  assert (Ho : typeof (get (JObj [("online", JBool true); ("lawyer", JStr "Outro")])
                           "online") <> TUndefined) by (cbn; discriminate).
  destruct (Hdefined Ho) as (Hfound & _).
  apply Hfound. exists hearing. split; [left; reflexivity | reflexivity].
Defined.




End Runs.

(** ** Paths *)

Section PathFacts.

Import Server Api.
Context `{Collaborators}.

Lemma length_append (a b : string) :
  String.length (a ++ b) = (String.length a + String.length b)%nat.
Proof. induction a as [| c a IH]; cbn; [reflexivity | rewrite IH; reflexivity]. Qed.

Lemma strip_append_slash (s : string) :
  strip_trailing_slashes (s ++ "/") = strip_trailing_slashes s.
Proof.
  induction s as [| c s IH]; [reflexivity |].
  cbn [append strip_trailing_slashes]. rewrite IH. reflexivity.
Qed.

Lemma split_slash_cons (s : string) :
  exists seg segs, split_slash s = seg :: segs.
Proof.
  induction s as [| c s (seg & segs & E)]; cbn.
  - eauto.
  - rewrite E. destruct (c =? "/")%char; eauto.
Qed.

Lemma parts_slash (s : string) : parts (String "/" s) = parts s.
Proof.
  unfold parts. cbn [split_slash].
  destruct (split_slash_cons s) as (seg & segs & E). rewrite E. reflexivity.
Qed.

Lemma split_slash_segments (s seg : string) :
  In seg (split_slash s) -> ~ In "/"%char (list_ascii_of_string seg).
Proof.
  revert seg. induction s as [| c s IH]; intros seg Hin.
  - destruct Hin as [<- | []]. intros [].
  - cbn [split_slash] in Hin.
    destruct (split_slash s) as [| seg0 segs] eqn:E.
    + destruct (split_slash_cons s) as (x & y & E'). congruence.
    + destruct (c =? "/")%char eqn:Hc.
      * destruct Hin as [<- | Hin]; [intros [] | apply IH; exact Hin].
      * destruct Hin as [<- | Hin]; [| apply IH; right; exact Hin].
        cbn. intros [Heq | Hin].
        -- subst c. discriminate Hc.
        -- exact (IH seg0 (or_introl eq_refl) Hin).
Qed.

(** A path has no segment exactly when stripping its trailing slashes
    leaves nothing. *)
Lemma parts_nil_strip (s : string) :
  parts s = [] <-> strip_trailing_slashes s = "".
Proof.
  induction s as [| c s IH]; [split; reflexivity |].
  destruct (c =? "/")%char eqn:Hc.
  - apply Ascii.eqb_eq in Hc. subst c. rewrite parts_slash.
    cbn [strip_trailing_slashes]. cbn [Ascii.eqb Bool.eqb andb].
    rewrite IH. destruct (strip_trailing_slashes s); cbn; split; congruence.
  - cbn [strip_trailing_slashes]. rewrite Hc. cbn [andb].
    unfold parts. cbn [split_slash].
    destruct (split_slash_cons s) as (seg & segs & E). rewrite E, Hc.
    cbn. split; discriminate.
Qed.

Lemma strip_app (a b : string) :
  strip_trailing_slashes (a ++ b)
  = if (strip_trailing_slashes b =? "")%string then strip_trailing_slashes a
    else (a ++ strip_trailing_slashes b)%string.
Proof.
  induction a as [| c a IH]; cbn [append strip_trailing_slashes].
  - destruct (strip_trailing_slashes b); reflexivity.
  - rewrite IH. destruct (strip_trailing_slashes b =? "")%string eqn:E; [reflexivity |].
    destruct (a ++ strip_trailing_slashes b)%string eqn:Ea.
    + destruct a; [| discriminate Ea]. cbn in Ea. rewrite Ea in E. discriminate E.
    + rewrite andb_false_r. reflexivity.
Qed.

Lemma strip_stripped (s : string) :
  strip_trailing_slashes (strip_trailing_slashes s) = strip_trailing_slashes s.
Proof.
  induction s as [| c s IH]; [reflexivity |].
  cbn [strip_trailing_slashes].
  destruct ((c =? "/")%char && (strip_trailing_slashes s =? "")%string) eqn:E;
    [reflexivity |].
  cbn [strip_trailing_slashes]. rewrite IH, E. reflexivity.
Qed.

Lemma normalize_stripped (raw : string) :
  normalize raw = "/" \/ strip_trailing_slashes (normalize raw) = normalize raw.
Proof.
  unfold normalize.
  destruct (strip_trailing_slashes raw =? "")%string; [left; reflexivity |].
  right. apply strip_stripped.
Qed.

Lemma prefix_split (a b : string) :
  prefix a b = true -> exists rest, b = (a ++ rest)%string.
Proof.
  revert b. induction a as [| c a IH]; intros b Hp.
  - exists b. reflexivity.
  - destruct b as [| d b]; [discriminate Hp |]. cbn in Hp.
    destruct (ascii_dec c d) as [<- | Hne]; [| discriminate Hp].
    destruct (IH b Hp) as (rest & ->). exists rest. reflexivity.
Qed.

Lemma parts_members (s seg : string) : In seg (parts s) -> seg <> "".
Proof.
  unfold parts. intros Hin Hseg. apply filter_In in Hin as [_ Hne].
  subst seg. discriminate Hne.
Qed.

(** X1. Trailing slashes of the path do not count (the normal form of a
    path followed by a slash is that of the path), and the normal form
    never ends in a slash unless it is the root. *)
Theorem normalize_trailing_slash (raw : string) :
  normalize (raw ++ "/") = normalize raw
  /\ normalize (normalize raw) = normalize raw
  /\ (forall p, normalize raw = (p ++ "/")%string -> p = "").
Proof.
  split; [| split].
  - unfold normalize. rewrite strip_append_slash. reflexivity.
  - destruct (normalize_stripped raw) as [E | E].
    + rewrite E. reflexivity.
    + unfold normalize at 1. rewrite E.
      destruct (normalize raw =? "")%string eqn:E0; [| reflexivity].
      apply String.eqb_eq in E0. unfold normalize in E0.
      destruct (strip_trailing_slashes raw =? "")%string; [discriminate E0 |].
      unfold normalize. rewrite E0. reflexivity.
  - intros p Hp. destruct (normalize_stripped raw) as [E | E].
    + rewrite E in Hp. destruct p as [| c p]; [reflexivity |].
      destruct p; discriminate Hp.
    + rewrite Hp in E. rewrite strip_app in E. cbn in E.
      assert (Hlen : (String.length (strip_trailing_slashes p) <= String.length p)%nat).
      { clear. induction p as [| c p IH]; [cbn; lia |].
        cbn [strip_trailing_slashes].
        destruct ((c =? "/")%char && (strip_trailing_slashes p =? "")%string);
          cbn; lia. }
      rewrite E in Hlen. rewrite length_append in Hlen. cbn in Hlen. lia.
Qed.

(** X2. A path that reaches one of the routes under /schedules/ has a
    second segment, non-empty and without a slash; so the lookup and the
    removal by path never answer 400 on such a path. *)
Theorem schedules_segment (raw : string) :
  prefix "/schedules/" (normalize raw) = true ->
  let p := second (normalize raw) in
  p <> ""
  /\ ~ In "/"%char (list_ascii_of_string p)
  /\ In p (parts (normalize raw))
  /\ (forall w,
         status (fst (get_schedule p w)) <> 400
         /\ status (fst (delete_schedule p w)) <> 400).
Proof.
  intros Hpre p.
  destruct (prefix_split _ _ Hpre) as (rest & Hrest).
  assert (Hparts : parts (normalize raw) = "schedules" :: parts rest).
  { rewrite Hrest. change ("/schedules/" ++ rest)%string
      with (String "/" ("schedules" ++ String "/" rest))%string.
    rewrite parts_slash. unfold parts.
    cbn [append split_slash].
    destruct (split_slash_cons rest) as (seg & segs & E). rewrite E.
    cbn. reflexivity. }
  assert (Hne : parts rest <> []).
  { intros Hnil. apply parts_nil_strip in Hnil.
    destruct (normalize_stripped raw) as [E | E].
    - rewrite E in Hrest. discriminate Hrest.
    - rewrite Hrest in E. rewrite strip_app, Hnil in E. cbn in E.
      apply (f_equal String.length) in E. cbn in E. lia. }
  assert (Hp : In p (parts rest)).
  { subst p. unfold second. rewrite Hparts. cbn [nth].
    destruct (parts rest) as [| seg segs]; [contradiction |]. left. reflexivity. }
  assert (Hp0 : p <> "") by exact (parts_members rest p Hp).
  split; [exact Hp0 |].
  split; [apply (split_slash_segments rest); unfold parts in Hp;
          apply filter_In in Hp; apply Hp |].
  split; [rewrite Hparts; right; exact Hp |].
  intros w. apply String.eqb_neq in Hp0. split.
  - unfold get_schedule. rewrite Hp0.
    unfold bind, read_db, ret.
    destruct (all_digits p); [| discriminate].
    destruct (find _ _); discriminate.
  - unfold delete_schedule. rewrite Hp0.
    unfold bind, read_db, write_db, ret.
    destruct (_ =? 0); discriminate.
Qed.

End PathFacts.

(** ** Routing *)

Section RouterFacts.

Import Server Api.
Context `{Collaborators} `{Host}.

Lemma allowed_spec (o : string) : allowed o = true <-> In o ALLOWED_ORIGINS.
Proof.
  unfold allowed. rewrite andb_true_iff, existsb_exists. split.
  - intros (_ & x & Hx & E). apply String.eqb_eq in E. subst x. exact Hx.
  - intros Hin. split.
    + destruct Hin as [<- | [<- | [<- | []]]]; reflexivity.
    + exists o. split; [exact Hin | apply String.eqb_refl].
Qed.

Lemma get_schedule_frame (p : string) (w : World) : snd (get_schedule p w) = w.
Proof.
  unfold get_schedule, bind, read_db, ret.
  destruct (p =? "")%string; [reflexivity |].
  destruct (all_digits p); [| reflexivity].
  destruct (find _ _); reflexivity.
Qed.

Ltac route_cases :=
  repeat match goal with
         | |- context [if ?c then _ else _] =>
             lazymatch c with
             | andb _ _ => destruct c eqn:?
             end
         end.

(** X3. The header Access-Control-Allow-Origin of a reply, preflight
    included, is set exactly when the request comes from one of the three
    allowed origins, and then it repeats that origin: never a wildcard and
    never another site. *)
Theorem allow_origin_echo (req : Request) (w : World) (o : string) :
  allow_origin (fst (handle req w)) = Some o
  <-> origin req = Some o /\ In o ALLOWED_ORIGINS.
Proof.
  assert (Hhead : allow_origin (fst (handle req w))
                  = let o' := match origin req with Some o' => o' | None => "" end in
                    if allowed o' then Some o' else None).
  { unfold handle. destruct (method req =? "OPTIONS")%string; [reflexivity |].
    unfold bind, ret. destruct (route req w) as [a w']. reflexivity. }
  rewrite Hhead. cbv zeta.
  destruct (origin req) as [o' |].
  - destruct (allowed o') eqn:E.
    + apply allowed_spec in E. split.
      * intros [= ->]. split; [reflexivity | exact E].
      * intros [[= ->] _]. reflexivity.
    + split; [discriminate |]. intros [[= ->] Hin].
      apply allowed_spec in Hin. congruence.
  - change (allowed "") with false. split; [discriminate | intros [Hno _]; discriminate Hno].
Qed.

(** X4. A GET request, on any path, and a preflight leave the world as it
    was: reading never writes to the store, draws no salt and calls no
    credential function. *)
Theorem reads_change_nothing (req : Request) (w : World) :
  method req = "GET" \/ method req = "OPTIONS" ->
  snd (handle req w) = w.
Proof.
  destruct req as [m p o b]. cbn [method]. intros [-> | ->];
    unfold handle; cbn [method origin]; [| reflexivity].
  change ("GET" =? "OPTIONS")%string with false. cbv iota.
  unfold bind at 1. unfold ret at 1.
  assert (Hroute : snd (route (mkRequest "GET" p o b) w) = w).
  { unfold route. cbn [method pathname body].
    change ("GET" =? "GET")%string with true.
    change ("GET" =? "POST")%string with false.
    change ("GET" =? "PUT")%string with false.
    change ("GET" =? "DELETE")%string with false.
    rewrite !andb_false_r, !andb_true_r.
    repeat match goal with
           | |- context [if ?c then _ else _] => destruct c
           end; try reflexivity.
    unfold bind, ret.
    pose proof (get_schedule_frame (second (normalize p)) w) as Hg.
    destruct (get_schedule (second (normalize p)) w). exact Hg. }
  destruct (route (mkRequest "GET" p o b) w) as [a w']. exact Hroute.
Qed.

(** X5. A request whose method is none of GET, POST, PUT, DELETE and
    OPTIONS is answered 404 "Rota não encontrada" on every path, and
    changes nothing. *)
Theorem unknown_method_not_found (req : Request) (w : World) :
  ~ In (method req) ["GET"; "POST"; "PUT"; "DELETE"; "OPTIONS"] ->
  reply_status (fst (handle req w)) = 404
  /\ reply_body (fst (handle req w)) = Json (Error "Rota não encontrada")
  /\ snd (handle req w) = w.
Proof.
  intros Hm.
  assert (Hno : forall m, In m ["GET"; "POST"; "PUT"; "DELETE"; "OPTIONS"] ->
                          (method req =? m)%string = false).
  { intros m Hin. apply String.eqb_neq. intros E. apply Hm. rewrite E. exact Hin. }
  assert (Hroute : route req w = (notFound, w)).
  { unfold route.
    rewrite (Hno "GET"), (Hno "POST"), (Hno "PUT"), (Hno "DELETE") by (cbn; tauto).
    rewrite !andb_false_r. reflexivity. }
  unfold handle. rewrite (Hno "OPTIONS") by (cbn; tauto).
  unfold bind, ret. rewrite Hroute.
  cbn [fst snd reply_status reply_body]. repeat split.
Qed.

(** X6. The router works on the normal form of the path only: a request
    and the same request with one more trailing slash get the same reply
    and leave the same world. *)
Theorem trailing_slash_same_route (req : Request) (w : World) :
  handle (mkRequest (method req) (pathname req ++ "/") (origin req) (body req)) w
  = handle req w.
Proof.
  unfold handle, route. cbn [method pathname origin body].
  unfold normalize. rewrite strip_append_slash. reflexivity.
Qed.

End RouterFacts.

(** ** What the handlers keep true of the store *)

Section InvariantFacts.

Import Server Api.
Context `{Collaborators} `{Host}.

Lemma map_update {R K : Type} (key : R -> K) (sel : R -> bool) (g : R -> R)
      (rows : list R) :
  (forall r, key (g r) = key r) ->
  map key (map (fun r => if sel r then g r else r) rows) = map key rows.
Proof.
  intros Hg. rewrite map_map. apply map_ext. intros r.
  destruct (sel r); [apply Hg | reflexivity].
Qed.

Lemma Forall_update {R : Type} (P : R -> Prop) (sel : R -> bool) (g : R -> R)
      (rows : list R) :
  (forall r, P r -> P (g r)) ->
  Forall P rows -> Forall P (map (fun r => if sel r then g r else r) rows).
Proof.
  intros Hg Hall. apply Forall_map. eapply Forall_impl; [| exact Hall].
  intros r Hr. destruct (sel r); [apply Hg; exact Hr | exact Hr].
Qed.

Lemma NoDup_map_filter {R K : Type} (key : R -> K) (keep : R -> bool) (rows : list R) :
  NoDup (map key rows) -> NoDup (map key (filter keep rows)).
Proof.
  induction rows as [| r rows IH]; cbn; intros Hnd; [constructor |].
  inversion Hnd as [| k ks Hnotin Hrest]; subst.
  destruct (keep r); [| apply IH; exact Hrest].
  cbn. constructor; [| apply IH; exact Hrest].
  intros Hin. apply Hnotin. apply in_map_iff in Hin as (x & Hx & Hin).
  apply filter_In in Hin as [Hin _]. rewrite <- Hx. apply in_map. exact Hin.
Qed.

Lemma Forall_filter {R : Type} (P : R -> Prop) (keep : R -> bool) (rows : list R) :
  Forall P rows -> Forall P (filter keep rows).
Proof.
  rewrite !Forall_forall. intros Hall r Hin.
  apply filter_In in Hin as [Hin _]. exact (Hall r Hin).
Qed.

Lemma NoDup_map_snoc {R K : Type} (key : R -> K) (rows : list R) (r : R) :
  NoDup (map key rows) -> ~ In (key r) (map key rows) ->
  NoDup (map key (rows ++ [r])).
Proof.
  intros Hnd Hnew. rewrite map_app. cbn.
  apply NoDup_app; [exact Hnd | repeat constructor; intros [] |].
  intros k Hk [<- | []]. exact (Hnew Hk).
Qed.

Lemma ok_users (d : Db) (rows : list User) (seq : Z) :
  store_ok d ->
  NoDup (map email rows) -> NoDup (map user_id rows) ->
  Forall (fun u => user_id u <= seq) rows ->
  Forall (fun u => flag (approved u) /\ flag (is_admin u)) rows ->
  store_ok (mkDb rows seq (schedules d) (schedules_seq d)).
Proof. intros [] ? ? ? ?. constructor; assumption. Qed.

Lemma ok_schedules (d : Db) (rows : list Schedule) (seq : Z) :
  store_ok d ->
  NoDup (map schedule_id rows) ->
  Forall (fun s => schedule_id s <= seq) rows ->
  Forall (fun s => flag (online s)) rows ->
  store_ok (mkDb (users d) (users_seq d) rows seq).
Proof. intros [] ? ? ?. constructor; assumption. Qed.

Lemma ok_update_users (d : Db) (sel : User -> bool) (g : User -> User) :
  (forall u, user_id (g u) = user_id u) ->
  (forall u, email (g u) = email u) ->
  (forall u, flag (approved u) /\ flag (is_admin u) ->
             flag (approved (g u)) /\ flag (is_admin (g u))) ->
  store_ok d ->
  store_ok (mkDb (map (fun u => if sel u then g u else u) (users d)) (users_seq d)
                 (schedules d) (schedules_seq d)).
Proof.
  intros Hid Hemail Hflag Hok. pose proof Hok as [].
  apply ok_users; try assumption.
  - rewrite map_update by exact Hemail. assumption.
  - rewrite map_update by exact Hid. assumption.
  - apply Forall_update; [| assumption]. intros u Hu. rewrite Hid. exact Hu.
  - apply Forall_update; assumption.
Qed.

Lemma ok_filter_users (d : Db) (keep : User -> bool) :
  store_ok d ->
  store_ok (mkDb (filter keep (users d)) (users_seq d) (schedules d) (schedules_seq d)).
Proof.
  intros Hok. pose proof Hok as [].
  apply ok_users; try assumption;
    auto using NoDup_map_filter, Forall_filter.
Qed.

Lemma ok_insert_user (d : Db) (row : User) :
  store_ok d ->
  user_id row = next_rowid (map user_id (users d)) (users_seq d) ->
  existsb (fun u => (email u =? email row)%string) (users d) = false ->
  flag (approved row) -> flag (is_admin row) ->
  store_ok (mkDb (users d ++ [row]) (user_id row) (schedules d) (schedules_seq d)).
Proof.
  intros Hok Hid Hnew Ha Hi. pose proof Hok as [].
  destruct (next_rowid_bounds (map user_id (users d)) (users_seq d)) as [Hseq Hfresh].
  apply ok_users; try assumption.
  - apply NoDup_map_snoc; [assumption |].
    intros Hin. apply in_map_iff in Hin as (u & Hu & Hin).
    pose proof (proj1 (existsb_false _ _) Hnew u Hin) as E. cbn in E.
    rewrite Hu, String.eqb_refl in E. discriminate E.
  - apply NoDup_map_snoc; [assumption |].
    intros Hin. specialize (Hfresh _ Hin). lia.
  - apply Forall_app. split.
    + rewrite Forall_forall. intros u Hu.
      specialize (Hfresh _ (in_map user_id _ _ Hu)). lia.
    + repeat constructor. lia.
  - apply Forall_app. split; [assumption |].
    constructor; [split; assumption | constructor].
Qed.

Lemma ok_insert_schedule (d : Db) (row : Schedule) :
  store_ok d ->
  schedule_id row = next_rowid (map schedule_id (schedules d)) (schedules_seq d) ->
  flag (online row) ->
  store_ok (mkDb (users d) (users_seq d) (schedules d ++ [row]) (schedule_id row)).
Proof.
  intros Hok Hid Ho. pose proof Hok as [].
  destruct (next_rowid_bounds (map schedule_id (schedules d)) (schedules_seq d))
    as [Hseq Hfresh].
  apply ok_schedules; try assumption.
  - apply NoDup_map_snoc; [assumption |].
    intros Hin. specialize (Hfresh _ Hin). lia.
  - apply Forall_app. split.
    + rewrite Forall_forall. intros s Hs.
      specialize (Hfresh _ (in_map schedule_id _ _ Hs)). lia.
    + repeat constructor. lia.
  - apply Forall_app. split; [assumption |]. constructor; [assumption | constructor].
Qed.

Lemma ok_update_schedules (d : Db) (sel : Schedule -> bool) (o : Z) :
  flag o -> store_ok d ->
  store_ok (mkDb (users d) (users_seq d)
                 (map (fun s => if sel s then set_online o s else s) (schedules d))
                 (schedules_seq d)).
Proof.
  intros Ho Hok. pose proof Hok as [].
  apply ok_schedules; try assumption.
  - rewrite map_update by reflexivity. assumption.
  - apply Forall_update; [| assumption]. intros s Hs. exact Hs.
  - apply Forall_update; [| assumption]. intros s _. exact Ho.
Qed.

Lemma ok_filter_schedules (d : Db) (keep : Schedule -> bool) :
  store_ok d ->
  store_ok (mkDb (users d) (users_seq d) (filter keep (schedules d)) (schedules_seq d)).
Proof.
  intros Hok. pose proof Hok as [].
  apply ok_schedules; try assumption;
    auto using NoDup_map_filter, Forall_filter.
Qed.

Lemma ok_same (d : Db) :
  store_ok d ->
  store_ok (mkDb (users d) (users_seq d) (schedules d) (schedules_seq d)).
Proof. destruct d. exact (fun Hok => Hok). Qed.

Lemma flag_of_bool (b : bool) : flag (if b then 1 else 0).
Proof. destruct b; [right | left]; reflexivity. Qed.

Lemma flag_of_bool_neg (b : bool) : flag (if b then 0 else 1).
Proof. destruct b; [left | right]; reflexivity. Qed.

Ltac run :=
  unfold with_body, hashPassword, checkPassword, select_user_by_email,
    bind, ret, read_db, write_db, record, draw_salt;
  cbn [fst snd db entropy calls users users_seq schedules schedules_seq].

Lemma login_db (parsed : Parsed) (w : World) : db (snd (login parsed w)) = db w.
Proof.
  unfold login. run. destruct parsed as [msg | body]; [reflexivity |].
  destruct (negb (truthy body) || _ || _); [reflexivity |].
  destruct (find _ _) as [row |]; [| reflexivity].
  destruct (approved row =? 0); [reflexivity |].
  unfold verifyPassword. run.
  destruct (is_str _ _); cbn; [reflexivity |].
  destruct (bcrypt_compare _ _) as [[|] |]; reflexivity.
Qed.

Lemma approve_keeps (parsed : Parsed) (w : World) :
  store_ok (db w) -> store_ok (db (snd (approve parsed w))).
Proof.
  intros Hok. unfold approve, update_user_approved, update_where. run.
  destruct parsed as [msg | body]; [exact Hok |].
  destruct (negb (truthy body) || _); [exact Hok |]. run.
  assert (Hup : store_ok
                  (mkDb (map (fun u => if matches (sqlite_rowid (get body "id")) (user_id u)
                                       then set_approved 1 u else u) (users (db w)))
                        (users_seq (db w)) (schedules (db w)) (schedules_seq (db w)))).
  { apply ok_update_users; try reflexivity; [| exact Hok].
    intros u [_ Hi]. split; [right; reflexivity | exact Hi]. }
  destruct (_ =? 0); exact Hup.
Qed.

Lemma reject_keeps (parsed : Parsed) (w : World) :
  store_ok (db w) -> store_ok (db (snd (reject parsed w))).
Proof.
  intros Hok. unfold reject, delete_user. run.
  destruct parsed as [msg | body]; [exact Hok |].
  destruct (negb (truthy body) || _); [exact Hok |]. run.
  destruct (_ =? 0); apply ok_filter_users; exact Hok.
Qed.

Lemma toggle_admin_keeps (parsed : Parsed) (w : World) :
  store_ok (db w) -> store_ok (db (snd (toggle_admin parsed w))).
Proof.
  intros Hok. unfold toggle_admin, update_where. run.
  destruct parsed as [msg | body]; [exact Hok |].
  destruct (negb (truthy body) || _); [exact Hok |]. run.
  destruct (find _ _) as [row |]; [| exact Hok]. run.
  apply ok_update_users; try reflexivity; [| exact Hok].
  intros u [Ha _]. split; [exact Ha | apply flag_of_bool_neg].
Qed.

Lemma create_user_keeps (parsed : Parsed) (w : World) :
  store_ok (db w) -> store_ok (db (snd (create_user parsed w))).
Proof.
  intros Hok. unfold create_user, insert_user. run.
  destruct parsed as [msg | body]; [exact Hok |].
  destruct (negb (truthy body) || _ || _ || _); [exact Hok |]. run.
  destruct (find _ _) as [row |]; [exact Hok |]. run.
  destruct (bcrypt_hash _ _) as [hash |]; [| exact Hok]. run.
  destruct (existsb _ _) eqn:Enew; [exact Hok |]. run.
  match goal with
  | |- store_ok (mkDb (_ ++ [?row]) _ _ _) =>
      apply (ok_insert_user (db w) row Hok eq_refl Enew)
  end; cbn [approved is_admin]; apply flag_of_bool.
Qed.

Lemma create_schedule_keeps (parsed : Parsed) (w : World) :
  store_ok (db w) -> store_ok (db (snd (create_schedule parsed w))).
Proof.
  intros Hok. unfold create_schedule, insert_schedule. run.
  destruct parsed as [msg | body]; [exact Hok |].
  destruct (negb (truthy body)); [exact Hok |].
  destruct (negb (truthy _) || _ || _ || _); [exact Hok |].
  destruct (negb (TimeWindow.validateHour _)); [exact Hok |]. run.
  match goal with
  | |- store_ok (mkDb _ _ (_ ++ [?row]) _) =>
      apply (ok_insert_schedule (db w) row Hok eq_refl)
  end. cbn [online]. apply flag_of_bool.
Qed.

Lemma update_schedule_keeps (id : string) (parsed : Parsed) (w : World) :
  store_ok (db w) -> store_ok (db (snd (update_schedule id parsed w))).
Proof.
  intros Hok. unfold update_schedule, update_schedule_online, update_where. run.
  destruct (id =? "")%string; [exact Hok |].
  destruct parsed as [msg | body]; [exact Hok |].
  destruct (negb (truthy body)); [exact Hok |].
  destruct (typeof (get body "online")); try exact Hok; run;
    destruct (_ =? 0); apply ok_update_schedules; try exact Hok; apply flag_of_bool.
Qed.

Lemma delete_schedule_keeps (id : string) (w : World) :
  store_ok (db w) -> store_ok (db (snd (delete_schedule id w))).
Proof.
  intros Hok. unfold delete_schedule. run.
  destruct (id =? "")%string; [exact Hok |]. run.
  destruct (_ =? 0); apply ok_filter_schedules; exact Hok.
Qed.

(** X7. Every request keeps the store well formed: whatever the method,
    path and body, after the reply emails and rowids are still unique, no
    rowid is beyond its sequence, and approved, is_admin and online still
    hold 0 or 1. *)
Theorem handle_keeps_store (req : Request) (w : World) :
  store_ok (db w) -> store_ok (db (snd (handle req w))).
Proof.
  intros Hok. unfold handle.
  destruct (method req =? "OPTIONS")%string; [exact Hok |].
  assert (Hroute : store_ok (db (snd (route req w)))).
  { unfold route.
    repeat match goal with
           | |- context [if ?c then _ else _] =>
               lazymatch c with
               | andb _ _ => destruct c
               end
           end;
      try exact Hok; try (apply toggle_admin_keeps; exact Hok);
      unfold bind, ret.
    - rewrite <- (login_db (body req) w) in Hok.
      destruct (login (body req) w). exact Hok.
    - pose proof (approve_keeps (body req) w Hok) as K.
      destruct (approve (body req) w). exact K.
    - pose proof (reject_keeps (body req) w Hok) as K.
      destruct (reject (body req) w). exact K.
    - pose proof (create_user_keeps (body req) w Hok) as K.
      destruct (create_user (body req) w). exact K.
    - rewrite <- (get_schedule_frame (second (normalize (pathname req))) w) in Hok.
      destruct (get_schedule _ w). exact Hok.
    - pose proof (create_schedule_keeps (body req) w Hok) as K.
      destruct (create_schedule (body req) w). exact K.
    - pose proof (delete_schedule_keeps (second (normalize (pathname req))) w Hok) as K.
      destruct (delete_schedule _ w). exact K.
    - pose proof (update_schedule_keeps (second (normalize (pathname req)))
                    (body req) w Hok) as K.
      destruct (update_schedule _ _ w). exact K. }
  unfold bind, ret. destruct (route req w) as [a w']. exact Hroute.
Qed.

End InvariantFacts.

(** ** User directory: removal, the admin flag, the listings *)

Section DirectoryMoreFacts.

Import Server Api.
Context `{Collaborators}.

Lemma filter_keeps_all {R : Type} (keep : R -> bool) (rows : list R) :
  (forall r, In r rows -> keep r = true) -> filter keep rows = rows.
Proof.
  induction rows as [| a rows IH]; intros Hall; [reflexivity |].
  cbn. rewrite (Hall a (or_introl eq_refl)), IH; [reflexivity |].
  intros r Hr. apply Hall. right. exact Hr.
Qed.

Lemma existsb_filter_out {R : Type} (sel : R -> bool) (rows : list R) :
  existsb sel (filter (fun r => negb (sel r)) rows) = false.
Proof.
  apply existsb_false. intros r Hr. apply filter_In in Hr as [_ Hr].
  destruct (sel r); [discriminate Hr | reflexivity].
Qed.

(** The world after [DELETE FROM users WHERE id = ?]. *)
Lemma reject_run (w : World) (body : JsValue) :
  typeof (get body "id") <> TUndefined ->
  let sel := fun u => matches (sqlite_rowid (get body "id")) (user_id u) in
  reject (Resolved body) w
  = (if existsb sel (users (db w))
     then sendJSON (Success "Usuário removido") 200
     else sendJSON (Error "Usuário não encontrado") 404,
     mkWorld (mkDb (filter (fun u => negb (sel u)) (users (db w))) (users_seq (db w))
                   (schedules (db w)) (schedules_seq (db w)))
             (entropy w) (calls w)).
Proof.
  intros Hid sel. pose proof (defined_property_truthy body "id" Hid) as Hb.
  unfold reject, with_body. rewrite Hb. cbn [negb orb].
  destruct (typeof (get body "id")) eqn:Et; try contradiction;
    unfold bind, delete_user, read_db, write_db, bind, ret;
    rewrite changes_zero; fold sel;
    destruct (existsb sel (users (db w))); reflexivity.
Qed.

Lemma find_unique_email (rows : list User) (u : User) (keep : User -> bool) :
  NoDup (map email rows) -> In u rows -> keep u = false ->
  find (fun x => (email x =? email u)%string) (filter keep rows) = None.
Proof.
  intros Hnd Hu Hkeep. apply find_absent. intros x Hx.
  apply filter_In in Hx as [Hx Hkx].
  apply String.eqb_neq. intros E.
  assert (x = u).
  { clear Hkeep Hkx. induction rows as [| a rows IH]; [destruct Hu |].
    cbn in Hnd. inversion Hnd as [| k ks Hnotin Hrest]; subst.
    destruct Hx as [-> | Hx], Hu as [-> | Hu]; try reflexivity.
    - exfalso. apply Hnotin. rewrite E. apply in_map. exact Hu.
    - exfalso. apply Hnotin. rewrite <- E. apply in_map. exact Hx.
    - apply IH; assumption. }
  subst x. congruence.
Qed.

(** X8. Rejecting by id answers 404 exactly when no user has that id and
    then changes nothing; otherwise it succeeds, removes the rows of that
    id and keeps the others in order, so a second rejection answers 404;
    and, emails being unique, a login with the removed user's email is
    then answered 404. *)
Theorem reject_removes (w : World) (body : JsValue) :
  typeof (get body "id") <> TUndefined ->
  let key := sqlite_rowid (get body "id") in
  let r := fst (reject (Resolved body) w) in
  let w' := snd (reject (Resolved body) w) in
  (status r = 404 <-> forall u, In u (users (db w)) -> key <> Some (user_id u))
  /\ (status r <> 404 -> r = sendJSON (Success "Usuário removido") 200)
  /\ (status r = 404 -> w' = w)
  /\ users (db w') = filter (fun u => negb (matches key (user_id u))) (users (db w))
  /\ status (fst (reject (Resolved body) w')) = 404
  /\ (forall u b,
         In u (users (db w)) -> key = Some (user_id u) ->
         NoDup (map email (users (db w))) ->
         truthy b = true -> truthy (get b "email") = true ->
         truthy (get b "password") = true ->
         sqlite_text (get b "email") = email u ->
         status (fst (login (Resolved b) w')) = 404).
Proof.
  intros Hid key r w'. subst r w'.
  rewrite (reject_run w body Hid). fold key. cbn [fst snd].
  set (sel := fun u => matches key (user_id u)).
  split; [| split; [| split; [| split; [| split]]]].
  - destruct (existsb sel (users (db w))) eqn:E; cbn [sendJSON status].
    + split; [discriminate |]. intros Hno. exfalso.
      apply existsb_exists in E as (u & Hu & Hsel).
      apply matches_key in Hsel. exact (Hno u Hu Hsel).
    + split; [| reflexivity]. intros _ u Hu.
      apply matches_not_key. exact (proj1 (existsb_false _ _) E u Hu).
  - destruct (existsb sel (users (db w))); cbn [sendJSON status]; [reflexivity |].
    intros Hne. contradiction.
  - destruct (existsb sel (users (db w))) eqn:E; cbn [sendJSON status];
      [discriminate |]. intros _.
    rewrite filter_keeps_all.
    + destruct w as [[us useq ss sseq] e c]. reflexivity.
    + intros u Hu. pose proof (proj1 (existsb_false _ _) E u Hu) as Hs.
      unfold sel in Hs. rewrite Hs. reflexivity.
  - reflexivity.
  - rewrite (reject_run _ body Hid). fold key. cbn [fst db users].
    fold sel. rewrite existsb_filter_out. reflexivity.
  - intros u b Hu Hkey Hnd Hb He Hp Hemail.
    rewrite (login_run _ b Hb He Hp), Hemail. cbn [db users].
    rewrite (find_unique_email (users (db w)) u _ Hnd Hu); [reflexivity |].
    apply matches_key in Hkey. unfold sel. cbv beta. rewrite Hkey. reflexivity.
Qed.

Lemma NoDup_map_eq {R K : Type} (key : R -> K) (rows : list R) (a b : R) :
  NoDup (map key rows) -> In a rows -> In b rows -> key a = key b -> a = b.
Proof.
  induction rows as [| x rows IH]; intros Hnd Ha Hb E; [destruct Ha |].
  cbn in Hnd. inversion Hnd as [| k ks Hnotin Hrest]; subst.
  destruct Ha as [-> | Ha], Hb as [-> | Hb]; try reflexivity.
  - exfalso. apply Hnotin. rewrite E. apply in_map. exact Hb.
  - exfalso. apply Hnotin. rewrite <- E. apply in_map. exact Ha.
  - apply IH; assumption.
Qed.

Lemma find_map_inv {R : Type} (p : R -> bool) (g : R -> R) (rows : list R) :
  (forall r, p (g r) = p r) ->
  find p (map g rows) = option_map g (find p rows).
Proof.
  intros Hg. induction rows as [| a rows IH]; [reflexivity |].
  cbn. rewrite Hg. destruct (p a); [reflexivity | exact IH].
Qed.

Lemma toggle_admin_run (w : World) (body : JsValue) :
  typeof (get body "id") <> TUndefined ->
  let sel := fun u => matches (sqlite_rowid (get body "id")) (user_id u) in
  toggle_admin (Resolved body) w
  = match find sel (users (db w)) with
    | None => (answer (sendJSON (Error "Usuário não encontrado") 404), w)
    | Some row =>
        let newVal := if is_admin row =? 1 then 0 else 1 in
        (mkAnswer 200 (AdminSet (get body "id") newVal),
         mkWorld (mkDb (map (fun u => if sel u then set_is_admin newVal u else u)
                            (users (db w)))
                       (users_seq (db w)) (schedules (db w)) (schedules_seq (db w)))
                 (entropy w) (calls w))
    end.
Proof.
  intros Hid sel. pose proof (defined_property_truthy body "id" Hid) as Hb.
  unfold toggle_admin. rewrite Hb. cbn [negb orb].
  destruct (typeof (get body "id")) eqn:Et; try contradiction;
    unfold bind, update_where, read_db, write_db, bind, ret; fold sel;
    destruct (find sel (users (db w))); reflexivity.
Qed.

(** X9. Switching the admin flag by id answers 404 and changes nothing when
    no user has that id; otherwise it answers the new value, 0 for a user
    whose flag was 1 and 1 for any other, stores it for the rows of that id
    and touches nothing else; with unique rowids, switching twice a flag
    that held 0 or 1 restores the world. *)
Theorem toggle_admin_flips (w : World) (body : JsValue) :
  typeof (get body "id") <> TUndefined ->
  let key := sqlite_rowid (get body "id") in
  let sel := fun u => matches key (user_id u) in
  let a := fst (toggle_admin (Resolved body) w) in
  let w' := snd (toggle_admin (Resolved body) w) in
  ((forall u, In u (users (db w)) -> key <> Some (user_id u)) ->
   a = answer (sendJSON (Error "Usuário não encontrado") 404) /\ w' = w)
  /\ (forall u, find sel (users (db w)) = Some u ->
        let newVal := if is_admin u =? 1 then 0 else 1 in
        a = mkAnswer 200 (AdminSet (get body "id") newVal)
        /\ users (db w')
           = map (fun x => if sel x then set_is_admin newVal x else x) (users (db w))
        /\ schedules (db w') = schedules (db w)
        /\ (NoDup (map user_id (users (db w))) -> flag (is_admin u) ->
            snd (toggle_admin (Resolved body) w') = w)).
Proof.
  intros Hid key sel a w'. subst a w'.
  rewrite (toggle_admin_run w body Hid). fold key. fold sel. split.
  - intros Hno. rewrite find_absent; [split; reflexivity |].
    intros u Hu. apply matches_not_key. exact (Hno u Hu).
  - intros u Hfind newVal. rewrite Hfind. cbv zeta. fold newVal. cbn [fst snd db users schedules].
    split; [reflexivity |]. split; [reflexivity |]. split; [reflexivity |].
    intros Hnd Hflag.
    rewrite (toggle_admin_run _ body Hid). fold key. fold sel. cbn [db users].
    rewrite find_map_inv
      by (intros r; unfold sel; destruct (matches key (user_id r)) eqn:E; exact E).
    rewrite Hfind. cbn [option_map].
    pose proof (find_some _ _ Hfind) as [Hu Hsel].
    unfold sel in Hsel |- *. rewrite Hsel.
    cbn [set_is_admin is_admin]. cbv zeta.
    assert (Hback : (if newVal =? 1 then 0 else 1) = is_admin u).
    { subst newVal. destruct Hflag as [-> | ->]; reflexivity. }
    rewrite Hback. cbn [snd db users users_seq schedules schedules_seq entropy calls].
    rewrite map_map.
    rewrite (map_ext_in _ (fun x => x)).
    + rewrite map_id. destruct w as [[us useq ss sseq] e c]. reflexivity.
    + intros x Hx. destruct (matches key (user_id x)) eqn:Ex.
      * cbn [set_is_admin user_id]. rewrite Ex.
        assert (x = u).
        { apply (NoDup_map_eq user_id (users (db w))); try assumption.
          apply matches_key in Ex, Hsel. congruence. }
        subst x. destruct u; reflexivity.
      * rewrite Ex. reflexivity.
Qed.

(** X10. The two listings split the users by the approved column: a user
    is listed as pending exactly when approved = 0 and as approved exactly
    when approved = 1, so on a well-formed store every user is in one list
    and the lists together are as long as the table; after an approval the
    rows of that id are gone from the pending list and are in the approved
    one. *)
Theorem listings_partition (w : World) :
  (forall x, In x (listing (fst (list_users 0 w)))
             <-> exists u, In u (users (db w)) /\ approved u = 0 /\ x = listed u)
  /\ (forall x, In x (listing (fst (list_users 1 w)))
                <-> exists u, In u (users (db w)) /\ approved u = 1 /\ x = listed u)
  /\ (store_ok (db w) ->
      (List.length (listing (fst (list_users 0 w)))
       + List.length (listing (fst (list_users 1 w))))%nat
      = List.length (users (db w)))
  /\ (forall body,
         typeof (get body "id") <> TUndefined ->
         let key := sqlite_rowid (get body "id") in
         let w' := snd (approve (Resolved body) w) in
         (forall x, In x (listing (fst (list_users 0 w'))) -> key <> Some (listed_id x))
         /\ (forall u, In u (users (db w)) -> key = Some (user_id u) ->
                       In (listed (set_approved 1 u)) (listing (fst (list_users 1 w'))))).
Proof.
  assert (Hlist : forall f w0,
             listing (fst (list_users f w0))
             = map listed (filter (fun u => approved u =? f) (users (db w0)))).
  { reflexivity. }
  assert (Hin : forall f w0 x,
             In x (listing (fst (list_users f w0)))
             <-> exists u, In u (users (db w0)) /\ approved u = f /\ x = listed u).
  { intros f w0 x. rewrite Hlist, in_map_iff. split.
    - intros (u & <- & Hu). apply filter_In in Hu as [Hu E].
      apply Z.eqb_eq in E. exists u. auto.
    - intros (u & Hu & E & ->). exists u. split; [reflexivity |].
      apply filter_In. split; [exact Hu | apply Z.eqb_eq; exact E]. }
  split; [apply Hin |]. split; [apply Hin |]. split.
  - intros [_ _ _ Hflags _ _ _]. rewrite !Hlist, !length_map.
    induction (users (db w)) as [| u us IH]; [reflexivity |].
    inversion Hflags as [| ? ? [Ha _] Hrest]; subst. specialize (IH Hrest).
    cbn [filter]. destruct Ha as [-> | ->]; cbn; lia.
  - intros body Hid key w'. subst w'.
    pose proof (defined_property_truthy body "id" Hid) as Hb.
    rewrite (approve_run w body Hb Hid). fold key. cbn [snd]. split.
    + intros x Hx Hkey. apply Hin in Hx as (u' & Hu' & Ha & ->).
      cbn [approved_world db users] in Hu'.
      apply in_map_iff in Hu' as (u & <- & Hu). cbn [listed listed_id] in Hkey.
      destruct (matches key (user_id u)) eqn:E.
      * discriminate Ha.
      * apply matches_not_key in E. contradiction.
    + intros u Hu Hkey. apply Hin. exists (set_approved 1 u).
      split; [| split; reflexivity].
      cbn [approved_world db users]. apply in_map_iff. exists u.
      apply matches_key in Hkey. rewrite Hkey. split; [reflexivity | exact Hu].
Qed.

End DirectoryMoreFacts.

(** ** From registration to login *)

Section AccountFacts.

Import Server Api.
Context `{Collaborators}.

(** The row a successful POST /users stores. *)
Lemma create_user_success (w : World) (body : JsValue) (hash : string) :
  truthy body = true -> truthy (get body "name") = true ->
  truthy (get body "email") = true -> truthy (get body "password") = true ->
  (forall u, In u (users (db w)) -> email u <> sqlite_text (get body "email")) ->
  bcrypt_hash (entropy w) (get body "password") = Some hash ->
  let approvedFlag :=
    if is_num (get body "approved") 1 || is_str (get body "approved") "1" then 1 else 0 in
  let adminFlag :=
    if is_num (get body "is_admin") 1 || is_str (get body "is_admin") "1" then 1 else 0 in
  let id := next_rowid (map user_id (users (db w))) (users_seq (db w)) in
  let row := mkUser id (sqlite_text (get body "name")) (sqlite_text (get body "email"))
                    hash (Some (sqlite_text (or_else (get body "cpf") (JStr ""))))
                    adminFlag approvedFlag in
  create_user (Resolved body) w
  = (sendJSON (Created id (if approvedFlag =? 1 then "Usuário criado e aprovado"
                           else "Cadastro enviado, aguarde aprovação")) 201,
     mkWorld (mkDb (users (db w) ++ [row]) id (schedules (db w)) (schedules_seq (db w)))
             (S (entropy w)) (calls w ++ [CallBcryptHash (get body "password")])).
Proof.
  intros Hb Hn He Hp Hfresh Hhash.
  rewrite (create_user_run w body Hb Hn He Hp).
  rewrite find_absent by (intros u Hu; apply String.eqb_neq; apply Hfresh; exact Hu).
  cbv zeta. rewrite Hhash. reflexivity.
Qed.

Lemma login_found (w : World) (email p : string) (row : User) :
  email <> "" -> p <> "" ->
  find (fun u => (Store.email u =? email)%string) (users (db w)) = Some row ->
  let r := fst (login (Resolved (object [("email", email); ("password", p)])) w) in
  (approved row = 0 -> status r = 403)
  /\ (approved row <> 0 ->
      r = if (p =? Store.password row)%string
             || match bcrypt_compare (JStr p) (Store.password row) with
                | Some b => b
                | None => false
                end
          then sendJSON (LoginOk (mkPublicUser (user_id row) (name row) (Store.email row)
                                    (if is_admin row =? 1 then 1 else 0))) 200
          else sendJSON (Error "Senha incorreta") 401).
Proof.
  intros He Hp Hfind r. subst r.
  rewrite login_run; try reflexivity;
    [| exact (nonempty_truthy email He) | exact (nonempty_truthy p Hp)].
  change (get (object [("email", email); ("password", p)]) "email") with (JStr email).
  change (get (object [("email", email); ("password", p)]) "password") with (JStr p).
  cbn [sqlite_text]. rewrite Hfind. split.
  - intros ->. reflexivity.
  - intros Hne. destruct (approved row =? 0) eqn:E; [apply Z.eqb_eq in E; contradiction |].
    rewrite verifyPassword_run. cbn [is_str].
    destruct ((p =? Store.password row)%string || _); reflexivity.
Qed.

(** X11. The life of a public registration: the form's payload, on a free
    email and with the digest computed, is answered 201 "aguarde
    aprovação"; until approval every login with that email is answered
    403, whatever the password; after an approval by the id of the answer a
    login is answered 200 exactly when the password equals the stored
    digest or bcrypt accepts it, and 401 otherwise. *)
Theorem registration_lifecycle (w : World) (name email password cpf hash : string) :
  name <> "" -> email <> "" -> password <> "" ->
  (forall u, In u (users (db w)) -> Store.email u <> email) ->
  bcrypt_hash (entropy w) (JStr password) = Some hash ->
  exists payload id,
    Pages.register_form name email password cpf = inr payload
    /\ fst (create_user (Resolved payload) w)
       = sendJSON (Created id "Cadastro enviado, aguarde aprovação") 201
    /\ let w1 := snd (create_user (Resolved payload) w) in
       (forall p, p <> "" ->
          status (fst (login (Resolved (object [("email", email); ("password", p)])) w1))
          = 403)
       /\ status (fst (approve (Resolved (JObj [("id", JNum id)])) w1)) = 200
       /\ let w2 := snd (approve (Resolved (JObj [("id", JNum id)])) w1) in
          forall p, p <> "" ->
            status (fst (login (Resolved (object [("email", email); ("password", p)])) w2))
            = if (p =? hash)%string
                 || match bcrypt_compare (JStr p) hash with
                    | Some b => b
                    | None => false
                    end
              then 200 else 401.
Proof.
  intros Hn He Hp Hfresh Hhash.
  set (payload := JObj [("name", JStr name); ("email", JStr email);
                        ("password", JStr password); ("cpf", JStr cpf)]).
  set (id := next_rowid (map user_id (users (db w))) (users_seq (db w))).
  exists payload, id.
  assert (Hform : Pages.register_form name email password cpf = inr payload).
  { unfold Pages.register_form.
    apply String.eqb_neq in Hn, He, Hp. rewrite Hn, He, Hp. reflexivity. }
  split; [exact Hform |].
  assert (Hrun := create_user_success w payload hash eq_refl
                    (nonempty_truthy name Hn) (nonempty_truthy email He)
                    (nonempty_truthy password Hp) Hfresh Hhash).
  cbv zeta in Hrun.
  change (get payload "name") with (JStr name) in Hrun.
  change (get payload "email") with (JStr email) in Hrun.
  change (get payload "password") with (JStr password) in Hrun.
  change (get payload "cpf") with (JStr cpf) in Hrun.
  change (get payload "approved") with JUndefined in Hrun.
  change (get payload "is_admin") with JUndefined in Hrun.
  cbn [is_num is_str orb sqlite_text] in Hrun. fold id in Hrun.
  change (0 =? 1) with false in Hrun. cbv iota in Hrun.
  set (row := mkUser id name email hash
                     (Some (sqlite_text (or_else (JStr cpf) (JStr "")))) 0 0) in *.
  rewrite Hrun. cbn [fst snd]. split; [reflexivity |].
  set (w1 := mkWorld _ _ _).
  assert (Hfind1 : find (fun u => (Store.email u =? email)%string) (users (db w1))
                   = Some row).
  { cbn [w1 db users]. apply find_last; [| cbn; apply String.eqb_refl].
    intros u Hu. apply String.eqb_neq. exact (Hfresh u Hu). }
  split; [| split].
  - intros p Hp0. apply (login_found w1 email p row He Hp0 Hfind1). reflexivity.
  - assert (Hid : typeof (get (JObj [("id", JNum id)]) "id") <> TUndefined)
      by (cbn; discriminate).
    rewrite (approve_run w1 (JObj [("id", JNum id)]) eq_refl Hid).
    change (sqlite_rowid (get (JObj [("id", JNum id)]) "id")) with (Some id).
    cbn [w1 db users]. rewrite existsb_app. cbn. rewrite Z.eqb_refl, orb_true_r.
    reflexivity.
  - cbv zeta. intros p Hp0.
    assert (Hid : typeof (get (JObj [("id", JNum id)]) "id") <> TUndefined)
      by (cbn; discriminate).
    rewrite (approve_run w1 (JObj [("id", JNum id)]) eq_refl Hid). cbn [snd].
    change (sqlite_rowid (get (JObj [("id", JNum id)]) "id")) with (Some id).
    assert (Hfind2 : find (fun u => (Store.email u =? email)%string)
                          (users (db (approved_world (Some id) w1)))
                     = Some (set_approved 1 row)).
    { cbn [approved_world db users].
      rewrite find_map_inv, Hfind1.
      - cbn [option_map]. cbn [matches row user_id]. rewrite Z.eqb_refl. reflexivity.
      - intros u. destruct (matches (Some id) (user_id u)); reflexivity. }
    destruct (login_found _ email p _ He Hp0 Hfind2) as [_ Hok].
    rewrite Hok by (cbn; discriminate).
    cbn [set_approved Store.password row].
    destruct ((p =? hash)%string || _); reflexivity.
Qed.

(** X12. A user created from the admin panel is stored approved, with the
    admin flag as ticked, and is answered 201 "criado e aprovado"; such a
    user can log in at once: the login is answered 200, with the is_admin
    of the tick, exactly when the password equals the stored digest or
    bcrypt accepts it, and 401 otherwise, never 403. *)
Theorem admin_created_user
        (w : World) (name email password cpf hash : string) (isAdminCreate : bool) :
  name <> "" -> email <> "" -> password <> "" ->
  (forall u, In u (users (db w)) -> Store.email u <> email) ->
  bcrypt_hash (entropy w) (JStr password) = Some hash ->
  exists payload id,
    Pages.admin_form name email password cpf isAdminCreate = inr payload
    /\ fst (create_user (Resolved payload) w)
       = sendJSON (Created id "Usuário criado e aprovado") 201
    /\ let w1 := snd (create_user (Resolved payload) w) in
       forall p, p <> "" ->
         fst (login (Resolved (object [("email", email); ("password", p)])) w1)
         = if (p =? hash)%string
              || match bcrypt_compare (JStr p) hash with
                 | Some b => b
                 | None => false
                 end
           then sendJSON (LoginOk (mkPublicUser id name email
                                     (if isAdminCreate then 1 else 0))) 200
           else sendJSON (Error "Senha incorreta") 401.
Proof.
  intros Hn He Hp Hfresh Hhash.
  set (payload := JObj [("name", JStr name); ("email", JStr email);
                        ("password", JStr password); ("cpf", JStr cpf);
                        ("approved", JNum 1);
                        ("is_admin", JNum (if isAdminCreate then 1 else 0))]).
  set (id := next_rowid (map user_id (users (db w))) (users_seq (db w))).
  exists payload, id.
  assert (Hform : Pages.admin_form name email password cpf isAdminCreate = inr payload).
  { unfold Pages.admin_form.
    apply String.eqb_neq in Hn, He, Hp. rewrite Hn, He, Hp. reflexivity. }
  split; [exact Hform |].
  assert (Hrun := create_user_success w payload hash eq_refl
                    (nonempty_truthy name Hn) (nonempty_truthy email He)
                    (nonempty_truthy password Hp) Hfresh Hhash).
  cbv zeta in Hrun.
  change (get payload "name") with (JStr name) in Hrun.
  change (get payload "email") with (JStr email) in Hrun.
  change (get payload "password") with (JStr password) in Hrun.
  change (get payload "cpf") with (JStr cpf) in Hrun.
  change (get payload "approved") with (JNum 1) in Hrun.
  change (get payload "is_admin") with (JNum (if isAdminCreate then 1 else 0)) in Hrun.
  cbn [is_num is_str orb sqlite_text] in Hrun. fold id in Hrun.
  change (1 =? 1) with true in Hrun. cbv iota in Hrun.
  assert (Hadmin : (if ((if isAdminCreate then 1 else 0) =? 1) || false then 1 else 0)
                   = if isAdminCreate then 1 else 0)
    by (destruct isAdminCreate; reflexivity).
  rewrite Hadmin in Hrun.
  set (row := mkUser id name email hash
                     (Some (sqlite_text (or_else (JStr cpf) (JStr ""))))
                     (if isAdminCreate then 1 else 0) 1) in *.
  rewrite Hrun. cbn [fst snd]. split; [reflexivity |].
  set (w1 := mkWorld _ _ _). cbv zeta. intros p Hp0.
  assert (Hfind1 : find (fun u => (Store.email u =? email)%string) (users (db w1))
                   = Some row).
  { cbn [w1 db users]. apply find_last; [| cbn; apply String.eqb_refl].
    intros u Hu. apply String.eqb_neq. exact (Hfresh u Hu). }
  destruct (login_found w1 email p row He Hp0 Hfind1) as [_ Hok].
  rewrite Hok by (cbn; discriminate).
  cbn [row Store.password user_id Store.name Store.email is_admin].
  destruct isAdminCreate; reflexivity.
Qed.

End AccountFacts.

(** ** Schedule registry: creation, listing, removal *)

Section RegistryFacts.

Import Server Api.
Context `{Collaborators}.


(** How POST /schedules runs: it stores a row exactly when the body passes
    the checks, and otherwise answers 400 and leaves the world. *)
Lemma create_schedule_run (parsed : Parsed) (w : World) :
  match parsed with
  | Resolved body =>
      if schedule_accepted body
      then create_schedule parsed w
           = (sendJSON (Created (schedule_id (new_schedule body w)) "Agendamento criado") 201,
              with_schedule (new_schedule body w) w)
      else status (fst (create_schedule parsed w)) = 400
           /\ snd (create_schedule parsed w) = w
  | Rejected _ =>
      status (fst (create_schedule parsed w)) = 400 /\ snd (create_schedule parsed w) = w
  end.
Proof.
  destruct parsed as [msg | body]; [split; reflexivity |].
  unfold schedule_accepted, create_schedule, with_body.
  destruct (truthy body); cbn [andb negb]; [| split; reflexivity].
  destruct (truthy (get body "lawyer")); cbn [andb negb orb]; [| split; reflexivity].
  destruct (truthy (get body "client")); cbn [andb negb orb]; [| split; reflexivity].
  destruct (truthy (get body "date")); cbn [andb negb orb]; [| split; reflexivity].
  destruct (truthy (get body "time")); cbn [andb negb orb]; [| split; reflexivity].
  destruct (TimeWindow.validateHour (get body "time")); cbn [negb];
    [reflexivity | split; reflexivity].
Qed.

Lemma validateHour_string (v : JsValue) :
  TimeWindow.validateHour v = true -> exists t, v = JStr t.
Proof. destruct v; try discriminate. eauto. Qed.

Lemma to_double_exact (n : Z) : Z.abs n <= 2 ^ 53 -> Faults.to_double n = n.
Proof.
  intros Hn. unfold Faults.to_double.
  destruct (Z.ltb_spec (Z.abs n) (2 ^ 53)) as [Hlt | Hge]; [reflexivity |].
  change (2 ^ 53) with 9007199254740992 in Hn, Hge.
  assert (Hc : n = 9007199254740992 \/ n = - 9007199254740992) by lia.
  destruct Hc as [-> | ->]; vm_compute; reflexivity.
Qed.

(** The same run with the error branch of the INSERT. *)
Lemma create_schedule_faults_run (refused : bool) (parsed : Parsed) (w : World) :
  match parsed with
  | Resolved body =>
      if schedule_accepted body
      then Faults.create_schedule refused parsed w
           = if refused || Faults.exhausted w
             then (sendJSON (Error "Erro interno") 500, w)
             else (sendJSON (Created (Faults.to_double (schedule_id (new_schedule body w)))
                                     "Agendamento criado") 201,
                   with_schedule (new_schedule body w) w)
      else Faults.create_schedule refused parsed w = create_schedule parsed w
  | Rejected _ => Faults.create_schedule refused parsed w = create_schedule parsed w
  end.
Proof.
  destruct parsed as [msg | body]; [reflexivity |].
  unfold schedule_accepted, Faults.create_schedule, create_schedule, with_body.
  destruct (truthy body); cbn [andb negb]; [| reflexivity].
  destruct (truthy (get body "lawyer")); cbn [andb negb orb]; [| reflexivity].
  destruct (truthy (get body "client")); cbn [andb negb orb]; [| reflexivity].
  destruct (truthy (get body "date")); cbn [andb negb orb]; [| reflexivity].
  destruct (truthy (get body "time")); cbn [andb negb orb]; [| reflexivity].
  destruct (TimeWindow.validateHour (get body "time")); cbn [negb]; [| reflexivity].
  unfold bind, Faults.insert_schedule, Faults.exhausted, read_db, bind, ret.
  destruct (refused || _); reflexivity.
Qed.

(** X13. POST /schedules answers 400, 500 or 201.  It answers 400 exactly
    when the request fails the checks of the handler, and 500 with "Erro
    interno" exactly when the request passes them and the store refuses
    the INSERT (for a reason of its own, or because the rowids are
    exhausted); in both cases nothing changes.  On 201 exactly one row is
    added, at the end, under a rowid larger than every rowid of the table
    and than the sequence; its time is the string sent, which lies in the
    window 06:00 to 18:00, and its online column is 0 or 1; the users are
    untouched; the id answered is the rowid as a double, which is the
    rowid itself up to 2^53.  Where the store does not refuse and the
    rowid is a double, the run is the one of the handler without the
    error branch. *)
Theorem create_schedule_outcomes (refused : bool) (parsed : Parsed) (w : World) :
  let r := fst (Faults.create_schedule refused parsed w) in
  let w' := snd (Faults.create_schedule refused parsed w) in
  (status r = 201 \/ status r = 400 \/ status r = 500)
  /\ (status r = 400 <-> Faults.passes_checks parsed = false)
  /\ (status r = 500 <->
      Faults.passes_checks parsed = true
      /\ (refused = true \/ Faults.exhausted w = true))
  /\ (status r = 500 -> r = sendJSON (Error "Erro interno") 500)
  /\ (status r <> 201 -> w' = w)
  /\ (status r = 201 ->
      exists body row,
        parsed = Resolved body
        /\ r = sendJSON (Created (Faults.to_double (schedule_id row))
                                 "Agendamento criado") 201
        /\ (schedule_id row <= 2 ^ 53 ->
            0 <= schedules_seq (db w) ->
            Faults.to_double (schedule_id row) = schedule_id row)
        /\ schedules (db w') = schedules (db w) ++ [row]
        /\ users (db w') = users (db w)
        /\ (forall s, In s (schedules (db w)) -> schedule_id s < schedule_id row)
        /\ schedules_seq (db w) < schedule_id row <= Faults.max_rowid
        /\ schedules_seq (db w') = schedule_id row
        /\ get body "time" = JStr (time row)
        /\ TimeWindow.validateHour (JStr (time row)) = true
        /\ (online row = 0 \/ online row = 1))
  /\ (refused = false -> Faults.exhausted w = false ->
      (forall body, parsed = Resolved body ->
                    Faults.to_double (schedule_id (new_schedule body w))
                    = schedule_id (new_schedule body w)) ->
      Faults.create_schedule refused parsed w = create_schedule parsed w).
Proof.
  intros r w'. subst r w'.
  pose proof (create_schedule_faults_run refused parsed w) as Hrun.
  pose proof (create_schedule_run parsed w) as Hplain.
  destruct parsed as [msg | body]; cbn [Faults.passes_checks].
  - rewrite Hrun. destruct Hplain as [H400 Hsame]. rewrite H400, Hsame.
    repeat split; try discriminate; try reflexivity; auto;
      try (intros [Hacc _]; discriminate Hacc); try (intros Hne; contradiction).
  - destruct (schedule_accepted body) eqn:Hacc.
    + rewrite Hrun.
      destruct (refused || Faults.exhausted w) eqn:Hfail; cbn [fst snd sendJSON status].
      * apply orb_true_iff in Hfail.
        repeat split; try discriminate; try reflexivity; auto;
          try (intros Hne; contradiction).
        intros Hr Hf _. destruct Hfail as [E | E];
          [rewrite Hr in E | rewrite Hf in E]; discriminate E.
      * apply orb_false_iff in Hfail as [Hrefused Hfull].
        split; [left; reflexivity |].
        split; [split; discriminate |].
        split; [split; [discriminate |] |].
        { intros [_ [Hr | Hf]]; [rewrite Hrefused in Hr | rewrite Hfull in Hf];
            discriminate. }
        split; [discriminate |].
        split; [intros Hne; contradiction |].
        split.
        { intros _. exists body, (new_schedule body w).
          unfold schedule_accepted in Hacc.
          apply andb_true_iff in Hacc as [_ Hvalid].
          destruct (validateHour_string _ Hvalid) as (t & Ht).
          destruct (next_rowid_bounds (map schedule_id (schedules (db w)))
                      (schedules_seq (db w))) as [Hseq Hfresh].
          unfold Faults.exhausted in Hfull. apply Z.ltb_ge in Hfull.
          split; [reflexivity |]. split; [reflexivity |].
          split.
          { intros Hsmall Hzero. apply to_double_exact.
            cbn [new_schedule schedule_id] in *. lia. }
          split; [reflexivity |]. split; [reflexivity |].
          split; [intros s Hs; apply Hfresh; apply in_map; exact Hs |].
          split; [split; [exact Hseq | exact Hfull] |].
          split; [reflexivity |].
          split; [cbn [new_schedule time]; rewrite Ht; reflexivity |].
          split; [cbn [new_schedule time]; rewrite Ht in Hvalid |- *; exact Hvalid |].
          cbn [new_schedule online]. destruct (truthy (get body "online")); auto. }
        intros _ _ Hexact. rewrite Hplain, (Hexact body eq_refl). reflexivity.
    + rewrite Hrun. destruct Hplain as [H400 Hsame]. rewrite H400, Hsame.
      repeat split; try discriminate; try reflexivity; auto;
        try (intros [Hacc' _]; discriminate Hacc'); try (intros Hne; contradiction).
Qed.

Lemma delete_schedule_run (w : World) (id : string) :
  id <> "" ->
  let sel := fun s => matches (sqlite_rowid (JStr id)) (schedule_id s) in
  delete_schedule id w
  = (if existsb sel (schedules (db w))
     then sendJSON (Success "Agendamento removido") 200
     else sendJSON (Error "Agendamento não encontrado") 404,
     mkWorld (mkDb (users (db w)) (users_seq (db w))
                   (filter (fun s => negb (sel s)) (schedules (db w)))
                   (schedules_seq (db w)))
             (entropy w) (calls w)).
Proof.
  intros Hid sel. apply String.eqb_neq in Hid.
  unfold delete_schedule. rewrite Hid.
  unfold bind, read_db, write_db, ret. fold sel. rewrite changes_zero.
  destruct (existsb sel (schedules (db w))); reflexivity.
Qed.

(** X14. Removing a schedule by the id of the path answers 404 exactly
    when no row has that id and then changes nothing; otherwise it
    succeeds, removes the rows of that id, keeps the others in order and
    leaves the users and the sequence; afterwards the same removal and the
    lookup of that id are answered 404. *)
Theorem delete_schedule_removes (w : World) (id : string) :
  id <> "" ->
  let key := sqlite_rowid (JStr id) in
  let r := fst (delete_schedule id w) in
  let w' := snd (delete_schedule id w) in
  (status r = 404 <-> forall s, In s (schedules (db w)) -> key <> Some (schedule_id s))
  /\ (status r <> 404 -> r = sendJSON (Success "Agendamento removido") 200)
  /\ (status r = 404 -> w' = w)
  /\ schedules (db w')
     = filter (fun s => negb (matches key (schedule_id s))) (schedules (db w))
  /\ users (db w') = users (db w)
  /\ schedules_seq (db w') = schedules_seq (db w)
  /\ status (fst (delete_schedule id w')) = 404
  /\ (all_digits id = true -> status (fst (get_schedule id w')) = 404).
Proof.
  intros Hid key r w'. subst r w'.
  rewrite (delete_schedule_run w id Hid). fold key. cbn [fst snd].
  set (sel := fun s => matches key (schedule_id s)).
  split; [| split; [| split; [| split; [| split; [| split; [| split]]]]]].
  - destruct (existsb sel (schedules (db w))) eqn:E; cbn [sendJSON status].
    + split; [discriminate |]. intros Hno. exfalso.
      apply existsb_exists in E as (s & Hs & Hsel).
      apply matches_key in Hsel. exact (Hno s Hs Hsel).
    + split; [| reflexivity]. intros _ s Hs.
      apply matches_not_key. exact (proj1 (existsb_false _ _) E s Hs).
  - destruct (existsb sel (schedules (db w))); cbn [sendJSON status]; [reflexivity |].
    intros Hne. contradiction.
  - destruct (existsb sel (schedules (db w))) eqn:E; cbn [sendJSON status];
      [discriminate |]. intros _.
    rewrite filter_keeps_all.
    + destruct w as [[us useq ss sseq] e c]. reflexivity.
    + intros s Hs. pose proof (proj1 (existsb_false _ _) E s Hs) as Hsel.
      unfold sel in Hsel. rewrite Hsel. reflexivity.
  - reflexivity.
  - reflexivity.
  - reflexivity.
  - rewrite (delete_schedule_run _ id Hid). fold key. cbn [fst db schedules].
    fold sel. rewrite existsb_filter_out. reflexivity.
  - intros Hdig. unfold get_schedule, bind, read_db, ret.
    apply String.eqb_neq in Hid. rewrite Hid, Hdig. fold key. cbn [db schedules].
    rewrite find_absent; [reflexivity |].
    intros s Hs. apply filter_In in Hs as [_ Hs].
    destruct (matches key (schedule_id s)); [discriminate Hs | reflexivity].
Qed.

(** X15. After a schedule is created the full listing is the old one
    followed by the new row, and the listing of its date (a date is not a
    string of digits) is the old listing of that date followed by the new
    row: a created schedule shows up last on its day. *)
Theorem created_schedule_is_listed (w : World) (body : JsValue) (d : string) :
  schedule_accepted body = true ->
  get body "date" = JStr d ->
  all_digits d = false ->
  let row := new_schedule body w in
  let w' := snd (create_schedule (Resolved body) w) in
  fst (list_schedules w') = mkAnswer 200 (Schedules (schedules (db w) ++ [row]))
  /\ date row = d
  /\ fst (get_schedule d w')
     = sendJSON (ByDate d (filter (fun s => (date s =? d)%string) (schedules (db w))
                           ++ [row])) 200.
Proof.
  intros Hacc Hd Hnd row w'. subst w'.
  pose proof (create_schedule_run (Resolved body) w) as Hrun.
  cbv iota in Hrun. rewrite Hacc in Hrun. rewrite Hrun. cbn [snd]. fold row.
  assert (Hdate : date row = d).
  { unfold row, new_schedule. cbn [date]. rewrite Hd. reflexivity. }
  assert (Hd0 : (d =? "")%string = false).
  { unfold schedule_accepted in Hacc. rewrite Hd in Hacc.
    destruct d; [| reflexivity]. cbn in Hacc. rewrite !andb_false_r in Hacc.
    discriminate Hacc. }
  split; [reflexivity |]. split; [exact Hdate |].
  unfold get_schedule, bind, read_db, ret. rewrite Hd0, Hnd.
  cbn [with_schedule db schedules]. rewrite filter_app. cbn [filter].
  rewrite Hdate, String.eqb_refl. reflexivity.
Qed.

(** X16. Rowids of schedules are never handed out twice.  On a store
    whose sequence has not gone below zero, whatever is removed between two
    creations that are answered 201, the row of the second has a larger
    rowid than the row of the first, and as long as that rowid is at most
    2^53 the ids answered are the rowids, the second larger than the
    first.  Beyond 2^53 the ids answered are doubles and can coincide: on
    an empty table whose sequence stands at 2^53 + 2 two creations store
    rows 2^53 + 3 and 2^53 + 4 and both answer 2^53 + 4. *)
Theorem schedule_ids_grow :
  (forall (w : World) (f1 f2 : bool) (b1 b2 : JsValue) (p : string) (id1 id2 : Z)
          (m1 m2 : string),
      0 <= schedules_seq (db w) ->
      fst (Faults.create_schedule f1 (Resolved b1) w) = sendJSON (Created id1 m1) 201 ->
      let w1 := snd (Faults.create_schedule f1 (Resolved b1) w) in
      let w2 := snd (delete_schedule p w1) in
      fst (Faults.create_schedule f2 (Resolved b2) w2) = sendJSON (Created id2 m2) 201 ->
      let w3 := snd (Faults.create_schedule f2 (Resolved b2) w2) in
      exists row1 row2,
        schedules (db w1) = schedules (db w) ++ [row1]
        /\ schedules (db w3) = schedules (db w2) ++ [row2]
        /\ id1 = Faults.to_double (schedule_id row1)
        /\ id2 = Faults.to_double (schedule_id row2)
        /\ 0 < schedule_id row1 < schedule_id row2
        /\ (schedule_id row2 <= 2 ^ 53 ->
            id1 = schedule_id row1 /\ id2 = schedule_id row2 /\ id1 < id2))
  /\ (let w := mkWorld (mkDb [] 0 [] 9007199254740994) 0 [] in
      let b := object [("lawyer", "Rui"); ("client", "Carla");
                       ("date", "2024-02-02"); ("time", "10:00")] in
      let w1 := snd (Faults.create_schedule false (Resolved b) w) in
      let w2 := snd (Faults.create_schedule false (Resolved b) w1) in
      fst (Faults.create_schedule false (Resolved b) w)
      = sendJSON (Created 9007199254740996 "Agendamento criado") 201
      /\ fst (Faults.create_schedule false (Resolved b) w1)
         = sendJSON (Created 9007199254740996 "Agendamento criado") 201
      /\ map schedule_id (schedules (db w2)) = [9007199254740995; 9007199254740996]).
Proof.
  split.
  - intros w f1 f2 b1 b2 p id1 id2 m1 m2 Hzero H1 w1 w2 H2 w3. subst w3 w2 w1.
    pose proof (create_schedule_faults_run f1 (Resolved b1) w) as R1. cbv iota in R1.
    pose proof (create_schedule_run (Resolved b1) w) as P1. cbv iota in P1.
    destruct (schedule_accepted b1).
    2: { rewrite R1 in H1. destruct P1 as [E _]. rewrite H1 in E. discriminate E. }
    rewrite R1 in H1, H2 |- *.
    destruct (f1 || Faults.exhausted w); [discriminate H1 |].
    cbn [fst snd] in H1, H2 |- *.
    injection H1 as Hid1 _.
    set (row1 := new_schedule b1 w) in *.
    set (w1 := with_schedule row1 w) in *.
    set (w2 := snd (delete_schedule p w1)) in *.
    assert (Hseq : schedules_seq (db w2) = schedule_id row1).
    { unfold w2, delete_schedule, bind, read_db, write_db, ret.
      destruct (p =? "")%string; [reflexivity |].
      destruct (_ =? 0); reflexivity. }
    pose proof (create_schedule_faults_run f2 (Resolved b2) w2) as R2. cbv iota in R2.
    pose proof (create_schedule_run (Resolved b2) w2) as P2. cbv iota in P2.
    destruct (schedule_accepted b2).
    2: { rewrite R2 in H2. destruct P2 as [E _]. rewrite H2 in E. discriminate E. }
    rewrite R2 in H2 |- *.
    destruct (f2 || Faults.exhausted w2); [discriminate H2 |].
    cbn [fst snd] in H2 |- *.
    injection H2 as Hid2 _.
    set (row2 := new_schedule b2 w2) in *.
    exists row1, row2.
    assert (H1lo : schedules_seq (db w) < schedule_id row1).
    { apply (proj1 (next_rowid_bounds _ _)). }
    assert (H12 : schedule_id row1 < schedule_id row2).
    { unfold row2, new_schedule. cbn [schedule_id]. rewrite Hseq.
      apply (proj1 (next_rowid_bounds _ _)). }
    assert (E1 : id1 = Faults.to_double (schedule_id row1)) by (symmetry; exact Hid1).
    assert (E2 : id2 = Faults.to_double (schedule_id row2)) by (symmetry; exact Hid2).
    split; [reflexivity |]. split; [reflexivity |].
    split; [exact E1 |]. split; [exact E2 |].
    split; [lia |].
    intros Hsmall. rewrite E1, E2.
    rewrite (to_double_exact (schedule_id row1)), (to_double_exact (schedule_id row2))
      by lia.
    split; [reflexivity |]. split; [reflexivity | exact H12].
  - vm_compute. repeat split.
Qed.

End RegistryFacts.

(** ** Start-up: the default administrator *)

Section BootstrapFacts.

Import Server Api.
Context `{Collaborators}.

Lemma find_by_id (rows : list User) (row : User) :
  NoDup (map user_id rows) -> In row rows ->
  find (fun u => user_id u =? user_id row) rows = Some row.
Proof.
  intros Hnd Hin. induction rows as [| a rows IH]; [destruct Hin |].
  cbn [find]. destruct (Z.eqb_spec (user_id a) (user_id row)) as [E | E].
  - f_equal. apply (NoDup_map_eq user_id (a :: rows)); auto. left. reflexivity.
  - destruct Hin as [-> | Hin]; [contradiction |].
    apply IH; [| exact Hin]. cbn in Hnd. inversion Hnd. assumption.
Qed.

Lemma bootstrap_fresh (w : World) (h : string) :
  find (fun u => (email u =? "admin@admin.com")%string) (users (db w)) = None ->
  bcrypt_hash (entropy w) (JStr "admin") = Some h ->
  let id := next_rowid (map user_id (users (db w))) (users_seq (db w)) in
  bootstrap w
  = (tt, mkWorld (mkDb (users (db w) ++ [mkUser id "Admin" "admin@admin.com" h None 1 1])
                       id (schedules (db w)) (schedules_seq (db w)))
                 (S (entropy w)) (calls w ++ [CallBcryptHash (JStr "admin")])).
Proof.
  intros Hfind Hhash id.
  unfold bootstrap, bind at 1, read_db at 1. rewrite Hfind.
  unfold hashPassword, record, draw_salt, bind, ret. cbn [db entropy calls].
  rewrite Hhash.
  unfold insert_admin, read_db, write_db, bind, ret. cbn [db entropy calls].
  rewrite existsb_find, Hfind. reflexivity.
Qed.

Lemma bootstrap_existing (w : World) (row : User) :
  find (fun u => (email u =? "admin@admin.com")%string) (users (db w)) = Some row ->
  find (fun u => user_id u =? user_id row) (users (db w)) = Some row ->
  bootstrap w
  = if negb (password row =? "")%string && negb (prefix "$2" (password row))
    then match bcrypt_hash (entropy w) (JStr (password row)) with
         | Some h =>
             (tt, mkWorld (mkDb (map (fun u => if user_id u =? user_id row
                                               then set_password h u else u)
                                     (users (db w)))
                                (users_seq (db w)) (schedules (db w))
                                (schedules_seq (db w)))
                          (S (entropy w))
                          (calls w ++ [CallBcryptHash (JStr (password row))]))
         | None => (tt, mkWorld (db w) (S (entropy w))
                                (calls w ++ [CallBcryptHash (JStr (password row))]))
         end
    else (tt, w).
Proof.
  intros Hemail Hid.
  unfold bootstrap, bind at 1, read_db at 1. rewrite Hemail, Hid.
  destruct (negb (password row =? "")%string && negb (prefix "$2" (password row)));
    [| reflexivity].
  unfold hashPassword, record, draw_salt, bind, ret. cbn [db entropy calls].
  destruct (bcrypt_hash (entropy w) (JStr (password row))); reflexivity.
Qed.

(** X17. On a store without the default administrator, start-up (the
    digest of "admin" computed) adds one row at the end: Admin, email
    admin@admin.com, the digest as password, no cpf, is_admin 1 and
    approved 1, under a fresh rowid; nothing else changes and a well-formed
    store stays so.  A login as admin@admin.com with "admin" is then
    answered 200 with is_admin 1 when bcrypt accepts "admin" for that
    digest, and 401 when it does not. *)
Theorem bootstrap_creates_admin (w : World) (h : string) :
  (forall u, In u (users (db w)) -> email u <> "admin@admin.com") ->
  bcrypt_hash (entropy w) (JStr "admin") = Some h ->
  let w' := snd (bootstrap w) in
  exists id,
    users (db w') = users (db w) ++ [mkUser id "Admin" "admin@admin.com" h None 1 1]
    /\ (forall u, In u (users (db w)) -> user_id u < id)
    /\ schedules (db w') = schedules (db w)
    /\ (store_ok (db w) -> store_ok (db w'))
    /\ fst (login (Resolved (object [("email", "admin@admin.com");
                                     ("password", "admin")])) w')
       = if ("admin" =? h)%string
            || match bcrypt_compare (JStr "admin") h with
               | Some b => b
               | None => false
               end
         then sendJSON (LoginOk (mkPublicUser id "Admin" "admin@admin.com" 1)) 200
         else sendJSON (Error "Senha incorreta") 401.
Proof.
  intros Hfresh Hhash w'. subst w'.
  assert (Hfind : find (fun u => (email u =? "admin@admin.com")%string) (users (db w))
                  = None).
  { apply find_absent. intros u Hu. apply String.eqb_neq. exact (Hfresh u Hu). }
  rewrite (bootstrap_fresh w h Hfind Hhash). cbn [snd db users schedules].
  set (id := next_rowid (map user_id (users (db w))) (users_seq (db w))).
  set (row := mkUser id "Admin" "admin@admin.com" h None 1 1).
  exists id. split; [reflexivity |]. split.
  { intros u Hu. apply next_rowid_fresh. apply in_map. exact Hu. }
  split; [reflexivity |]. split.
  { intros Hok.
    apply (ok_insert_user (db w) row Hok eq_refl).
    - rewrite existsb_find. cbn [email row]. rewrite Hfind. reflexivity.
    - right. reflexivity.
    - right. reflexivity. }
  set (w1 := mkWorld _ _ _).
  assert (Hfind1 : find (fun u => (email u =? "admin@admin.com")%string) (users (db w1))
                   = Some row).
  { cbn [w1 db users]. apply find_last; [| reflexivity].
    intros u Hu. exact (find_none _ _ Hfind u Hu). }
  assert (Ha : "admin@admin.com" <> "") by discriminate.
  assert (Hp : "admin" <> "") by discriminate.
  destruct (login_found w1 "admin@admin.com" "admin" row Ha Hp Hfind1) as [_ Hok].
  rewrite Hok by (cbn; discriminate). reflexivity.
Qed.

Lemma not_plain (p : string) :
  negb (p =? "")%string && negb (prefix "$2" p) = false ->
  p = "" \/ prefix "$2" p = true.
Proof.
  destruct (String.eqb_spec p ""); [left; assumption |].
  destruct (prefix "$2" p); [right; reflexivity | discriminate].
Qed.

(** X18. Start-up settles the default administrator.  On a well-formed
    store, with a bcrypt that answers every string with a digest of prefix
    $2, after start-up there is a row for admin@admin.com whose password is
    empty or a digest; a row that existed keeps all its other columns; the
    rows of other emails are untouched; the store is still well formed; and
    a second start-up changes nothing. *)
Theorem bootstrap_settles (w : World) :
  store_ok (db w) ->
  (forall n s, exists h, bcrypt_hash n (JStr s) = Some h /\ prefix "$2" h = true) ->
  let admin := fun u => (email u =? "admin@admin.com")%string in
  let w1 := snd (bootstrap w) in
  store_ok (db w1)
  /\ (exists a, find admin (users (db w1)) = Some a
                /\ (password a = "" \/ prefix "$2" (password a) = true))
  /\ (forall row, find admin (users (db w)) = Some row ->
                  exists p, find admin (users (db w1)) = Some (set_password p row))
  /\ (forall u, In u (users (db w)) -> admin u = false -> In u (users (db w1)))
  /\ bootstrap w1 = (tt, w1).
Proof.
  intros Hok Hbcrypt admin w1. subst w1.
  destruct (find admin (users (db w))) as [row |] eqn:Hfind.
  - pose proof (find_some _ _ Hfind) as [Hin Hadmin].
    pose proof Hok as [_ Hids _ _ _ _ _].
    pose proof (find_by_id _ _ Hids Hin) as Hbyid.
    rewrite (bootstrap_existing w row Hfind Hbyid).
    destruct (negb (password row =? "")%string && negb (prefix "$2" (password row)))
      eqn:Hplain.
    + destruct (Hbcrypt (entropy w) (password row)) as (h & Hhash & Hpre).
      rewrite Hhash. cbn [snd].
      set (g := fun u => if user_id u =? user_id row then set_password h u else u).
      set (w1 := mkWorld _ _ _).
      assert (Hg_row : g row = set_password h row).
      { unfold g. rewrite Z.eqb_refl. reflexivity. }
      assert (Hfind1 : find admin (users (db w1)) = Some (set_password h row)).
      { cbn [w1 db users]. fold g. rewrite find_map_inv, Hfind, <- Hg_row.
        - reflexivity.
        - intros u. unfold g, admin.
          destruct (user_id u =? user_id row); reflexivity. }
      assert (Hbyid1 : find (fun u => user_id u =? user_id (set_password h row))
                            (users (db w1)) = Some (set_password h row)).
      { cbn [w1 db users set_password user_id]. fold g.
        rewrite find_map_inv, Hbyid, <- Hg_row.
        - reflexivity.
        - intros u. unfold g.
          destruct (user_id u =? user_id row) eqn:E; exact E. }
      split; [| split; [| split; [| split]]].
      * cbn [w1 db]. apply ok_update_users; try reflexivity; [| exact Hok].
        intros u Hu. exact Hu.
      * exists (set_password h row). split; [exact Hfind1 | right; exact Hpre].
      * intros row0 [= <-]. exists h. exact Hfind1.
      * intros u Hu Hnot. cbn [w1 db users]. apply in_map_iff. exists u.
        split; [| exact Hu]. unfold g.
        destruct (Z.eqb_spec (user_id u) (user_id row)) as [E | E]; [| reflexivity].
        assert (u = row) by (apply (NoDup_map_eq user_id (users (db w))); assumption).
        subst u. congruence.
      * rewrite (bootstrap_existing w1 _ Hfind1 Hbyid1).
        cbn [set_password password]. rewrite Hpre, andb_false_r. reflexivity.
    + cbn [snd]. split; [exact Hok |]. split; [| split; [| split]].
      * exists row. split; [exact Hfind | apply not_plain; exact Hplain].
      * intros row0 [= <-]. exists (password row). rewrite Hfind.
        destruct row; reflexivity.
      * intros u Hu _. exact Hu.
      * rewrite (bootstrap_existing w row Hfind Hbyid), Hplain. reflexivity.
  - destruct (Hbcrypt (entropy w) "admin") as (h & Hhash & Hpre).
    rewrite (bootstrap_fresh w h Hfind Hhash). cbn [snd].
    set (id := next_rowid (map user_id (users (db w))) (users_seq (db w))).
    set (row := mkUser id "Admin" "admin@admin.com" h None 1 1).
    set (w1 := mkWorld _ _ _).
    assert (Hfind1 : find admin (users (db w1)) = Some row).
    { cbn [w1 db users]. apply find_last; [| reflexivity].
      intros u Hu. exact (find_none _ _ Hfind u Hu). }
    assert (Hbyid1 : find (fun u => user_id u =? user_id row) (users (db w1)) = Some row).
    { cbn [w1 db users]. apply find_last; [| apply Z.eqb_refl].
      intros u Hu. apply Z.eqb_neq.
      pose proof (next_rowid_fresh (map user_id (users (db w))) (users_seq (db w))
                    (user_id u) (in_map _ _ _ Hu)) as Hlt.
      cbn [row user_id]. fold id in Hlt. lia. }
    split; [| split; [| split; [| split]]].
    + cbn [w1 db]. apply (ok_insert_user (db w) row Hok eq_refl).
      * rewrite existsb_find. cbn [email row]. fold admin. rewrite Hfind. reflexivity.
      * right. reflexivity.
      * right. reflexivity.
    + exists row. split; [exact Hfind1 | right; exact Hpre].
    + intros row0 Hrow0. discriminate Hrow0.
    + intros u Hu _. cbn [w1 db users]. apply in_or_app. left. exact Hu.
    + rewrite (bootstrap_existing w1 row Hfind1 Hbyid1).
      cbn [row password]. rewrite Hpre, andb_false_r. reflexivity.
Qed.

End BootstrapFacts.

(** ** The scheduling form and the server *)

Section FormFacts.

Import Server Api TimeWindow.
Context `{Collaborators}.

Lemma validateHour_HMM (h m1 m2 : Z) :
  0 <= h <= 9 -> 0 <= m1 <= 5 -> 0 <= m2 <= 9 ->
  validateHour_form (JStr (HMM h m1 m2)) = (6 <=? h)
  /\ validateHour (JStr (HMM h m1 m2)) = false.
Proof.
  intros H1 H3 H4.
  destruct (digit_between 9 h H1 ltac:(lia)) as [B1 V1].
  destruct (digit_between 5 m1 H3 ltac:(lia)) as [B3 V3].
  destruct (digit_between 9 m2 H4 ltac:(lia)) as [B4 V4].
  assert (D3 : is_digit (digit m1) = true)
    by (apply (proj1 (digit_between 9 m1 ltac:(lia) ltac:(lia)))).
  change (digit 5) with "5"%char in B3.
  change (char_between "0" (digit 9)) with is_digit in B1, B4.
  split; [| reflexivity].
  unfold validateHour_form, HMM, match_HMM.
  rewrite B1, B3, B4. cbn [andb Ascii.eqb Bool.eqb].
  unfold in_window, parseInt. cbn [fst snd parse_digits].
  rewrite B1, D3, B4, V1, V3, V4.
  destruct (Z.leb_spec 6 h) as [L | L].
  - apply andb_true_iff. rewrite !Z.leb_le. lia.
  - apply andb_false_iff. left. apply Z.leb_gt. lia.
Qed.

Lemma match_HMM_cases (t : string) :
  (exists h m1 m2, 0 <= h <= 9 /\ 0 <= m1 <= 5 /\ 0 <= m2 <= 9 /\ t = HMM h m1 m2)
  \/ match_HMM t = match_HHMM t.
Proof.
  destruct t as [| a1 [| a2 [| a3 [| a4 [| a5 t]]]]]; try (right; reflexivity).
  unfold match_HMM.
  destruct (is_digit a1) eqn:E1; [| right; reflexivity].
  destruct (a2 =? ":")%char eqn:E2; [| right; reflexivity].
  destruct (char_between "0" "5" a3) eqn:E3; [| right; reflexivity].
  destruct (is_digit a4) eqn:E4; [| right; reflexivity].
  left.
  apply (between_digit 9) in E1 as (h & R1 & ->); [| lia].
  apply (between_digit 5) in E3 as (m1 & R3 & ->); [| lia].
  apply (between_digit 9) in E4 as (m2 & R4 & ->); [| lia].
  apply Ascii.eqb_eq in E2. subst a2.
  exists h, m1, m2. repeat split; lia.
Qed.

Lemma validators_cases (v : JsValue) :
  (exists h m1 m2, 0 <= h <= 9 /\ 0 <= m1 <= 5 /\ 0 <= m2 <= 9
                   /\ v = JStr (HMM h m1 m2))
  \/ validateHour_form v = validateHour v.
Proof.
  destruct v as [| | b | n | t | l | l]; try (right; reflexivity).
  destruct (match_HMM_cases t) as [(h & m1 & m2 & R1 & R2 & R3 & ->) | E].
  - left. exists h, m1, m2. auto.
  - right. unfold validateHour_form, validateHour. rewrite E. reflexivity.
Qed.

(** X19. The validator of the scheduling form accepts every time the
    server's validator accepts, and the two differ exactly on the strings
    H:MM with a single hour digit from 6 to 9 (and minutes 00 to 59), which
    the form accepts and the server refuses. *)
Theorem form_validator_vs_server (v : JsValue) :
  (validateHour v = true -> validateHour_form v = true)
  /\ (validateHour_form v = true /\ validateHour v = false
      <-> exists h m1 m2,
            6 <= h <= 9 /\ 0 <= m1 <= 5 /\ 0 <= m2 <= 9 /\ v = JStr (HMM h m1 m2)).
Proof.
  pose proof (validators_cases v) as Hcases. split.
  - destruct Hcases as [(h & m1 & m2 & R1 & R2 & R3 & ->) | E].
    + rewrite (proj2 (validateHour_HMM h m1 m2 R1 R2 R3)). discriminate.
    + rewrite E. exact (fun Hv => Hv).
  - split.
    + intros [Hform Hserver].
      destruct Hcases as [(h & m1 & m2 & R1 & R2 & R3 & ->) | E].
      * rewrite (proj1 (validateHour_HMM h m1 m2 R1 R2 R3)) in Hform.
        apply Z.leb_le in Hform. exists h, m1, m2. repeat split; lia.
      * congruence.
    + intros (h & m1 & m2 & R1 & R2 & R3 & ->).
      destruct (validateHour_HMM h m1 m2 ltac:(lia) R2 R3) as [-> ->].
      split; [apply Z.leb_le; lia | reflexivity].
Qed.

(** X20. What the server does with a submission the form lets through: it
    stores the fields as typed, with online as 1 or 0, when the time has
    two hour digits; and it refuses it with 400 "Horário inválido", never
    with "Campos obrigatórios ausentes", exactly when the time is H:MM with
    a single hour digit, leaving the store as it was. *)
Theorem form_submission (w : World) (lawyer client processNumber : string)
        (online : bool) (date time notes : string) (payload : JsValue) :
  Pages.schedule_form lawyer client processNumber online date time notes = inr payload ->
  let r := fst (create_schedule (Resolved payload) w) in
  let w' := snd (create_schedule (Resolved payload) w) in
  (validateHour (JStr time) = true ->
   exists id,
     r = sendJSON (Created id "Agendamento criado") 201
     /\ schedules (db w')
        = schedules (db w)
          ++ [mkSchedule id lawyer client processNumber (if online then 1 else 0)
                         date time notes])
  /\ (validateHour (JStr time) = false ->
      r = sendJSON (Error "Horário inválido (deve ser entre 06:00 e 18:00)") 400
      /\ w' = w
      /\ exists h m1 m2,
           6 <= h <= 9 /\ 0 <= m1 <= 5 /\ 0 <= m2 <= 9 /\ time = HMM h m1 m2).
Proof.
  unfold Pages.schedule_form.
  destruct (lawyer =? "")%string eqn:El; [discriminate |].
  destruct (client =? "")%string eqn:Ec; [discriminate |].
  destruct (date =? "")%string eqn:Ed; [discriminate |].
  destruct (time =? "")%string eqn:Et; [discriminate |].
  destruct (validateHour_form (JStr time)) eqn:Ef; [| discriminate].
  cbn [negb]. intros [= Hpayload]. subst payload.
  set (payload := JObj _).
  unfold create_schedule, with_body.
  change (get payload "lawyer") with (JStr lawyer).
  change (get payload "client") with (JStr client).
  change (get payload "process_number") with (JStr processNumber).
  change (get payload "online") with (JNum (if online then 1 else 0)).
  change (get payload "date") with (JStr date).
  change (get payload "time") with (JStr time).
  change (get payload "notes") with (JStr notes).
  change (truthy payload) with true.
  cbn [truthy negb orb]. rewrite El, Ec, Ed, Et. cbn [negb orb].
  split.
  - intros Hv. rewrite Hv. cbn [negb].
    rewrite (text_or_absent_stored (JStr processNumber) processNumber
               (or_introl eq_refl)).
    rewrite (text_or_absent_stored (JStr notes) notes (or_introl eq_refl)).
    assert (Ho : (if negb ((if online then 1 else 0) =? 0) then 1 else 0)
                 = if online then 1 else 0) by (destruct online; reflexivity).
    rewrite Ho.
    unfold bind, insert_schedule, read_db, write_db, ret.
    cbn [fst snd db schedules sqlite_text].
    eexists. split; reflexivity.
  - intros Hv. rewrite Hv. cbn [negb fst snd]. split; [reflexivity |].
    split; [reflexivity |].
    destruct (validators_cases (JStr time))
      as [(h & m1 & m2 & R1 & R2 & R3 & E) | E]; [| congruence].
    injection E as ->.
    rewrite (proj1 (validateHour_HMM h m1 m2 R1 R2 R3)) in Ef.
    apply Z.leb_le in Ef. exists h, m1, m2. repeat split; lia.
Qed.

End FormFacts.

(** ** The month on display *)

Section ViewFacts.

Import Pages.

(** X21. Moving between months keeps the month within 0..11 and clears
    the selected day; back then forward, and forward then back, return to
    the month one started from; twelve steps forward reach the same month
    of the next year, twelve steps back the same month of the year
    before. *)
Theorem month_navigation (v : View) :
  0 <= displayMonth v <= 11 ->
  0 <= displayMonth (gotoPrevMonth v) <= 11
  /\ 0 <= displayMonth (gotoNextMonth v) <= 11
  /\ gotoNextMonth (gotoPrevMonth v) = mkView (displayYear v) (displayMonth v) None
  /\ gotoPrevMonth (gotoNextMonth v) = mkView (displayYear v) (displayMonth v) None
  /\ Nat.iter 12 gotoNextMonth v = mkView (displayYear v + 1) (displayMonth v) None
  /\ Nat.iter 12 gotoPrevMonth v = mkView (displayYear v - 1) (displayMonth v) None.
Proof.
  destruct v as [y m sel]. cbn [displayMonth displayYear]. intros Hm.
  pose proof (month_cases m Hm) as Hm12.
  repeat (destruct Hm12 as [Hm12 | Hm12]); subst m;
    cbn; repeat split; try lia; f_equal; lia.
Qed.

Lemma MakeDay_next_day (y m dd : Z) : MakeDay y m (dd + 1) = MakeDay y m dd + 1.
Proof. unfold MakeDay. lia. Qed.

Lemma MakeDay_month_12 (y dd : Z) : MakeDay y 12 dd = MakeDay (y + 1) 0 dd.
Proof.
  unfold MakeDay.
  change (12 / 12) with 1. change (12 mod 12) with 0.
  change (0 / 12) with 0. change (0 mod 12) with 0.
  rewrite !Z.add_0_r. reflexivity.
Qed.

Lemma full_year_plain (y : Z) : 100 <= y -> full_year y = y.
Proof.
  intros Hy. unfold full_year.
  destruct (Z.leb_spec y 99); [lia |]. rewrite andb_false_r. reflexivity.
Qed.

(** X22. Consecutive months join: in a time zone that keeps the days of
    the month on display and of the month after it, for a year from 100 on
    that the language represents, the first day of the month reached by
    gotoNextMonth falls on the weekday after the last day of the month on
    display, that is at index (startDayIndex + daysInMonth) mod 7. *)
Theorem next_month_starts_after (z : Zone) (v : View) :
  0 <= displayMonth v <= 11 ->
  100 <= displayYear v <= 275758 ->
  keeps_month z (displayYear v) (displayMonth v) = true ->
  keeps_month z (displayYear (gotoNextMonth v)) (displayMonth (gotoNextMonth v)) = true ->
  exists start days,
    startDayIndex z (displayYear v) (displayMonth v) = Some start
    /\ daysInMonth z (displayYear v) (displayMonth v) = Some days
    /\ startDayIndex z (displayYear (gotoNextMonth v)) (displayMonth (gotoNextMonth v))
       = Some ((start + days) mod 7).
Proof.
  destruct v as [y m sel]. cbn [displayMonth displayYear]. intros Hm Hy Hk Hk'.
  assert (Hfy : full_year y = y) by (apply full_year_plain; lia).
  assert (Hfy1 : full_year (y + 1) = y + 1) by (apply full_year_plain; lia).
  exists (WeekDay (MakeDay y m 1)), (month_days y m).
  split; [rewrite startDayIndex_value, Hfy by (rewrite ?Hfy; (lia || exact Hk));
          reflexivity |].
  split; [rewrite daysInMonth_value, Hfy by (rewrite ?Hfy; (lia || exact Hk));
          reflexivity |].
  assert (Hnext : forall y' m', 0 <= m' <= 11 -> full_year y' = y' ->
                                -271820 <= y' <= 275759 ->
                                keeps_month z y' m' = true ->
                                MakeDay y' m' 1 = MakeDay y m 1 + month_days y m ->
                                startDayIndex z y' m'
                                = Some ((WeekDay (MakeDay y m 1) + month_days y m) mod 7)).
  { intros y' m' Hm' Hfy' Hy' Hky' E.
    rewrite startDayIndex_value, Hfy' by (rewrite ?Hfy'; (lia || exact Hky')).
    rewrite E. unfold WeekDay. f_equal.
    rewrite Z.add_mod_idemp_l by lia. f_equal. lia. }
  assert (Hlast : MakeDay y (m + 1) 1 = MakeDay y m 1 + month_days y m).
  { replace 1 with (0 + 1) at 2 by lia.
    rewrite MakeDay_next_day, MakeDay_day_zero by lia.
    rewrite !(MakeDay_in_year y m) by lia. lia. }
  revert Hk'. unfold gotoNextMonth. cbn [displayMonth displayYear].
  destruct (Z.eqb_spec m 11) as [-> | Hne]; cbn [displayMonth displayYear]; intros Hk'.
  - apply Hnext; try lia; try exact Hk'; try (rewrite <- MakeDay_month_12; exact Hlast).
  - apply Hnext; try lia; try exact Hk'; try exact Hlast.
Qed.

Lemma append_nonempty (a b : string) (c : ascii) : (a ++ String c b)%string <> "".
Proof. destruct a; discriminate. Qed.

(** X23. The dot of a day and the list under the calendar agree: for every
    populated cell of the grid, the cell is marked as having events exactly
    when selecting its date lists at least one schedule. *)
Theorem marked_days_have_schedules (z : Zone) (v : View) (schedules : list Schedule)
        (cell : Cell) :
  In (Some cell) (grid z v schedules) ->
  hasEvents cell = true <-> selectedSchedules (Some (dateStr cell)) schedules <> [].
Proof.
  unfold grid, calendarCells.
  destruct (startDayIndex _ _ _) as [start |]; [| intros []].
  destruct (daysInMonth _ _ _) as [days |]; [| intros []].
  cbv zeta. intros Hin. apply in_map_iff in Hin as (idx & Hcell & _).
  destruct ((idx - start + 1 <? 1) || (days <? idx - start + 1)); [discriminate Hcell |].
  injection Hcell as <-. cbn [hasEvents dateStr].
  set (str := formatDateYYYYMMDD _ _).
  assert (Hstr : (str =? "")%string = false).
  { apply String.eqb_neq. unfold str, formatDateYYYYMMDD. apply append_nonempty. }
  unfold selectedSchedules. rewrite Hstr.
  rewrite <- (negb_involutive (existsb _ schedules)).
  induction schedules as [| s rest IH]; cbn.
  - split; [discriminate | intros Hne; contradiction].
  - destruct (date s =? str)%string; cbn.
    + split; [discriminate | reflexivity].
    + cbn in IH. exact IH.
Qed.

End ViewFacts.

(** ** The grid: its size and its date strings *)

Section GridMoreFacts.

Lemma append_cancel (a b c : string) : (a ++ b)%string = (a ++ c)%string -> b = c.
Proof.
  induction a as [| x a IH]; cbn; [exact (fun E => E) |].
  intros [= E]. exact (IH E).
Qed.

Lemma pad_two_characters (d : Z) : 1 <= d <= 31 -> String.length (pad d) = 2%nat.
Proof.
  intros Hd. apply Nat.eqb_eq.
  apply (range_check (fun d => Nat.eqb (String.length (pad d)) 2) 1 31);
    [vm_compute; reflexivity | lia].
Qed.

Lemma year_four_characters (y : Z) :
  1000 <= y <= 9999 -> String.length (String_ y) = 4%nat.
Proof.
  intros Hy. apply Nat.eqb_eq.
  apply (range_check (fun y => Nat.eqb (String.length (String_ y)) 4) 1000 9000);
    [vm_compute; reflexivity | lia].
Qed.

Lemma pad_injective (d e : Z) : 1 <= d <= 31 -> 1 <= e <= 31 -> pad d = pad e -> d = e.
Proof.
  intros Hd He E.
  pose proof (range_check
                (fun a => forallb (fun b => implb (pad a =? pad b)%string (a =? b))
                                  (map (fun k => 1 + Z.of_nat k) (seq 0 (Z.to_nat 31))))
                1 31
                ltac:(vm_compute; reflexivity) d ltac:(lia)) as Hrow.
  cbv beta in Hrow.
  pose proof (range_check _ 1 31 Hrow e ltac:(lia)) as Hcell. cbv beta in Hcell.
  rewrite E, String.eqb_refl in Hcell. apply Z.eqb_eq. exact Hcell.
Qed.

Lemma indexes_nth_inv (n : Z) (i : nat) (idx : Z) :
  nth_error (indexes n) i = Some idx -> idx = Z.of_nat i.
Proof.
  unfold indexes. rewrite nth_error_map, nth_error_seq.
  destruct (Nat.ltb i (Z.to_nat n)); cbn; [| discriminate].
  intros [= <-]. reflexivity.
Qed.

(** What a populated cell of the grid holds. *)
Lemma populated_cell (z : Zone) (year month : Z) (schedules : list Schedule)
      (i : nat) (cell : Cell) :
  0 <= month <= 11 -> -271820 <= full_year year <= 275759 ->
  keeps_month z (full_year year) month = true ->
  nth_error (calendarCells z year month schedules) i = Some (Some cell) ->
  let start := WeekDay (MakeDay (full_year year) month 1) in
  dayNumber cell = Z.of_nat i - start + 1
  /\ 1 <= dayNumber cell <= month_days (full_year year) month
  /\ dateStr cell
     = (String_ (full_year year) ++ "-" ++ pad (month + 1) ++ "-"
          ++ pad (dayNumber cell))%string.
Proof.
  intros Hm Hy Hk. unfold calendarCells.
  rewrite (startDayIndex_value z year month Hm Hy Hk),
    (daysInMonth_value z year month Hm Hy Hk).
  cbv zeta. rewrite nth_error_map.
  destruct (nth_error (indexes _) i) as [idx |] eqn:Eidx; [| discriminate].
  apply indexes_nth_inv in Eidx. subst idx. cbn [option_map].
  set (start := WeekDay (MakeDay (full_year year) month 1)).
  set (days := month_days (full_year year) month).
  destruct (Z.ltb_spec (Z.of_nat i - start + 1) 1); [discriminate |].
  destruct (Z.ltb_spec days (Z.of_nat i - start + 1)); [discriminate |].
  cbn [orb]. intros [= <-]. cbn [dayNumber dateStr].
  split; [reflexivity |]. split; [lia |].
  apply formatDate_value; try assumption. fold days. lia.
Qed.

(** X24. In a time zone that keeps the days of the month, the grid of the
    month has 28, 35 or 42 cells (four to six weeks), and 28 only for a
    month of 28 days that starts on a Sunday. *)
Theorem grid_weeks (z : Zone) (year month : Z) (schedules : list Schedule) :
  0 <= month <= 11 -> -271820 <= full_year year <= 275759 ->
  keeps_month z (full_year year) month = true ->
  let cells := Z.of_nat (List.length (calendarCells z year month schedules)) in
  (cells = 28 \/ cells = 35 \/ cells = 42)
  /\ (cells = 28
      <-> startDayIndex z year month = Some 0 /\ daysInMonth z year month = Some 28).
Proof.
  intros Hm Hy Hk. unfold calendarCells.
  rewrite (startDayIndex_value z year month Hm Hy Hk),
    (daysInMonth_value z year month Hm Hy Hk).
  cbv zeta. rewrite length_map, indexes_length.
  pose proof (month_days_positive (full_year year) month) as Hdays.
  set (days := month_days (full_year year) month) in *.
  assert (Hstart : 0 <= WeekDay (MakeDay (full_year year) month 1) <= 6).
  { unfold WeekDay.
    pose proof (Z.mod_pos_bound (MakeDay (full_year year) month 1 + 4) 7). lia. }
  set (start := WeekDay (MakeDay (full_year year) month 1)) in *.
  destruct (ceil7_least (start + days)) as [Hmod [Hlo Hhi]].
  rewrite Z2Nat.id by lia.
  apply Z.mod_divide in Hmod; [| lia]. destruct Hmod as [k Hk7].
  split; [lia |]. split.
  - intros H28. split; f_equal; lia.
  - intros [[= Hs] [= Hd]]. lia.
Qed.

(** Where the zone skipped the last day of a month the count of days is
    read off the first day of the next month: the grid of December 1994 in
    Kiritimati has one day and seven cells. *)
Example grid_of_a_skipped_last_day :
  keeps_month kiritimati_1994 1994 11 = false
  /\ startDayIndex kiritimati_1994 1994 11 = Some 4
  /\ daysInMonth kiritimati_1994 1994 11 = Some 1
  /\ calendarCells kiritimati_1994 1994 11 []
     = [None; None; None; None; Some (mkCell 1 "1994-12-01" false); None; None].
Proof. vm_compute. repeat split. Qed.

(** Where the zone skipped a day in the middle of the month two cells carry
    the same date string: days 30 and 31 of December 2011 in Apia. *)
Example grid_of_a_skipped_day :
  keeps_month apia_2011 2011 11 = false
  /\ nth_error (calendarCells apia_2011 2011 11 []) 33
     = Some (Some (mkCell 30 "2011-12-31" false))
  /\ nth_error (calendarCells apia_2011 2011 11 []) 34
     = Some (Some (mkCell 31 "2011-12-31" false)).
Proof. vm_compute. repeat split. Qed.

(** X25. In a time zone that keeps the days of the month, the populated
    cells of a grid carry pairwise distinct date strings (they are the
    keys of the rendered buttons), and for a year of four digits each of
    them has the ten characters of YYYY-MM-DD, with the hyphens in fifth
    and eighth place. *)
Theorem date_strings (z : Zone) (year month : Z) (schedules : list Schedule) :
  0 <= month <= 11 -> -271820 <= full_year year <= 275759 ->
  keeps_month z (full_year year) month = true ->
  let grid := calendarCells z year month schedules in
  (forall i j ci cj,
      nth_error grid i = Some (Some ci) -> nth_error grid j = Some (Some cj) ->
      dateStr ci = dateStr cj -> i = j)
  /\ (1000 <= full_year year <= 9999 ->
      forall i cell,
        nth_error grid i = Some (Some cell) ->
        String.length (dateStr cell) = 10%nat
        /\ String.get 4 (dateStr cell) = Some "-"%char
        /\ String.get 7 (dateStr cell) = Some "-"%char).
Proof.
  intros Hm Hy Hk grid. subst grid. split.
  - intros i j ci cj Hi Hj E.
    destruct (populated_cell z year month schedules i ci Hm Hy Hk Hi) as (Ni & Ri & Si).
    destruct (populated_cell z year month schedules j cj Hm Hy Hk Hj) as (Nj & Rj & Sj).
    pose proof (month_days_positive (full_year year) month) as Hdays.
    rewrite Si, Sj in E.
    do 4 apply append_cancel in E.
    apply pad_injective in E; lia.
  - intros Hy4 i cell Hi.
    destruct (populated_cell z year month schedules i cell Hm Hy Hk Hi) as (_ & Ri & ->).
    pose proof (month_days_positive (full_year year) month) as Hdays.
    pose proof (year_four_characters (full_year year) Hy4) as Ly.
    pose proof (pad_two_characters (month + 1) ltac:(lia)) as Lm.
    pose proof (pad_two_characters (dayNumber cell) ltac:(lia)) as Ld.
    destruct (String_ (full_year year)) as [| y1 [| y2 [| y3 [| y4 [| y5 ys]]]]];
      try discriminate Ly.
    destruct (pad (month + 1)) as [| m1 [| m2 [| m3 ms]]]; try discriminate Lm.
    destruct (pad (dayNumber cell)) as [| d1 [| d2 [| d3 ds]]]; try discriminate Ld.
    repeat split.
Qed.

End GridMoreFacts.

(** ** The online switch, from the page to the store *)

Section SwitchFacts.

Import Server Api Pages.
Context `{Collaborators} `{Host}.

Lemma digits_no_slash (d : Decimal.uint) :
  ~ In "/"%char (list_ascii_of_string (NilEmpty.string_of_uint d)).
Proof.
  induction d; cbn; [intros [] | ..]; intros [E | Hin];
    solve [discriminate E | exact (IHd Hin)].
Qed.

(** [String(n)] is a path segment. *)
Lemma String_segment (n : Z) :
  String_ n <> "" /\ ~ In "/"%char (list_ascii_of_string (String_ n)).
Proof.
  assert (Hu : forall d, NilZero.string_of_uint d <> ""
                         /\ ~ In "/"%char (list_ascii_of_string (NilZero.string_of_uint d))).
  { intros d. split.
    - destruct d; discriminate.
    - destruct d; try apply (digits_no_slash (_ d));
        cbn; intros [E | []]; discriminate E. }
  unfold String_. destruct (Z.to_int n) as [d | d]; cbn [NilZero.string_of_int].
  - apply Hu.
  - split; [discriminate |]. cbn. intros [E | Hin]; [discriminate E |].
    exact (proj2 (Hu d) Hin).
Qed.

Lemma strip_segment (seg : string) :
  ~ In "/"%char (list_ascii_of_string seg) -> strip_trailing_slashes seg = seg.
Proof.
  induction seg as [| c seg IH]; [reflexivity |].
  cbn. intros Hno. rewrite IH by tauto.
  destruct (Ascii.eqb_spec c "/") as [-> | Hc]; [exfalso; apply Hno; left; reflexivity |].
  reflexivity.
Qed.

Lemma split_segment (seg : string) :
  ~ In "/"%char (list_ascii_of_string seg) -> split_slash seg = [seg].
Proof.
  induction seg as [| c seg IH]; [reflexivity |].
  cbn. intros Hno. rewrite IH by tauto.
  destruct (Ascii.eqb_spec c "/") as [-> | Hc]; [exfalso; apply Hno; left; reflexivity |].
  reflexivity.
Qed.

(** PUT /schedules/<segment> reaches the update handler with that
    segment. *)
Lemma route_put_schedule (seg : string) (o : option string) (b : Parsed) (w : World) :
  seg <> "" -> ~ In "/"%char (list_ascii_of_string seg) ->
  route (mkRequest "PUT" ("/schedules/" ++ seg) o b) w
  = (let (r, w') := update_schedule seg b w in (answer r, w')).
Proof.
  intros Hne Hno.
  assert (Hnorm : normalize ("/schedules/" ++ seg) = ("/schedules/" ++ seg)%string).
  { unfold normalize. rewrite strip_app, (strip_segment seg Hno).
    apply String.eqb_neq in Hne. rewrite Hne. reflexivity. }
  assert (Hsecond : second ("/schedules/" ++ seg) = seg).
  { unfold second, parts.
    change ("/schedules/" ++ seg)%string
      with (String "/" ("schedules" ++ String "/" seg))%string.
    cbn [append split_slash]. rewrite (split_segment seg Hno). cbn.
    apply String.eqb_neq in Hne. rewrite Hne. reflexivity. }
  unfold route. cbn [method pathname body]. rewrite Hnorm, Hsecond.
  set (p := ("/schedules/" ++ seg)%string).
  assert (Ea : (p =? "/users/approve")%string = false) by reflexivity.
  assert (Eb : (p =? "/users/admin")%string = false) by reflexivity.
  assert (Ep : prefix "/schedules/" p = true).
  { apply prefix_correct. subst p. clear. cbn. destruct seg; reflexivity. }
  change ("PUT" =? "GET")%string with false.
  change ("PUT" =? "POST")%string with false.
  change ("PUT" =? "DELETE")%string with false.
  change ("PUT" =? "PUT")%string with true.
  rewrite !andb_false_r, Ea, Eb, Ep. cbn [andb].
  reflexivity.
Qed.

Lemma toggleOnline_run (w : World) (o : option string) (s : Schedule) :
  flag (online s) -> In s (schedules (db w)) ->
  sqlite_rowid (JStr (String_ (schedule_id s))) = Some (schedule_id s) ->
  handle (toggleOnline o s) w
  = (mkReply 200 (sendJSON_origin "*" match o with Some x => x | None => "" end)
             (Json (OnlineSet (String_ (schedule_id s)) (1 - online s))),
     online_world (Some (schedule_id s)) (1 - online s) w).
Proof.
  intros Hflag Hin Hrow.
  destruct (String_segment (schedule_id s)) as [Hne Hno].
  unfold handle, toggleOnline. cbn [method origin].
  change ("PUT" =? "OPTIONS")%string with false. cbv iota.
  unfold bind at 1. rewrite (route_put_schedule _ _ _ _ Hne Hno).
  set (newOnline := if normalizeOnline (JNum (online s)) then 0 else 1).
  set (patch := JObj [("online", JNum newOnline)]).
  assert (Hdef : typeof (get patch "online") <> TUndefined) by (cbn; discriminate).
  pose proof (update_schedule_run w (String_ (schedule_id s)) patch Hne eq_refl Hdef)
    as Hrun.
  cbv zeta in Hrun. rewrite Hrun, Hrow.
  assert (Hval : (if truthy (get patch "online") then 1 else 0) = 1 - online s).
  { change (get patch "online") with (JNum newOnline). subst newOnline.
    destruct Hflag as [-> | ->]; reflexivity. }
  rewrite Hval.
  assert (Hex : existsb (fun x => matches (Some (schedule_id s)) (schedule_id x))
                        (schedules (db w)) = true).
  { apply existsb_exists. exists s. split; [exact Hin | cbn; apply Z.eqb_refl]. }
  rewrite Hex. reflexivity.
Qed.

(** X26. The online switch of the appointment page, end to end: for a
    listed schedule of a well-formed store, whose decimal id in the path
    SQLite compares equal to its rowid, the request the page sends is
    answered 200 with the flipped value, the store holds that value for
    that schedule and is otherwise unchanged, and switching again restores
    the store. *)
Theorem toggle_online_flips (w : World) (o : option string) (s : Schedule) :
  store_ok (db w) -> In s (schedules (db w)) ->
  sqlite_rowid (JStr (String_ (schedule_id s))) = Some (schedule_id s) ->
  let flipped := 1 - online s in
  let rep := fst (handle (toggleOnline o s) w) in
  let w' := snd (handle (toggleOnline o s) w) in
  reply_status rep = 200
  /\ reply_body rep = Json (OnlineSet (String_ (schedule_id s)) flipped)
  /\ In (set_online flipped s) (schedules (db w'))
  /\ (forall x, In x (schedules (db w)) -> x <> s -> In x (schedules (db w')))
  /\ List.length (schedules (db w')) = List.length (schedules (db w))
  /\ users (db w') = users (db w)
  /\ db (snd (handle (toggleOnline o (set_online flipped s)) w')) = db w.
Proof.
  intros Hok Hin Hrow flipped rep w'. subst rep w'.
  pose proof Hok as [_ _ _ _ Hids _ Hflags].
  assert (Hflag : flag (online s)).
  { rewrite Forall_forall in Hflags. exact (Hflags s Hin). }
  rewrite (toggleOnline_run w o s Hflag Hin Hrow). fold flipped.
  set (w1 := online_world (Some (schedule_id s)) flipped w).
  cbn [fst snd reply_status reply_body].
  assert (Hw1 : schedules (db w1)
                = map (fun x => if schedule_id s =? schedule_id x
                                then set_online flipped x else x) (schedules (db w)))
    by reflexivity.
  rewrite Hw1.
  set (g := fun x => if schedule_id s =? schedule_id x then set_online flipped x else x).
  assert (Hother : forall x, In x (schedules (db w)) -> x <> s -> g x = x).
  { intros x Hx Hne. unfold g.
    destruct (Z.eqb_spec (schedule_id s) (schedule_id x)) as [E | E]; [| reflexivity].
    exfalso. apply Hne.
    exact (NoDup_map_eq schedule_id (schedules (db w)) x s Hids Hx Hin (eq_sym E)). }
  assert (Hself : g s = set_online flipped s).
  { unfold g. rewrite Z.eqb_refl. reflexivity. }
  split; [reflexivity |]. split; [reflexivity |]. split.
  { rewrite <- Hself. apply in_map. exact Hin. }
  split.
  { intros x Hx Hne. rewrite <- (Hother x Hx Hne). apply in_map. exact Hx. }
  split; [apply length_map |]. split; [reflexivity |].
  assert (Hflag1 : flag (online (set_online flipped s))).
  { cbn. subst flipped. destruct Hflag as [-> | ->]; [right | left]; reflexivity. }
  assert (Hin1 : In (set_online flipped s) (schedules (db w1))).
  { rewrite Hw1. fold g. rewrite <- Hself. apply in_map. exact Hin. }
  rewrite (toggleOnline_run w1 o (set_online flipped s) Hflag1 Hin1 Hrow).
  cbn [snd]. unfold online_world at 1. cbn [db set_online schedule_id online matches].
  rewrite Hw1. fold g.
  change (users (db w1)) with (users (db w)).
  change (users_seq (db w1)) with (users_seq (db w)).
  change (schedules_seq (db w1)) with (schedules_seq (db w)).
  rewrite map_map.
  rewrite (map_ext_in _ (fun x => x)).
  - rewrite map_id. destruct (db w). reflexivity.
  - intros x Hx.
    destruct (Z.eqb_spec (schedule_id s) (schedule_id x)) as [E | E].
    + assert (x = s)
        by exact (NoDup_map_eq schedule_id (schedules (db w)) x s Hids Hx Hin (eq_sym E)).
      subst x. rewrite Hself. cbn [set_online schedule_id]. rewrite Z.eqb_refl.
      subst flipped. replace (1 - (1 - online s)) with (online s) by lia.
      destruct s; reflexivity.
    + unfold g. destruct (Z.eqb_spec (schedule_id s) (schedule_id x)); [contradiction |].
      destruct (Z.eqb_spec (schedule_id s) (schedule_id x)); [contradiction |].
      reflexivity.
Qed.

End SwitchFacts.

(** ** More statements at concrete requests *)

Section MoreRuns.

Import Server Api Pages.
Local Existing Instance plain_collaborators.
Local Existing Instance plain_host.

Lemma office_ok : store_ok (db office).
Proof.
  constructor; cbn.
  - repeat (apply NoDup_cons; [cbn; intuition discriminate |]). apply NoDup_nil.
  - repeat (apply NoDup_cons; [cbn; intuition discriminate |]). apply NoDup_nil.
  - repeat (apply Forall_cons; [cbn; lia |]). apply Forall_nil.
  - repeat (apply Forall_cons; [unfold flag; cbn; auto |]). apply Forall_nil.
  - repeat (apply NoDup_cons; [cbn; intuition discriminate |]). apply NoDup_nil.
  - repeat (apply Forall_cons; [cbn; lia |]). apply Forall_nil.
  - repeat (apply Forall_cons; [unfold flag; cbn; auto |]). apply Forall_nil.
Qed.

Lemma schedules_segment_witness : second (normalize "/schedules/12/") <> "".
Proof.
  destruct (schedules_segment "/schedules/12/" eq_refl) as [Hne _]. exact Hne.
Defined.

Lemma reads_change_nothing_witness :
  snd (handle (mkRequest "GET" "/users/pending" None (Resolved JNull)) office) = office.
Proof.
  apply (reads_change_nothing (mkRequest "GET" "/users/pending" None (Resolved JNull))).
  left. reflexivity.
Defined.

Lemma unknown_method_not_found_witness :
  reply_status (fst (handle (mkRequest "PATCH" "/users" None (Resolved JNull)) office))
  = 404.
Proof.
  apply (unknown_method_not_found (mkRequest "PATCH" "/users" None (Resolved JNull))).
  cbn. intuition discriminate.
Defined.

Lemma handle_keeps_store_witness :
  store_ok (db (snd (handle (mkRequest "POST" "/users" None
                               (Resolved (object [("name", "Eva"); ("email", "eva@gaj.br");
                                                  ("password", "x1")]))) office))).
Proof. apply handle_keeps_store. exact office_ok. Defined.

Lemma reject_removes_witness :
  users (db (snd (reject (Resolved (JObj [("id", JNum 1)])) office))) = [rui].
Proof.
  assert (Hid : typeof (get (JObj [("id", JNum 1)]) "id") <> TUndefined)
    by (cbn; discriminate).
  destruct (reject_removes office (JObj [("id", JNum 1)]) Hid)
    as (_ & _ & _ & Husers & _).
  rewrite Husers. reflexivity.
Defined.

Lemma toggle_admin_flips_witness :
  fst (toggle_admin (Resolved (JObj [("id", JNum 2)])) office)
  = mkAnswer 200 (AdminSet (JNum 2) 0).
Proof.
  assert (Hid : typeof (get (JObj [("id", JNum 2)]) "id") <> TUndefined)
    by (cbn; discriminate).
  destruct (toggle_admin_flips office (JObj [("id", JNum 2)]) Hid) as [_ Hfound].
  destruct (Hfound rui eq_refl) as [Hanswer _]. exact Hanswer.
Defined.

Lemma registration_lifecycle_witness :
  exists payload id,
    register_form "Eva" "eva@gaj.br" "x1" "" = inr payload
    /\ fst (create_user (Resolved payload) empty_world)
       = sendJSON (Created id "Cadastro enviado, aguarde aprovação") 201.
Proof.
  destruct (registration_lifecycle empty_world "Eva" "eva@gaj.br" "x1" "" "$2a$x1")
    as (payload & id & Hform & Hcreated & _);
    try discriminate; try reflexivity.
  - intros u [].
  - exists payload, id. split; assumption.
Defined.

Lemma admin_created_user_witness :
  exists payload id,
    admin_form "Eva" "eva@gaj.br" "x1" "" true = inr payload
    /\ fst (create_user (Resolved payload) empty_world)
       = sendJSON (Created id "Usuário criado e aprovado") 201.
Proof.
  destruct (admin_created_user empty_world "Eva" "eva@gaj.br" "x1" "" "$2a$x1" true)
    as (payload & id & Hform & Hcreated & _);
    try discriminate; try reflexivity.
  - intros u [].
  - exists payload, id. split; assumption.
Defined.

Lemma delete_schedule_removes_witness :
  schedules (db (snd (delete_schedule "1" office))) = [].
Proof.
  assert (Hid : "1" <> "") by discriminate.
  destruct (delete_schedule_removes office "1" Hid) as (_ & _ & _ & Hrows & _).
  rewrite Hrows. reflexivity.
Defined.

Lemma created_schedule_is_listed_witness :
  date (new_schedule (object [("lawyer", "Rui"); ("client", "Carla");
                              ("date", "2024-02-02"); ("time", "10:00")]) office)
  = "2024-02-02".
Proof.
  destruct (created_schedule_is_listed office
              (object [("lawyer", "Rui"); ("client", "Carla");
                       ("date", "2024-02-02"); ("time", "10:00")])
              "2024-02-02" eq_refl eq_refl eq_refl) as (_ & Hdate & _).
  exact Hdate.
Defined.

Lemma schedule_ids_grow_witness : 2 < 3.
Proof.
  destruct schedule_ids_grow as [Hgrow _].
  assert (Hzero : 0 <= schedules_seq (db office)) by (cbn; lia).
  destruct (Hgrow office false false
              (object [("lawyer", "Rui"); ("client", "Carla");
                       ("date", "2024-02-02"); ("time", "10:00")])
              (object [("lawyer", "Rui"); ("client", "Dora");
                       ("date", "2024-02-03"); ("time", "11:00")])
              "2" 2 3 "Agendamento criado" "Agendamento criado"
              Hzero eq_refl eq_refl)
    as (row1 & row2 & _ & E2 & _ & _ & _ & Hsmall).
  injection E2 as <-.
  destruct Hsmall as (_ & _ & Hlt); [vm_compute; discriminate | exact Hlt].
Defined.

Lemma bootstrap_creates_admin_witness :
  exists id,
    users (db (snd (bootstrap empty_world)))
    = [] ++ [mkUser id "Admin" "admin@admin.com" "$2a$admin" None 1 1].
Proof.
  destruct (bootstrap_creates_admin empty_world "$2a$admin") as (id & Husers & _).
  - intros u [].
  - reflexivity.
  - exists id. exact Husers.
Defined.

Lemma bootstrap_settles_witness :
  bootstrap (snd (bootstrap office)) = (tt, snd (bootstrap office)).
Proof.
  destruct (bootstrap_settles office office_ok) as (_ & _ & _ & _ & Hagain).
  - intros n s. exists ("$2a$" ++ s)%string. split; reflexivity.
  - exact Hagain.
Defined.

Lemma form_submission_witness :
  fst (create_schedule
         (Resolved (JObj [("lawyer", JStr "Rui"); ("client", JStr "Carla");
                          ("process_number", JStr "");
                          ("online", JNum 1);
                          ("date", JStr "2024-02-02"); ("time", JStr "9:30");
                          ("notes", JStr "")])) office)
  = sendJSON (Error "Horário inválido (deve ser entre 06:00 e 18:00)") 400.
Proof.
  destruct (form_submission office "Rui" "Carla" "" true "2024-02-02" "9:30" "" _ eq_refl)
    as [_ Hrefused].
  destruct (Hrefused eq_refl) as [Hr _]. exact Hr.
Defined.

Lemma month_navigation_witness :
  gotoNextMonth (gotoPrevMonth (mkView 2024 0 None)) = mkView 2024 0 None.
Proof.
  assert (Hm : 0 <= displayMonth (mkView 2024 0 None) <= 11) by (cbn; lia).
  destruct (month_navigation (mkView 2024 0 None) Hm) as (_ & _ & Hback & _).
  exact Hback.
Defined.

Lemma next_month_starts_after_witness :
  exists start days,
    startDayIndex brasilia 2024 1 = Some start
    /\ daysInMonth brasilia 2024 1 = Some days
    /\ startDayIndex brasilia 2024 2 = Some ((start + days) mod 7).
Proof.
  assert (Hm : 0 <= displayMonth (mkView 2024 1 None) <= 11) by (cbn; lia).
  assert (Hy : 100 <= displayYear (mkView 2024 1 None) <= 275758) by (cbn; lia).
  assert (Hk : keeps_month brasilia 2024 1 = true) by (vm_compute; reflexivity).
  assert (Hk' : keeps_month brasilia 2024 2 = true) by (vm_compute; reflexivity).
  exact (next_month_starts_after brasilia (mkView 2024 1 None) Hm Hy Hk Hk').
Defined.

Lemma marked_days_have_schedules_witness :
  hasEvents (mkCell 1 "2024-02-01" true) = true
  <-> selectedSchedules (Some (dateStr (mkCell 1 "2024-02-01" true))) [hearing] <> [].
Proof.
  apply (marked_days_have_schedules brasilia (mkView 2024 1 None) [hearing]).
  do 4 right. left. vm_compute. reflexivity.
Defined.

Lemma grid_weeks_witness :
  Z.of_nat (List.length (calendarCells brasilia 2026 1 [])) = 28
  \/ Z.of_nat (List.length (calendarCells brasilia 2026 1 [])) = 35
  \/ Z.of_nat (List.length (calendarCells brasilia 2026 1 [])) = 42.
Proof.
  assert (Hm : 0 <= 1 <= 11) by lia.
  assert (Hy : -271820 <= full_year 2026 <= 275759) by (vm_compute; split; discriminate).
  assert (Hk : keeps_month brasilia (full_year 2026) 1 = true) by (vm_compute; reflexivity).
  destruct (grid_weeks brasilia 2026 1 [] Hm Hy Hk) as [Hsize _]. exact Hsize.
Defined.

Lemma date_strings_witness :
  String.length (dateStr (mkCell 1 "2024-02-01" false)) = 10%nat.
Proof.
  assert (Hm : 0 <= 1 <= 11) by lia.
  assert (Hy : -271820 <= full_year 2024 <= 275759) by (vm_compute; split; discriminate).
  assert (Hy4 : 1000 <= full_year 2024 <= 9999) by (vm_compute; split; discriminate).
  assert (Hk : keeps_month brasilia (full_year 2024) 1 = true) by (vm_compute; reflexivity).
  destruct (date_strings brasilia 2024 1 [] Hm Hy Hk) as [_ Hshape].
  assert (Hcell : nth_error (calendarCells brasilia 2024 1 []) 4
                  = Some (Some (mkCell 1 "2024-02-01" false)))
    by (vm_compute; reflexivity).
  destruct (Hshape Hy4 4%nat (mkCell 1 "2024-02-01" false) Hcell) as [Hlen _].
  exact Hlen.
Defined.

Lemma toggle_online_flips_witness :
  reply_status (fst (handle (toggleOnline None hearing) office)) = 200.
Proof.
  destruct (toggle_online_flips office None hearing office_ok) as [H200 _].
  - left. reflexivity.
  - reflexivity.
  - exact H200.
Defined.

End MoreRuns.
